(** * Chat-App: the in-memory store and the realtime relay

    A shallow embedding of [server/storage.ts] (class [MemStorage]),
    of the Socket.IO handlers and the registration route of
    [server/routes.ts], and of [server/messages.ts]
    ([handleWebSocketMessage]), with the properties of the relay proved
    over it.

    Conventions of the embedding.
    - A JavaScript [Map<number, V>] is an association list in insertion
      order ([JsMap]): [Array.from(m.values())] enumerates in that order
      and the store relies on it.  A [Set<number>] is a duplicate-free
      list in insertion order ([JsSet]).
    - Numbers that name users and messages are integers ([Z], unbounded:
      the counters never reach 2^53 in the model).  The one place where
      a non-integer arises is [Number(...)] in the handshake, whose
      result is a [jsnum]: an integer or [NaN].
    - [new Date()] is a reading of the server clock, passed to each
      operation as [now] (milliseconds).
    - [hashPassword] (scrypt with a random salt) is the runtime's; its
      result is passed to [createUser] as [hashedPassword].
    - A method that throws yields [Throw]; every throwing method of the
      store throws before its first write, so [Throw] carries no new
      store. *)

From Stdlib Require Import List ZArith String Ascii Bool Lia Sorted.
Import ListNotations.
Open Scope string_scope.
Open Scope list_scope.
Open Scope Z_scope.

Set Implicit Arguments.

(** ** Results of fallible calls *)

Inductive result (A : Type) : Type :=
| Ok (a : A)
| Throw (message : string).
Arguments Ok {A} a.
Arguments Throw {A} message.

(** [xs.filter((x) => x !== undefined)] *)
Fixpoint defined {A : Type} (xs : list (option A)) : list A :=
  match xs with
  | [] => []
  | Some a :: r => a :: defined r
  | None :: r => defined r
  end.

(** ** JavaScript [Map<number, V>], insertion ordered *)

Module JsMap.
Definition t (V : Type) := list (Z * V).

Section Ops.
Context {V : Type}.

Definition empty : t V := [].

Fixpoint get (m : t V) (k : Z) : option V :=
  match m with
  | [] => None
  | (k', v) :: r => if k =? k' then Some v else get r k
  end.

Definition has (m : t V) (k : Z) : bool :=
  match get m k with Some _ => true | None => false end.

(** [m.set(k, v)]: an existing key keeps its place, a new key goes
    to the end. *)
Fixpoint set (m : t V) (k : Z) (v : V) : t V :=
  match m with
  | [] => [(k, v)]
  | (k', v') :: r =>
      if k =? k' then (k, v) :: r else (k', v') :: set r k v
  end.

Definition delete (m : t V) (k : Z) : t V :=
  filter (fun e => negb (k =? fst e)) m.

Definition keys (m : t V) : list Z := map fst m.
Definition values (m : t V) : list V := map snd m.
End Ops.
End JsMap.

(** ** JavaScript [Set<number>], insertion ordered *)

Module JsSet.
Definition t := list Z.

Definition empty : t := [].

Definition has (s : t) (x : Z) : bool := existsb (Z.eqb x) s.

Definition add (s : t) (x : Z) : t := if has s x then s else s ++ [x].

Definition delete (s : t) (x : Z) : t := filter (fun y => negb (x =? y)) s.
End JsSet.

(** ** The schema types ([@shared/schema]) as the store uses them *)

Module User.
Record t := mk {
  id : Z;
  username : string;
  password : string;
  isAdmin : bool;
  status : string;
  publicKey : option string;
  lastSeen : Z
}.

(** [{ ...user, status, lastSeen: new Date() }] *)
Definition with_status (u : t) (st : string) (now : Z) : t :=
  mk (id u) (username u) (password u) (isAdmin u) st (publicKey u) now.

(** [{ ...user, isAdmin: true }] *)
Definition with_admin (u : t) : t :=
  mk (id u) (username u) (password u) true (status u) (publicKey u)
     (lastSeen u).

(** [{ ...user, publicKey }] *)
Definition with_publicKey (u : t) (pk : string) : t :=
  mk (id u) (username u) (password u) (isAdmin u) (status u) (Some pk)
     (lastSeen u).
End User.

Module InsertUser.
Record t := mk { username : string; password : string }.
End InsertUser.

(** [Partial<User>]: each field present or not. *)
Module PartialUser.
Record t := mk {
  id : option Z;
  username : option string;
  password : option string;
  isAdmin : option bool;
  status : option string;
  publicKey : option (option string);
  lastSeen : option Z
}.

Definition over {A : Type} (o : option A) (d : A) : A :=
  match o with Some a => a | None => d end.

(** [{ ...user, ...updates }] *)
Definition apply (u : User.t) (p : t) : User.t :=
  User.mk (over (id p) (User.id u))
          (over (username p) (User.username u))
          (over (password p) (User.password u))
          (over (isAdmin p) (User.isAdmin u))
          (over (status p) (User.status u))
          (over (publicKey p) (User.publicKey u))
          (over (lastSeen p) (User.lastSeen u)).
End PartialUser.

Module Message.
Record t := mk {
  id : Z;
  senderId : Z;
  receiverId : Z;
  content : string;
  timestamp : Z
}.
End Message.

Module InsertMessage.
Record t := mk { senderId : Z; receiverId : Z; content : string }.
End InsertMessage.

(** ** [class MemStorage] *)

Module MemStorage.
Record t := mk {
  users : JsMap.t User.t;
  messages : JsMap.t Message.t;
  contacts : JsMap.t JsSet.t;
  currentId : Z;
  currentMessageId : Z
}.

(** The fields the constructor initialises synchronously. *)
Definition empty : t := mk JsMap.empty JsMap.empty JsMap.empty 1 1.

Definition getUser (s : t) (id : Z) : option User.t :=
  JsMap.get (users s) id.

Definition getUserByUsername (s : t) (username : string)
  : option User.t :=
  find (fun user => String.eqb (User.username user) username)
       (JsMap.values (users s)).

Definition createUser (s : t) (insertUser : InsertUser.t)
           (hashedPassword : string) (now : Z) : t * User.t :=
  let id := currentId s in
  let user :=
    User.mk id (InsertUser.username insertUser) hashedPassword false
            "offline" None now in
  (mk (JsMap.set (users s) id user) (messages s)
      (JsMap.set (contacts s) id JsSet.empty) (id + 1)
      (currentMessageId s),
   user).

Definition getAllUsers (s : t) : list User.t := JsMap.values (users s).

Definition set_users (s : t) (us : JsMap.t User.t) : t :=
  mk us (messages s) (contacts s) (currentId s) (currentMessageId s).

Definition updateUserStatus (s : t) (id : Z) (status : string) (now : Z)
  : result (t * User.t) :=
  match getUser s id with
  | None => Throw "User not found"
  | Some user =>
      let updatedUser := User.with_status user status now in
      Ok (set_users s (JsMap.set (users s) id updatedUser), updatedUser)
  end.

Definition updateUser (s : t) (id : Z) (updates : PartialUser.t)
  : result (t * User.t) :=
  match getUser s id with
  | None => Throw "User not found"
  | Some user =>
      let updatedUser := PartialUser.apply user updates in
      Ok (set_users s (JsMap.set (users s) id updatedUser), updatedUser)
  end.

Definition updateUserPublicKey (s : t) (id : Z) (publicKey : string)
  : result (t * User.t) :=
  match getUser s id with
  | None => Throw "User not found"
  | Some user =>
      let updatedUser := User.with_publicKey user publicKey in
      Ok (set_users s (JsMap.set (users s) id updatedUser), updatedUser)
  end.

Definition banUser (s : t) (id : Z) : t :=
  mk (JsMap.delete (users s) id) (messages s)
     (map (fun e => (fst e, JsSet.delete (snd e) id))
          (JsMap.delete (contacts s) id))
     (currentId s) (currentMessageId s).

(** The predicate of the filter in [getMessages]. *)
Definition between (userId1 userId2 : Z) (msg : Message.t) : bool :=
  ((Message.senderId msg =? userId1)
     && (Message.receiverId msg =? userId2))
  || ((Message.senderId msg =? userId2)
        && (Message.receiverId msg =? userId1)).

Definition getMessages (s : t) (userId1 userId2 : Z) : list Message.t :=
  filter (between userId1 userId2) (JsMap.values (messages s)).

Definition createMessage (s : t) (message : InsertMessage.t) (now : Z)
  : t * Message.t :=
  let id := currentMessageId s in
  let newMessage :=
    Message.mk id (InsertMessage.senderId message)
               (InsertMessage.receiverId message)
               (InsertMessage.content message) now in
  (mk (users s) (JsMap.set (messages s) id newMessage) (contacts s)
      (currentId s) (id + 1),
   newMessage).

Definition deleteMessage (s : t) (id : Z) : t :=
  mk (users s) (JsMap.delete (messages s) id) (contacts s) (currentId s)
     (currentMessageId s).

Definition getContacts (s : t) (userId : Z) : list User.t :=
  let contactIds :=
    match JsMap.get (contacts s) userId with
    | Some c => c
    | None => JsSet.empty
    end in
  defined (map (fun id => JsMap.get (users s) id) contactIds).

Definition addContact (s : t) (userId contactId : Z) : t :=
  let cs :=
    if JsMap.has (contacts s) userId then contacts s
    else JsMap.set (contacts s) userId JsSet.empty in
  match JsMap.get cs userId with
  | Some c =>
      mk (users s) (messages s)
         (JsMap.set cs userId (JsSet.add c contactId))
         (currentId s) (currentMessageId s)
  | None => s
  end.

(** The store once the two [createUser] calls of the constructor and
    their [then] callbacks have run; the hashes and clock readings
    are the runtime's. *)
Definition boot (h1 h2 : string) (t1 t2 : Z) : t :=
  let '(s1, u1) :=
    createUser empty (InsertUser.mk "admin" "S1582834") h1 t1 in
  let '(s2, u2) :=
    createUser s1 (InsertUser.mk "Said158" "S@@d261008") h2 t2 in
  let s3 :=
    set_users s2 (JsMap.set (users s2) (User.id u1) (User.with_admin u1))
  in
  set_users s3 (JsMap.set (users s3) (User.id u2) (User.with_admin u2)).
End MemStorage.

(** ** [interface IStorage], the part the realtime handlers call *)

Class IStorage (S : Type) := {
  getUser : S -> Z -> option User.t;
  updateUserStatus : S -> Z -> string -> Z -> result (S * User.t);
  createMessage : S -> InsertMessage.t -> Z -> result (S * Message.t)
}.

#[export] Instance MemStorage_IStorage : IStorage MemStorage.t := {
  getUser := MemStorage.getUser;
  updateUserStatus := MemStorage.updateUserStatus;
  createMessage := fun s m now => Ok (MemStorage.createMessage s m now)
}.

(** A store whose persistence is unavailable: reads are served from the
    backing [MemStorage], every write is rejected.  It stands for an
    implementation of [IStorage] whose [createMessage] can fail, which
    the [catch] of the [chat_message] handler provides for. *)
Module DownStorage.
Record t := mk { backing : MemStorage.t }.
End DownStorage.

#[export] Instance DownStorage_IStorage : IStorage DownStorage.t := {
  getUser := fun s id => MemStorage.getUser (DownStorage.backing s) id;
  updateUserStatus := fun _ _ _ _ => Throw "store unavailable";
  createMessage := fun _ _ _ => Throw "store unavailable"
}.

(** ** JavaScript numbers as the handshake produces them *)

Inductive jsnum : Type :=
| NaN
| Num (z : Z).

(** [a !== b] on numbers: [NaN] differs from everything, itself
    included. *)
Definition strict_neq (a b : jsnum) : bool :=
  match a, b with
  | Num x, Num y => negb (x =? y)
  | _, _ => true
  end.

(** [if (n)] on a number: [0] and [NaN] are falsy. *)
Definition truthy (n : jsnum) : bool :=
  match n with
  | NaN => false
  | Num z => negb (z =? 0)
  end.

(** ** The realtime layer of [routes.ts] *)

(** What a connection attempt carries.  [session_user] is the identity
    that the login session of the HTTP exchange resolves to, if there
    is one; [auth_token] is [handshake.auth.token] and [query_userId]
    is [handshake.query.userId]. *)
Module Handshake.
Record t := mk {
  session_user : option Z;
  auth_token : option string;
  query_userId : option string
}.
End Handshake.

Module Socket.
Record t := mk {
  id : nat;
  handshake : Handshake.t;
  data_userId : jsnum;
  (** the [user_<n>] rooms the socket has joined, by [n] *)
  rooms : list Z
}.

Definition join (s : t) (room : Z) : t :=
  mk (id s) (handshake s) (data_userId s)
     (if existsb (Z.eqb room) (rooms s) then rooms s
      else rooms s ++ [room]).
End Socket.

Module ChatData.
Record t := mk {
  type : string;
  senderId : Z;
  receiverId : Z;
  content : string
}.
End ChatData.

(** Outbound events. *)
Inductive outbound : Type :=
| ev_error (message : string)
| ev_new_message (m : Message.t)
| ev_user_status_changed (userId : Z) (status : string).

(** Inbound events; [Connect] is a connection attempt, the others come
    from the socket named. *)
Inductive inbound : Type :=
| Connect (h : Handshake.t)
| Join (sid : nat) (userId : Z)
| ChatMessage (sid : nat) (data : ChatData.t)
| Disconnect (sid : nat).

Module Server.
Record t (S : Type) := mk {
  storage : S;
  sockets : list Socket.t;
  next_socket : nat;
  (** every event emitted so far, oldest first, with the socket it
      was delivered to *)
  sent : list (nat * outbound)
}.
Arguments mk {S} _ _ _ _.

Definition init {S : Type} (st : S) : t S := mk st [] 0%nat [].
End Server.

Section Realtime.
Context {S : Type} `{IStorage S}.

(** [Number(s)] on a query-string value is the runtime's conversion;
    the handlers are modelled for any such conversion. *)
Variable Number : string -> jsnum.

(** The [io.use] middleware: [Ok n] stands for [next()] with
    [socket.data.userId = n], [Throw] for [next(new Error(...))].
    A string is truthy when it is not empty. *)
Definition io_use (h : Handshake.t) : result jsnum :=
  match Handshake.auth_token h with
  | Some token =>
      if String.eqb token "session" then
        match Handshake.query_userId h with
        | Some userId =>
            if negb (String.eqb userId "") then Ok (Number userId)
            else Throw "Authentication error"
        | None => Throw "Authentication error"
        end
      else Throw "Authentication error"
  | None => Throw "Authentication error"
  end.

Definition find_socket (srv : Server.t S) (sid : nat) : option Socket.t :=
  find (fun s => Nat.eqb (Socket.id s) sid) (Server.sockets srv).

Definition with_storage (srv : Server.t S) (st : S) : Server.t S :=
  Server.mk st (Server.sockets srv) (Server.next_socket srv)
            (Server.sent srv).

Definition with_sockets (srv : Server.t S) (l : list Socket.t)
  : Server.t S :=
  Server.mk (Server.storage srv) l (Server.next_socket srv)
            (Server.sent srv).

Definition deliver (srv : Server.t S) (l : list (nat * outbound))
  : Server.t S :=
  Server.mk (Server.storage srv) (Server.sockets srv)
            (Server.next_socket srv) (Server.sent srv ++ l).

(** [socket.emit(ev)] *)
Definition socket_emit (srv : Server.t S) (sid : nat) (ev : outbound)
  : Server.t S :=
  deliver srv [(sid, ev)].

(** [io.emit(ev)]: every connected socket. *)
Definition io_emit (srv : Server.t S) (ev : outbound) : Server.t S :=
  deliver srv (map (fun s => (Socket.id s, ev)) (Server.sockets srv)).

Definition in_room (room : Z) (s : Socket.t) : bool :=
  existsb (Z.eqb room) (Socket.rooms s).

(** [io.to(room1).to(room2).emit(ev)]: every socket in one of the
    rooms, once. *)
Definition io_to_emit (srv : Server.t S) (room1 room2 : Z)
           (ev : outbound) : Server.t S :=
  deliver srv
    (map (fun s => (Socket.id s, ev))
         (filter (fun s => in_room room1 s || in_room room2 s)
                 (Server.sockets srv))).

(** A connection attempt: admitted by [io_use], the socket gets the
    next identifier. *)
Definition on_connection (srv : Server.t S) (h : Handshake.t)
  : Server.t S :=
  match io_use h with
  | Ok userId =>
      Server.mk (Server.storage srv)
                (Server.sockets srv
                   ++ [Socket.mk (Server.next_socket srv) h userId []])
                (Datatypes.S (Server.next_socket srv))
                (Server.sent srv)
  | Throw _ => srv
  end.

Definition update_socket (sock : Socket.t) (l : list Socket.t)
  : list Socket.t :=
  map (fun s => if Nat.eqb (Socket.id s) (Socket.id sock) then sock
                else s) l.

(** [socket.on("join", ...)].  The handler awaits [updateUserStatus]
    outside any [try]: when it rejects, what precedes it stays done,
    what follows does not run, and the rejection, which nothing
    handles, ends the process.  The [Throw] case gives the state in
    which the process ends; [rejects_unhandled] tells when that
    happens and [run_process] is the run that stops there. *)
Definition on_join (srv : Server.t S) (sid : nat) (userId : Z) (now : Z)
  : Server.t S :=
  match find_socket srv sid with
  | None => srv
  | Some socket =>
      if strict_neq (Num userId) (Socket.data_userId socket) then
        socket_emit srv sid (ev_error "Invalid user ID")
      else
        let srv1 :=
          with_sockets srv
            (update_socket (Socket.join socket userId)
                           (Server.sockets srv)) in
        match updateUserStatus (Server.storage srv1) userId "online" now
        with
        | Ok (st, _) =>
            io_emit (with_storage srv1 st)
                    (ev_user_status_changed userId "online")
        | Throw _ => srv1
        end
  end.

(** [socket.on("chat_message", ...)] *)
Definition on_chat_message (srv : Server.t S) (sid : nat)
           (data : ChatData.t) (now : Z) : Server.t S :=
  match find_socket srv sid with
  | None => srv
  | Some socket =>
      if strict_neq (Num (ChatData.senderId data))
                    (Socket.data_userId socket) then
        socket_emit srv sid (ev_error "Unauthorized message sender")
      else
        match createMessage (Server.storage srv)
                (InsertMessage.mk (ChatData.senderId data)
                                  (ChatData.receiverId data)
                                  (ChatData.content data)) now
        with
        | Ok (st, savedMessage) =>
            io_to_emit (with_storage srv st) (ChatData.senderId data)
                       (ChatData.receiverId data)
                       (ev_new_message savedMessage)
        | Throw _ =>
            socket_emit srv sid (ev_error "Failed to save message")
        end
  end.

(** [socket.on("disconnect", ...)]: the socket has left the server
    when the handler runs.  As in the [join] handler, a rejected
    [updateUserStatus] is handled by nothing and ends the process; the
    [Throw] case gives the state in which it ends. *)
Definition on_disconnect (srv : Server.t S) (sid : nat) (now : Z)
  : Server.t S :=
  match find_socket srv sid with
  | None => srv
  | Some socket =>
      let srv1 :=
        with_sockets srv
          (filter (fun s => negb (Nat.eqb (Socket.id s) sid))
                  (Server.sockets srv)) in
      match Socket.data_userId socket with
      | Num userId =>
          if truthy (Num userId) then
            match updateUserStatus (Server.storage srv1) userId
                                   "offline" now
            with
            | Ok (st, _) =>
                io_emit (with_storage srv1 st)
                        (ev_user_status_changed userId "offline")
            | Throw _ => srv1
            end
          else srv1
      | NaN => srv1
      end
  end.

Definition step (srv : Server.t S) (e : inbound * Z) : Server.t S :=
  match e with
  | (Connect h, _) => on_connection srv h
  | (Join sid userId, now) => on_join srv sid userId now
  | (ChatMessage sid data, now) => on_chat_message srv sid data now
  | (Disconnect sid, now) => on_disconnect srv sid now
  end.

(** The events of a run, each with the clock reading at which it is
    handled. *)
Definition run (srv : Server.t S) (es : list (inbound * Z))
  : Server.t S :=
  fold_left step es srv.
End Realtime.

(** ** [handleWebSocketMessage] of [messages.ts] *)

(** What the handler does with its two channels. *)
Inductive ws_out : Type :=
| ws_send_error (error : string)
| ws_broadcast_new_message (m : Message.t).

(** [/^[A-Za-z0-9+\/=]+$/] *)
Definition encoded_char (c : ascii) : bool :=
  let n := nat_of_ascii c in
  ((65 <=? n) && (n <=? 90))%nat
  || ((97 <=? n) && (n <=? 122))%nat
  || ((48 <=? n) && (n <=? 57))%nat
  || Ascii.eqb c "+" || Ascii.eqb c "/" || Ascii.eqb c "=".

Fixpoint all_encoded (s : string) : bool :=
  match s with
  | EmptyString => true
  | String c r => encoded_char c && all_encoded r
  end.

Definition looks_encrypted (s : string) : bool :=
  match s with
  | EmptyString => false
  | String _ _ => all_encoded s
  end.

Section WebSocketPath.
Context {S : Type} `{IStorage S}.

(** The [message] argument is given by what [JSON.parse] makes of it:
    [Throw] when it throws, the parsed object otherwise. *)
Definition handleWebSocketMessage (st : S) (parsed : result ChatData.t)
           (now : Z) : S * list ws_out :=
  match parsed with
  | Throw _ => (st, [ws_send_error "Invalid message format"])
  | Ok data =>
      if String.eqb (ChatData.type data) "chat" then
        match getUser st (ChatData.senderId data),
              getUser st (ChatData.receiverId data) with
        | Some _, Some _ =>
            if negb (looks_encrypted (ChatData.content data)) then
              (st, [ws_send_error "Message must be encrypted"])
            else
              match createMessage st
                      (InsertMessage.mk (ChatData.senderId data)
                                        (ChatData.receiverId data)
                                        (ChatData.content data)) now
              with
              | Ok (st', savedMessage) =>
                  (st', [ws_broadcast_new_message savedMessage])
              | Throw _ => (st, [ws_send_error "Failed to save message"])
              end
        | _, _ => (st, [ws_send_error "Invalid sender or receiver"])
        end
      else (st, [])
  end.
End WebSocketPath.

(** ** [POST /api/register] *)

Inductive response : Type :=
| json_message (code : Z) (message : string)
| json_user (code : Z) (user : User.t).

(** [parsed] is the outcome of [insertUserSchema.parse(req.body)];
    [login_err] tells whether [req.login] hands an error to its
    callback, in which case the callback throws and no response is
    written by this route. *)
Definition register (s : MemStorage.t) (parsed : result InsertUser.t)
           (hashedPassword : string) (now : Z) (login_err : bool)
  : MemStorage.t * option response :=
  match parsed with
  | Throw _ => (s, Some (json_message 400 "Invalid request"))
  | Ok insertUser =>
      match MemStorage.getUserByUsername s (InsertUser.username insertUser)
      with
      | Some _ => (s, Some (json_message 400 "Username already exists"))
      | None =>
          let '(s', user) :=
            MemStorage.createUser s insertUser hashedPassword now in
          if login_err then (s', None)
          else (s', Some (json_user 201 user))
      end
  end.

(** ** Runs of [createMessage] *)

(** A sequence of [createMessage] calls, each with the clock reading
    of its [new Date()]; the result is the final store and the
    messages returned, in call order. *)
Fixpoint createMessages (s : MemStorage.t)
         (calls : list (InsertMessage.t * Z))
  : MemStorage.t * list Message.t :=
  match calls with
  | [] => (s, [])
  | (message, now) :: rest =>
      let '(s1, saved) := MemStorage.createMessage s message now in
      let '(s2, more) := createMessages s1 rest in
      (s2, saved :: more)
  end.

(** The [InsertMessage] a stored message was made from. *)
Definition inserted (m : Message.t) : InsertMessage.t :=
  InsertMessage.mk (Message.senderId m) (Message.receiverId m)
                   (Message.content m).

(** A call is between [a] and [b], in one direction or the other. *)
Definition addressed (a b : Z) (message : InsertMessage.t) : bool :=
  ((InsertMessage.senderId message =? a)
     && (InsertMessage.receiverId message =? b))
  || ((InsertMessage.senderId message =? b)
        && (InsertMessage.receiverId message =? a)).

(** The keys of the message map were all handed out by the counter. *)
Definition message_ids_below (s : MemStorage.t) : Prop :=
  Forall (fun k => k < MemStorage.currentMessageId s)
         (JsMap.keys (MemStorage.messages s)).

(** ** Connections and what they are bound to *)

(** What identifies a connection and what it is bound to. *)
Definition binding (s : Socket.t) : nat * Handshake.t * jsnum :=
  (Socket.id s, Socket.handshake s, Socket.data_userId s).

(** The connection carried the marker ["session"] and a non-empty
    [userId] parameter, and is bound to the number that parameter
    converts to. *)
Definition accepted_as_claimed (Number : string -> jsnum) (s : Socket.t)
  : Prop :=
  Handshake.auth_token (Socket.handshake s) = Some "session"
  /\ exists claimed,
      Handshake.query_userId (Socket.handshake s) = Some claimed
      /\ claimed <> ""
      /\ Socket.data_userId s = Number claimed.

(** The only room a connection has joined is the one of the userId it
    is bound to. *)
Definition joined_own_room (s : Socket.t) : Prop :=
  forall room, In room (Socket.rooms s) -> Socket.data_userId s = Num room.

(** Socket identifiers are distinct and were all handed out by the
    counter. *)
Definition sockets_wf {S : Type} (srv : Server.t S) : Prop :=
  NoDup (map Socket.id (Server.sockets srv))
  /\ Forall (fun i => (i < Server.next_socket srv)%nat)
            (map Socket.id (Server.sockets srv)).

(** [Number] on the strings of decimal digits, on which it is the
    number written; it serves to run the handlers on concrete
    handshakes, whose [userId] parameters are such strings. *)
Fixpoint digits (s : string) (acc : Z) : jsnum :=
  match s with
  | EmptyString => Num acc
  | String c r =>
      let n := nat_of_ascii c in
      if ((48 <=? n) && (n <=? 57))%nat
      then digits r (10 * acc + Z.of_nat (n - 48))
      else NaN
  end.

Definition Number_of_digits (s : string) : jsnum := digits s 0.

(** ** Concrete stores, servers and runs *)

(** A store with the two users of the constructor, a contact edge and
    one message. *)
Definition sample_store : MemStorage.t :=
  let s := MemStorage.boot "h1.s1" "h2.s2" 1000 1001 in
  let s := MemStorage.addContact s 1 2 in
  fst (MemStorage.createMessage s (InsertMessage.mk 1 2 "QUJDRA==") 1002).

(** The handshake of a client with no login session that carries the
    marker and claims [userId]. *)
Definition plain_handshake (userId : string) : Handshake.t :=
  Handshake.mk None (Some "session") (Some userId).

(** Three sockets: two admitted as user 1 and joined, one admitted as
    user 3. *)
Definition sample_sockets : list Socket.t :=
  [ Socket.mk 0 (plain_handshake "1") (Num 1) [1];
    Socket.mk 1 (plain_handshake "1") (Num 1) [1];
    Socket.mk 2 (plain_handshake "3") (Num 3) [] ].

Definition sample_server : Server.t MemStorage.t :=
  Server.mk sample_store sample_sockets 3%nat [].

Definition down_server : Server.t DownStorage.t :=
  Server.mk (DownStorage.mk sample_store) sample_sockets 3%nat [].

(** Two connections of user 1, admitted and joined. *)
Definition joined_server : Server.t MemStorage.t :=
  run Number_of_digits (Server.init sample_store)
      [(Connect (plain_handshake "1"), 2000);
       (Connect (plain_handshake "1"), 2001);
       (Join 0 1, 2002); (Join 1 1, 2003)].

(** Five calls, three of them between users 1 and 2. *)
Definition sample_calls : list (InsertMessage.t * Z) :=
  [ (InsertMessage.mk 1 2 "QQ==", 2000);
    (InsertMessage.mk 2 3 "WA==", 2001);
    (InsertMessage.mk 2 1 "Qg==", 2001);
    (InsertMessage.mk 3 1 "WQ==", 2004);
    (InsertMessage.mk 1 2 "Qw==", 2005) ].

(** A connection is bound as its handshake claimed and has joined no
    room but its own. *)
Definition bound_well (Number : string -> jsnum) (s : Socket.t) : Prop :=
  accepted_as_claimed Number s /\ joined_own_room s.

(** Every record is stored under its own id: [createUser] stores each
    record so and the status and key updates keep it. *)
Definition users_keyed (s : MemStorage.t) : Prop :=
  Forall (fun e => User.id (snd e) = fst e) (MemStorage.users s).

(** ** Calls on the store *)

(** The mutating methods of [MemStorage], as calls with their
    arguments and, where the method reads the clock or is handed a
    hash, with those. *)
Inductive store_call : Type :=
| call_createUser (insertUser : InsertUser.t) (hashedPassword : string)
                  (now : Z)
| call_updateUserStatus (id : Z) (status : string) (now : Z)
| call_updateUser (id : Z) (updates : PartialUser.t)
| call_updateUserPublicKey (id : Z) (publicKey : string)
| call_banUser (id : Z)
| call_createMessage (message : InsertMessage.t) (now : Z)
| call_deleteMessage (id : Z)
| call_addContact (userId contactId : Z).

(** The store a call leaves: the new store when the method returns,
    the store as it was when it throws. *)
Definition after {A : Type} (s : MemStorage.t)
           (r : result (MemStorage.t * A)) : MemStorage.t :=
  match r with
  | Ok (s', _) => s'
  | Throw _ => s
  end.

Definition perform (s : MemStorage.t) (c : store_call) : MemStorage.t :=
  match c with
  | call_createUser insertUser hashedPassword now =>
      fst (MemStorage.createUser s insertUser hashedPassword now)
  | call_updateUserStatus id status now =>
      after s (MemStorage.updateUserStatus s id status now)
  | call_updateUser id updates =>
      after s (MemStorage.updateUser s id updates)
  | call_updateUserPublicKey id publicKey =>
      after s (MemStorage.updateUserPublicKey s id publicKey)
  | call_banUser id => MemStorage.banUser s id
  | call_createMessage message now =>
      fst (MemStorage.createMessage s message now)
  | call_deleteMessage id => MemStorage.deleteMessage s id
  | call_addContact userId contactId =>
      MemStorage.addContact s userId contactId
  end.

(** [updateUser] spreads whatever fields it is given over the record;
    a call keeps ids when it is not given an [id] field. *)
Definition keeps_id (c : store_call) : Prop :=
  match c with
  | call_updateUser _ updates => PartialUser.id updates = None
  | _ => True
  end.

(** The record of [id] is gone for good: absent, and [id] below the
    counter that hands out new ids. *)
Definition gone (id : Z) (s : MemStorage.t) : Prop :=
  users_keyed s
  /\ MemStorage.getUser s id = None
  /\ id < MemStorage.currentId s.

(** ** [auth.ts]: password hashes *)

(** A [Buffer] is a list of bytes.  [buf.toString("hex")]: two
    lower-case hexadecimal digits per byte. *)
Definition hex_digit (n : nat) : ascii :=
  nth n (list_ascii_of_string "0123456789abcdef") "0"%char.

Fixpoint toHex (buf : list Byte.byte) : string :=
  match buf with
  | [] => EmptyString
  | b :: r =>
      let n := Byte.to_nat b in
      String (hex_digit (n / 16)) (String (hex_digit (n mod 16)) (toHex r))
  end.

(** The value of a hexadecimal digit, either case. *)
Definition hex_value (c : ascii) : option nat :=
  let n := nat_of_ascii c in
  if ((48 <=? n) && (n <=? 57))%nat then Some (n - 48)%nat
  else if ((97 <=? n) && (n <=? 102))%nat then Some (n - 87)%nat
  else if ((65 <=? n) && (n <=? 70))%nat then Some (n - 55)%nat
  else None.

(** [Buffer.from(s, "hex")]: one byte per pair of digits, up to the
    first pair that is not hexadecimal; an odd last character is
    dropped. *)
Fixpoint fromHex (s : string) : list Byte.byte :=
  match s with
  | String c1 (String c2 r) =>
      match hex_value c1, hex_value c2 with
      | Some h, Some l =>
          match Byte.of_nat (16 * h + l) with
          | Some b => b :: fromHex r
          | None => []
          end
      | _, _ => []
      end
  | _ => []
  end.

(** [s.split(sep)] for a one-character separator. *)
Fixpoint split (sep : ascii) (s : string) : list string :=
  match s with
  | EmptyString => [EmptyString]
  | String c r =>
      if Ascii.eqb c sep then EmptyString :: split sep r
      else match split sep r with
           | part :: parts => String c part :: parts
           | [] => [String c EmptyString]
           end
  end.

Definition byte_eqb (a b : Byte.byte) : bool :=
  Nat.eqb (Byte.to_nat a) (Byte.to_nat b).

Fixpoint bytes_eqb (a b : list Byte.byte) : bool :=
  match a, b with
  | [], [] => true
  | x :: a', y :: b' => byte_eqb x y && bytes_eqb a' b'
  | _, _ => false
  end.

(** [timingSafeEqual(a, b)] throws on buffers of different lengths. *)
Definition timingSafeEqual (a b : list Byte.byte) : result bool :=
  if Nat.eqb (List.length a) (List.length b) then Ok (bytes_eqb a b)
  else Throw "Input buffers must have the same byte length".

Section Passwords.
(** [scrypt(password, salt, keylen)] is the runtime's key derivation. *)
Variable scrypt : string -> string -> nat -> list Byte.byte.

(** [hashPassword], given the bytes [randomBytes(16)] returns. *)
Definition hashPassword (password : string) (random : list Byte.byte)
  : string :=
  let salt := toHex random in
  let buf := scrypt password salt 64 in
  (toHex buf ++ "." ++ salt)%string.

(** [comparePasswords]: [const [hashed, salt] = stored.split(".")]; with
    no second part the salt is [undefined] and [scrypt] rejects it. *)
Definition comparePasswords (supplied stored : string) : result bool :=
  match split "." stored with
  | hashed :: salt :: _ =>
      let hashedBuf := fromHex hashed in
      let suppliedBuf := scrypt supplied salt 64 in
      timingSafeEqual hashedBuf suppliedBuf
  | _ => Throw "The salt argument must be a string or a buffer"
  end.

(** What the verify callback of the [LocalStrategy] hands to [done]. *)
Inductive done : Type :=
| done_error (message : string)
| done_false (message : string)
| done_user (user : User.t).

Definition verify (s : MemStorage.t) (username password : string) : done :=
  match MemStorage.getUserByUsername s username with
  | None => done_false "Invalid username or password"
  | Some user =>
      match comparePasswords password (User.password user) with
      | Throw err => done_error err
      | Ok false => done_false "Invalid username or password"
      | Ok true => done_user user
      end
  end.
End Passwords.

(** ** [auth.ts]: sessions and the two guards *)

(** [passport.serializeUser] *)
Definition serializeUser (user : User.t) : Z := User.id user.

(** [passport.deserializeUser]: [None] stands for [done(null, false)]. *)
Definition deserializeUser (s : MemStorage.t) (id : Z) : option User.t :=
  MemStorage.getUser s id.

(** [req.user] of a request: the user its session deserializes to; a
    request without a login session has none. *)
Definition req_user (s : MemStorage.t) (session : option Z)
  : option User.t :=
  match session with
  | Some id => deserializeUser s id
  | None => None
  end.

(** What a route answers. *)
Inductive reply : Type :=
| reply_message (code : Z) (message : string)
| reply_status (code : Z)
| reply_user (user : User.t)
| reply_users (users : list User.t)
| reply_messages (messages : list Message.t).

(** [requireAuth] and [requireAdmin]: [Ok user] stands for [next()],
    with the [req.user] the route then reads. *)
Definition requireAuth (user : option User.t) : reply + User.t :=
  match user with
  | None => inl (reply_message 401 "Unauthorized")
  | Some u => inr u
  end.

Definition requireAdmin (user : option User.t) : reply + User.t :=
  match user with
  | None => inl (reply_message 403 "Forbidden")
  | Some u =>
      if negb (User.isAdmin u) then inl (reply_message 403 "Forbidden")
      else inr u
  end.

(** ** The request routes of [routes.ts]

    A numeric path parameter is given by what [parseInt] makes of it:
    an integer or [NaN]. *)

(** [GET /api/contacts] *)
Definition get_contacts (s : MemStorage.t) (session : option Z) : reply :=
  match requireAuth (req_user s session) with
  | inl r => r
  | inr user => reply_users (MemStorage.getContacts s (User.id user))
  end.

(** [POST /api/contacts]; [username] is [req.body.username]. *)
Definition post_contacts (s : MemStorage.t) (session : option Z)
           (username : option string) : MemStorage.t * reply :=
  match requireAuth (req_user s session) with
  | inl r => (s, r)
  | inr user =>
      match username with
      | None => (s, reply_message 400 "Username is required")
      | Some name =>
          if String.eqb name "" then
            (s, reply_message 400 "Username is required")
          else
            match MemStorage.getUserByUsername s name with
            | None => (s, reply_message 404 "User not found")
            | Some contact =>
                if User.id contact =? User.id user then
                  (s, reply_message 400 "Cannot add yourself as a contact")
                else
                  (MemStorage.addContact s (User.id user) (User.id contact),
                   reply_user contact)
            end
      end
  end.

(** [GET /api/messages/:userId] *)
Definition get_messages (s : MemStorage.t) (session : option Z)
           (userId : jsnum) : reply :=
  match requireAuth (req_user s session) with
  | inl r => r
  | inr user =>
      match userId with
      | NaN => reply_message 400 "Invalid user ID"
      | Num other =>
          reply_messages (MemStorage.getMessages s (User.id user) other)
      end
  end.

(** [GET /api/users/:id] *)
Definition get_user (s : MemStorage.t) (session : option Z) (id : jsnum)
  : reply :=
  match requireAuth (req_user s session) with
  | inl r => r
  | inr _ =>
      match id with
      | NaN => reply_message 400 "Invalid user ID"
      | Num userId =>
          match MemStorage.getUser s userId with
          | None => reply_message 404 "User not found"
          | Some user => reply_user user
          end
      end
  end.

(** [GET /api/admin/users] *)
Definition admin_get_users (s : MemStorage.t) (session : option Z)
  : reply :=
  match requireAdmin (req_user s session) with
  | inl r => r
  | inr _ => reply_users (MemStorage.getAllUsers s)
  end.

(** [PATCH /api/admin/users/:id]; [body] is [req.body]. *)
Definition admin_patch_user (s : MemStorage.t) (session : option Z)
           (id : jsnum) (body : PartialUser.t) : MemStorage.t * reply :=
  match requireAdmin (req_user s session) with
  | inl r => (s, r)
  | inr admin =>
      match id with
      | NaN => (s, reply_message 400 "Invalid user ID")
      | Num userId =>
          match MemStorage.getUser s userId with
          | None => (s, reply_message 404 "User not found")
          | Some _ =>
              if (userId =? User.id admin)
                 && (match PartialUser.isAdmin body with
                     | Some _ => true
                     | None => false
                     end)
              then
                (s, reply_message 403 "Cannot modify your own admin status")
              else
                match MemStorage.updateUser s userId body with
                | Ok (s', updatedUser) => (s', reply_user updatedUser)
                | Throw _ => (s, reply_message 500 "Failed to update user")
                end
          end
      end
  end.

(** [DELETE /api/admin/users/:id] *)
Definition admin_delete_user (s : MemStorage.t) (session : option Z)
           (id : jsnum) : MemStorage.t * reply :=
  match requireAdmin (req_user s session) with
  | inl r => (s, r)
  | inr admin =>
      match id with
      | NaN => (s, reply_message 400 "Invalid user ID")
      | Num userId =>
          if userId =? User.id admin then
            (s, reply_message 403 "Cannot delete your own account")
          else (MemStorage.banUser s userId, reply_status 200)
      end
  end.

(** ** What the store keeps *)

(** The keys of the user map were all handed out by the counter. *)
Definition user_ids_below (s : MemStorage.t) : Prop :=
  Forall (fun k => k < MemStorage.currentId s)
         (JsMap.keys (MemStorage.users s)).

(** The three maps have one entry per key, every contact set has one
    entry per member, records sit under their own ids, and no key is
    ahead of its counter. *)
Definition store_wf (s : MemStorage.t) : Prop :=
  NoDup (JsMap.keys (MemStorage.users s))
  /\ NoDup (JsMap.keys (MemStorage.messages s))
  /\ NoDup (JsMap.keys (MemStorage.contacts s))
  /\ Forall (fun e => NoDup (snd e)) (MemStorage.contacts s)
  /\ users_keyed s
  /\ Forall (fun e => Message.id (snd e) = fst e) (MemStorage.messages s)
  /\ user_ids_below s
  /\ message_ids_below s.

(** The characters of [A-Za-z0-9+/=], listed. *)
Definition encoded_alphabet : list ascii :=
  list_ascii_of_string
    "ABCDEFGHIJKLMNOPQRSTUVWXYZabcdefghijklmnopqrstuvwxyz0123456789+/=".

(** The sockets an event to the rooms of [a] and [b] reaches. *)
Definition recipients {S : Type} (srv : Server.t S) (a b : Z)
  : list Socket.t :=
  filter (fun s => in_room a s || in_room b s) (Server.sockets srv).

(** The contact set of a user, empty when the user has none. *)
Definition contacts_of (s : MemStorage.t) (userId : Z) : JsSet.t :=
  match JsMap.get (MemStorage.contacts s) userId with
  | Some c => c
  | None => JsSet.empty
  end.

(** A stand-in for the key derivation, to run the password functions
    on concrete inputs: the bytes of password and salt, cut or
    zero-padded to [keylen]. *)
Definition sample_kdf (password salt : string) (keylen : nat)
  : list Byte.byte :=
  firstn keylen
         (map byte_of_ascii (list_ascii_of_string (password ++ salt)%string)
            ++ repeat Byte.x00 keylen).

(** The fields of a record that are neither [status] nor [lastSeen]. *)
Definition identity_of (u : User.t)
  : Z * string * string * bool * option string :=
  (User.id u, User.username u, User.password u, User.isAdmin u,
   User.publicKey u).

(** ** The server as a process *)

Section Process.
Context {S : Type} `{IStorage S}.
Variable Number : string -> jsnum.

(** Whether handling the event ends in a rejection that nothing
    handles: the [join] and [disconnect] handlers are [async]
    functions that await [updateUserStatus] outside any [try], so its
    rejection rejects the promise of the handler, which nobody
    awaits.  The [chat_message] handler catches what it awaits, and
    the middleware awaits nothing. *)
Definition rejects_unhandled (srv : Server.t S) (e : inbound * Z) : bool :=
  match e with
  | (Connect _, _) => false
  | (ChatMessage _ _, _) => false
  | (Join sid userId, now) =>
      match find_socket srv sid with
      | None => false
      | Some socket =>
          if strict_neq (Num userId) (Socket.data_userId socket) then false
          else
            match updateUserStatus (Server.storage srv) userId "online" now
            with
            | Ok _ => false
            | Throw _ => true
            end
      end
  | (Disconnect sid, now) =>
      match find_socket srv sid with
      | None => false
      | Some socket =>
          match Socket.data_userId socket with
          | Num userId =>
              if truthy (Num userId) then
                match updateUserStatus (Server.storage srv) userId
                                       "offline" now
                with
                | Ok _ => false
                | Throw _ => true
                end
              else false
          | NaN => false
          end
      end
  end.

(** The process: [Some srv] while it runs, [None] once an unhandled
    rejection has ended it, after which no event is handled. *)
Definition step_process (p : option (Server.t S)) (e : inbound * Z)
  : option (Server.t S) :=
  match p with
  | None => None
  | Some srv =>
      if rejects_unhandled srv e then None else Some (step Number srv e)
  end.

Definition run_process (srv : Server.t S) (es : list (inbound * Z))
  : option (Server.t S) :=
  fold_left step_process es (Some srv).
End Process.

(** * Properties *)

(** ** The insertion-ordered map *)

Section JsMapFacts.
Context {V : Type}.
Implicit Types (m : JsMap.t V) (k : Z) (v : V).

Lemma get_set_same m k v : JsMap.get (JsMap.set m k v) k = Some v.
Proof.
  induction m as [|[k' v'] r IH]; simpl.
  - now rewrite Z.eqb_refl.
  - destruct (k =? k') eqn:E; simpl; rewrite ?Z.eqb_refl, ?E; auto.
Qed.

Lemma get_set_other m k k' v :
  k' <> k -> JsMap.get (JsMap.set m k v) k' = JsMap.get m k'.
Proof.
  intros Hne. induction m as [|[k0 v0] r IH]; simpl.
  - destruct (k' =? k) eqn:E; auto. apply Z.eqb_eq in E. contradiction.
  - destruct (k =? k0) eqn:E; simpl.
    + apply Z.eqb_eq in E. subst k0.
      destruct (k' =? k) eqn:E'; auto.
      apply Z.eqb_eq in E'. contradiction.
    + now rewrite IH.
Qed.

Lemma get_None_keys m k : JsMap.get m k = None <-> ~ In k (JsMap.keys m).
Proof.
  induction m as [|[k' v'] r IH]; simpl.
  - tauto.
  - destruct (k =? k') eqn:E.
    + apply Z.eqb_eq in E. split; [discriminate | intros Hn; exfalso; auto].
    + apply Z.eqb_neq in E. rewrite IH. intuition congruence.
Qed.

Lemma keys_set_present m k v :
  In k (JsMap.keys m) -> JsMap.keys (JsMap.set m k v) = JsMap.keys m.
Proof.
  induction m as [|[k' v'] r IH]; simpl; [tauto|].
  intros Hin. destruct (k =? k') eqn:E; simpl.
  - apply Z.eqb_eq in E. now subst.
  - f_equal. apply IH. apply Z.eqb_neq in E. destruct Hin; congruence.
Qed.

Lemma set_fresh m k v :
  ~ In k (JsMap.keys m) -> JsMap.set m k v = m ++ [(k, v)].
Proof.
  induction m as [|[k' v'] r IH]; simpl; auto.
  intros Hn. destruct (k =? k') eqn:E.
  - apply Z.eqb_eq in E. exfalso. auto.
  - f_equal. apply IH. auto.
Qed.

Lemma get_delete_same m k : JsMap.get (JsMap.delete m k) k = None.
Proof.
  unfold JsMap.delete. induction m as [|[k' v'] r IH]; simpl; auto.
  destruct (k =? k') eqn:E; simpl; auto. now rewrite E.
Qed.

Lemma get_delete_other m k k' :
  k' <> k -> JsMap.get (JsMap.delete m k) k' = JsMap.get m k'.
Proof.
  intros Hne. unfold JsMap.delete.
  induction m as [|[k0 v0] r IH]; simpl; auto.
  destruct (k =? k0) eqn:E; simpl.
  - apply Z.eqb_eq in E. subst k0.
    destruct (k' =? k) eqn:E'; auto.
    apply Z.eqb_eq in E'. contradiction.
  - now rewrite IH.
Qed.

Lemma delete_idem m k :
  JsMap.delete (JsMap.delete m k) k = JsMap.delete m k.
Proof.
  unfold JsMap.delete. induction m as [|[k' v'] r IH]; simpl; auto.
  destruct (k =? k') eqn:E; simpl; auto. rewrite E. simpl. now f_equal.
Qed.

Lemma get_In m k v : JsMap.get m k = Some v -> In (k, v) m.
Proof.
  induction m as [|[k' v'] r IH]; simpl; [discriminate|].
  destruct (k =? k') eqn:E; auto.
  apply Z.eqb_eq in E. intros [= ->]. subst. auto.
Qed.
End JsMapFacts.

(** ** [getMessages] does not depend on the order of its arguments *)

Lemma between_sym a b msg :
  MemStorage.between a b msg = MemStorage.between b a msg.
Proof. unfold MemStorage.between. apply orb_comm. Qed.

(** C9: for every store and every two user ids A and B,
    [getMessages(A, B)] and [getMessages(B, A)] are the same sequence of
    messages. *)
Theorem getMessages_symmetric (s : MemStorage.t) (a b : Z) :
  MemStorage.getMessages s a b = MemStorage.getMessages s b a.
Proof.
  unfold MemStorage.getMessages. apply filter_ext.
  intros msg. apply between_sym.
Qed.

(** ** The frame of [updateUserStatus] *)

(** C10: for an existing user id, [updateUserStatus(id, status)] returns
    and stores the record with only [status] and [lastSeen] replaced:
    the id, username, password, isAdmin flag and publicKey of that
    record, the record of every other user, the order of the users, the
    contact sets, the messages and both counters are as before. *)
Theorem updateUserStatus_frame (s : MemStorage.t) (id : Z)
        (status : string) (now : Z) (user : User.t) :
  MemStorage.getUser s id = Some user ->
  exists s' updated,
    MemStorage.updateUserStatus s id status now = Ok (s', updated)
    /\ MemStorage.getUser s' id = Some updated
    /\ User.status updated = status
    /\ User.lastSeen updated = now
    /\ User.id updated = User.id user
    /\ User.username updated = User.username user
    /\ User.password updated = User.password user
    /\ User.isAdmin updated = User.isAdmin user
    /\ User.publicKey updated = User.publicKey user
    /\ (forall other, other <> id ->
          MemStorage.getUser s' other = MemStorage.getUser s other)
    /\ JsMap.keys (MemStorage.users s') = JsMap.keys (MemStorage.users s)
    /\ MemStorage.contacts s' = MemStorage.contacts s
    /\ MemStorage.messages s' = MemStorage.messages s
    /\ MemStorage.currentId s' = MemStorage.currentId s
    /\ MemStorage.currentMessageId s' = MemStorage.currentMessageId s.
Proof.
  intros Hget.
  exists (MemStorage.set_users s
            (JsMap.set (MemStorage.users s) id
                       (User.with_status user status now))),
         (User.with_status user status now).
  unfold MemStorage.updateUserStatus. rewrite Hget.
  repeat split; try reflexivity.
  - apply get_set_same.
  - intros other Hne. now apply get_set_other.
  - apply keys_set_present.
    destruct (in_dec Z.eq_dec id (JsMap.keys (MemStorage.users s)))
      as [Hin|Hn]; auto.
    apply get_None_keys in Hn. unfold MemStorage.getUser in Hget.
    congruence.
Qed.

Lemma updateUserStatus_frame_witness :
  MemStorage.getUser sample_store 2
  = Some (User.mk 2 "Said158" "h2.s2" true "offline" None 1001)
  /\ exists s' updated,
      MemStorage.updateUserStatus sample_store 2 "online" 2000
      = Ok (s', updated)
      /\ MemStorage.getUser s' 2 = Some updated
      /\ User.status updated = "online"
      /\ User.lastSeen updated = 2000
      /\ User.id updated = 2
      /\ User.username updated = "Said158"
      /\ User.password updated = "h2.s2"
      /\ User.isAdmin updated = true
      /\ User.publicKey updated = None
      /\ (forall other, other <> 2 ->
            MemStorage.getUser s' other
            = MemStorage.getUser sample_store other)
      /\ JsMap.keys (MemStorage.users s') = [1; 2]
      /\ MemStorage.contacts s' = MemStorage.contacts sample_store
      /\ MemStorage.messages s' = MemStorage.messages sample_store
      /\ MemStorage.currentId s' = 3
      /\ MemStorage.currentMessageId s' = 2.
Proof.
  split; [reflexivity|].
  exact (updateUserStatus_frame sample_store 2 "online" 2000
           (user := User.mk 2 "Said158" "h2.s2" true "offline" None 1001)
           eq_refl).
Defined.

(** ** The sender check of [chat_message] *)

(** C2: a [chat_message] whose [senderId] is not the userId bound to
    the connection is answered with one error event, sent to that
    connection alone; the store and the set of connections are left as
    they were, whatever the store implementation. *)
Theorem chat_message_spoofed_sender_rejected
        {S : Type} `{IStorage S} (srv : Server.t S) (sid : nat)
        (socket : Socket.t) (data : ChatData.t) (now : Z) :
  find_socket srv sid = Some socket ->
  Num (ChatData.senderId data) <> Socket.data_userId socket ->
  let srv' := on_chat_message srv sid data now in
  Server.sent srv'
  = Server.sent srv ++ [(sid, ev_error "Unauthorized message sender")]
  /\ Server.storage srv' = Server.storage srv
  /\ Server.sockets srv' = Server.sockets srv.
Proof.
  intros Hfind Hne. unfold on_chat_message. rewrite Hfind.
  assert (strict_neq (Num (ChatData.senderId data))
                     (Socket.data_userId socket) = true) as ->.
  { destruct (Socket.data_userId socket) as [|z]; simpl; auto.
    apply negb_true_iff, Z.eqb_neq. congruence. }
  simpl. auto.
Qed.

Lemma chat_message_spoofed_sender_rejected_witness :
  let data := ChatData.mk "chat" 1 2 "QUJDRA==" in
  let srv' := on_chat_message sample_server 2 data 3000 in
  Server.sent srv' = [(2%nat, ev_error "Unauthorized message sender")]
  /\ Server.storage srv' = sample_store
  /\ Server.sockets srv' = sample_sockets.
Proof.
  apply (chat_message_spoofed_sender_rejected sample_server 2
           (socket := Socket.mk 2 (plain_handshake "3") (Num 3) [])
           (ChatData.mk "chat" 1 2 "QUJDRA==") 3000).
  - reflexivity.
  - discriminate.
Defined.

(** ** A failing persistence step *)

(** C6: when the sender check passes and [createMessage] fails, the
    handler emits exactly one event, an error to the originating
    connection; no [new_message] is emitted to any connection, and the
    store is the one the handler started from. *)
Theorem chat_message_persistence_failure
        {S : Type} `{IStorage S} (srv : Server.t S) (sid : nat)
        (socket : Socket.t) (data : ChatData.t) (now : Z)
        (message : string) :
  find_socket srv sid = Some socket ->
  Socket.data_userId socket = Num (ChatData.senderId data) ->
  createMessage (Server.storage srv)
                (InsertMessage.mk (ChatData.senderId data)
                                  (ChatData.receiverId data)
                                  (ChatData.content data)) now
  = Throw message ->
  let srv' := on_chat_message srv sid data now in
  Server.sent srv'
  = Server.sent srv ++ [(sid, ev_error "Failed to save message")]
  /\ (forall to m, In (to, ev_new_message m) (Server.sent srv') ->
                   In (to, ev_new_message m) (Server.sent srv))
  /\ Server.storage srv' = Server.storage srv.
Proof.
  intros Hfind Hbound Hfail. unfold on_chat_message.
  rewrite Hfind, Hbound, Hfail. simpl. rewrite Z.eqb_refl. simpl.
  repeat split; auto.
  intros to m Hin. apply in_app_or in Hin as [Hin|[Hin|[]]]; auto.
  discriminate.
Qed.

Lemma chat_message_persistence_failure_witness :
  let data := ChatData.mk "chat" 1 2 "QUJDRA==" in
  let srv' := on_chat_message down_server 0 data 3000 in
  Server.sent srv' = [(0%nat, ev_error "Failed to save message")]
  /\ (forall to m, In (to, ev_new_message m) (Server.sent srv') -> False)
  /\ Server.storage srv' = DownStorage.mk sample_store.
Proof.
  apply (chat_message_persistence_failure down_server 0
           (socket := Socket.mk 0 (plain_handshake "1") (Num 1) [1])
           (ChatData.mk "chat" 1 2 "QUJDRA==") 3000
           (message := "store unavailable")); reflexivity.
Defined.

(** ** Where the content is validated *)

(** C8: in [handleWebSocketMessage] a chat event whose content is not a
    non-empty string over [A-Za-z0-9+/=] is answered with one error
    and leaves the store as it was; the [chat_message] handler of the
    Socket.IO path stores the content of an authorised event whatever
    it is. *)
Theorem content_validated_in_websocket_path_only :
  (forall (S : Type) (I : IStorage S) (st : S) (data : ChatData.t)
          (now : Z),
      ChatData.type data = "chat" ->
      looks_encrypted (ChatData.content data) = false ->
      handleWebSocketMessage st (Ok data) now
      = (st,
         [ws_send_error
            match getUser st (ChatData.senderId data),
                  getUser st (ChatData.receiverId data) with
            | Some _, Some _ => "Message must be encrypted"
            | _, _ => "Invalid sender or receiver"
            end]))
  /\ (forall (srv : Server.t MemStorage.t) (sid : nat) (socket : Socket.t)
             (data : ChatData.t) (now : Z),
         find_socket srv sid = Some socket ->
         Socket.data_userId socket = Num (ChatData.senderId data) ->
         let st' := Server.storage (on_chat_message srv sid data now) in
         let saved :=
           Message.mk (MemStorage.currentMessageId (Server.storage srv))
                      (ChatData.senderId data) (ChatData.receiverId data)
                      (ChatData.content data) now in
         JsMap.get (MemStorage.messages st') (Message.id saved)
         = Some saved
         /\ In saved
               (MemStorage.getMessages st' (ChatData.senderId data)
                                       (ChatData.receiverId data))).
Proof.
  split.
  - intros S I st data now Htype Hbad. unfold handleWebSocketMessage.
    rewrite Htype. simpl.
    destruct (getUser st (ChatData.senderId data)); auto.
    destruct (getUser st (ChatData.receiverId data)); auto.
    now rewrite Hbad.
  - intros srv sid socket data now Hfind Hbound.
    unfold on_chat_message. rewrite Hfind, Hbound. simpl.
    rewrite Z.eqb_refl. simpl. split.
    + apply get_set_same.
    + unfold MemStorage.getMessages. simpl. apply filter_In. split.
      * apply in_map_iff.
        eexists (_, _). split; [reflexivity|].
        apply get_In. apply get_set_same.
      * unfold MemStorage.between. simpl. now rewrite !Z.eqb_refl.
Qed.

Lemma content_validated_in_websocket_path_only_witness :
  handleWebSocketMessage sample_store
    (Ok (ChatData.mk "chat" 1 2 "hello, world")) 3000
  = (sample_store, [ws_send_error "Message must be encrypted"])
  /\ In (Message.mk 2 1 2 "hello, world" 3000)
        (MemStorage.getMessages
           (Server.storage
              (on_chat_message sample_server 0
                 (ChatData.mk "chat" 1 2 "hello, world") 3000))
           1 2).
Proof.
  destruct content_validated_in_websocket_path_only as [Hws Hio]. split.
  - apply (Hws MemStorage.t MemStorage_IStorage sample_store
               (ChatData.mk "chat" 1 2 "hello, world") 3000);
      reflexivity.
  - apply (Hio sample_server 0%nat
               (Socket.mk 0 (plain_handshake "1") (Num 1) [1])
               (ChatData.mk "chat" 1 2 "hello, world") 3000);
      reflexivity.
Defined.

(** ** Usernames already present *)

Example looks_encrypted_base64 : looks_encrypted "QUJDRA==" = true.
Proof. reflexivity. Qed.

Example looks_encrypted_empty : looks_encrypted "" = false.
Proof. reflexivity. Qed.

(** [createUser] on the store of the constructor, with the username of
    its first user: the call returns a user, and the store then holds
    two records named ["admin"]. *)
Lemma createUser_duplicate_username_accepted :
  MemStorage.getUserByUsername
    (MemStorage.boot "h1.s1" "h2.s2" 1000 1001) "admin"
  = Some (User.mk 1 "admin" "h1.s1" true "offline" None 1000)
  /\ MemStorage.createUser
       (MemStorage.boot "h1.s1" "h2.s2" 1000 1001)
       (InsertUser.mk "admin" "secret") "h3.s3" 1002
     = (MemStorage.mk
          [(1, User.mk 1 "admin" "h1.s1" true "offline" None 1000);
           (2, User.mk 2 "Said158" "h2.s2" true "offline" None 1001);
           (3, User.mk 3 "admin" "h3.s3" false "offline" None 1002)]
          [] [(1, []); (2, []); (3, [])] 4 1,
        User.mk 3 "admin" "h3.s3" false "offline" None 1002)
  /\ map User.username
         (MemStorage.getAllUsers
            (fst (MemStorage.createUser
                    (MemStorage.boot "h1.s1" "h2.s2" 1000 1001)
                    (InsertUser.mk "admin" "secret") "h3.s3" 1002)))
     = ["admin"; "Said158"; "admin"].
Proof. repeat split. Qed.

(** C4, as the code has it: [createUser] makes no uniqueness check, it
    always returns a new record stored under the next id; the check is
    made by [POST /api/register], which answers 400 "Username already
    exists" and leaves the store untouched when [getUserByUsername]
    finds the username. *)
Theorem register_rejects_duplicate_username
        (s : MemStorage.t) (insertUser : InsertUser.t)
        (hashedPassword : string) (now : Z) (login_err : bool)
        (existing : User.t) :
  MemStorage.getUserByUsername s (InsertUser.username insertUser)
  = Some existing ->
  register s (Ok insertUser) hashedPassword now login_err
  = (s, Some (json_message 400 "Username already exists"))
  /\ (let '(s', user) :=
        MemStorage.createUser s insertUser hashedPassword now in
      User.id user = MemStorage.currentId s
      /\ User.username user = InsertUser.username insertUser
      /\ MemStorage.getUser s' (User.id user) = Some user).
Proof.
  intros Hfound. split.
  - unfold register. now rewrite Hfound.
  - simpl. repeat split. apply get_set_same.
Qed.

Lemma register_rejects_duplicate_username_witness :
  register (MemStorage.boot "h1.s1" "h2.s2" 1000 1001)
           (Ok (InsertUser.mk "admin" "secret")) "h3.s3" 1002 false
  = (MemStorage.boot "h1.s1" "h2.s2" 1000 1001,
     Some (json_message 400 "Username already exists"))
  /\ (let '(s', user) :=
        MemStorage.createUser (MemStorage.boot "h1.s1" "h2.s2" 1000 1001)
                              (InsertUser.mk "admin" "secret") "h3.s3" 1002
      in
      User.id user = 3
      /\ User.username user = "admin"
      /\ MemStorage.getUser s' (User.id user) = Some user).
Proof.
  exact (register_rejects_duplicate_username
           (MemStorage.boot "h1.s1" "h2.s2" 1000 1001)
           (InsertUser.mk "admin" "secret") "h3.s3" 1002 false
           (existing := User.mk 1 "admin" "h1.s1" true "offline" None 1000)
           eq_refl).
Defined.

(** ** [banUser] *)

Lemma get_map_values {V W : Type} (f : V -> W) (m : JsMap.t V) (k : Z) :
  JsMap.get (map (fun e => (fst e, f (snd e))) m) k
  = option_map f (JsMap.get m k).
Proof.
  induction m as [|[k' v] r IH]; simpl; auto.
  destruct (k =? k'); auto.
Qed.

Lemma delete_map_values {V W : Type} (f : V -> W) (m : JsMap.t V) (k : Z) :
  JsMap.delete (map (fun e => (fst e, f (snd e))) m) k
  = map (fun e => (fst e, f (snd e))) (JsMap.delete m k).
Proof.
  unfold JsMap.delete. induction m as [|[k' v] r IH]; simpl; auto.
  destruct (k =? k'); simpl; now rewrite IH.
Qed.

Lemma JsSet_delete_idem (c : JsSet.t) (x : Z) :
  JsSet.delete (JsSet.delete c x) x = JsSet.delete c x.
Proof.
  unfold JsSet.delete. induction c as [|y r IH]; simpl; auto.
  destruct (x =? y) eqn:E; simpl; auto. rewrite E. simpl. now f_equal.
Qed.

Lemma JsSet_delete_not_In (c : JsSet.t) (x : Z) :
  ~ In x (JsSet.delete c x).
Proof.
  unfold JsSet.delete. intros Hin. apply filter_In in Hin as [_ Hin].
  now rewrite Z.eqb_refl in Hin.
Qed.

Lemma In_defined {A : Type} (xs : list (option A)) (a : A) :
  In a (defined xs) <-> In (Some a) xs.
Proof.
  induction xs as [|[b|] r IH]; simpl; [tauto| |].
  - rewrite IH. intuition congruence.
  - rewrite IH. intuition congruence.
Qed.

(** [getContacts] never returns a user whose record is absent. *)
Lemma getContacts_absent (s : MemStorage.t) (id : Z) :
  users_keyed s -> MemStorage.getUser s id = None ->
  forall userId user,
    In user (MemStorage.getContacts s userId) -> User.id user <> id.
Proof.
  intros Hkeyed Habsent userId user Hin.
  unfold MemStorage.getContacts in Hin.
  apply In_defined, in_map_iff in Hin as (k & Hk & _).
  apply get_In in Hk as Hmem.
  unfold users_keyed in Hkeyed. rewrite Forall_forall in Hkeyed.
  specialize (Hkeyed _ Hmem). simpl in Hkeyed. rewrite Hkeyed.
  intros ->. unfold MemStorage.getUser in Habsent. congruence.
Qed.

Lemma users_keyed_banUser (s : MemStorage.t) (id : Z) :
  users_keyed s -> users_keyed (MemStorage.banUser s id).
Proof.
  unfold users_keyed, MemStorage.banUser, JsMap.delete. simpl.
  rewrite !Forall_forall. intros Hk e Hin.
  apply filter_In in Hin as [Hin _]. auto.
Qed.

Lemma Forall_set {V : Type} (P : Z * V -> Prop) (m : JsMap.t V) (k : Z)
      (v : V) :
  Forall P m -> P (k, v) -> Forall P (JsMap.set m k v).
Proof.
  intros Hall Hkv. induction Hall as [|[k' v'] r Hp Hr IH]; simpl.
  - auto.
  - destruct (k =? k'); auto.
Qed.

(** Replacing the record of an existing user by one with the same id
    keeps every record under its own id and keeps absent users
    absent. *)
Lemma gone_replace (id : Z) (s : MemStorage.t) (k : Z)
      (user updated : User.t) :
  gone id s ->
  MemStorage.getUser s k = Some user ->
  User.id updated = User.id user ->
  gone id (MemStorage.set_users s (JsMap.set (MemStorage.users s) k updated)).
Proof.
  intros (Hkeyed & Habsent & Hlt) Hget Hid. repeat split; auto.
  - unfold users_keyed in *. cbn [MemStorage.set_users MemStorage.users].
    apply Forall_set; auto. simpl. rewrite Hid.
    apply get_In in Hget. rewrite Forall_forall in Hkeyed.
    apply (Hkeyed _ Hget).
  - unfold MemStorage.getUser in *.
    cbn [MemStorage.set_users MemStorage.users].
    rewrite get_set_other; auto. intros ->. congruence.
Qed.

Lemma gone_perform (id : Z) (s : MemStorage.t) (c : store_call) :
  gone id s -> keeps_id c -> gone id (perform s c).
Proof.
  intros Hgone Hkeeps. pose proof Hgone as (Hkeyed & Habsent & Hlt).
  destruct c as [iu h now|k st now|k updates|k pk|k|m now|k|a b];
    cbn [perform].
  - unfold MemStorage.createUser. cbn [fst]. repeat split.
    + unfold users_keyed in *. cbn [MemStorage.users].
      apply Forall_set; auto.
    + unfold MemStorage.getUser in *. cbn [MemStorage.users].
      rewrite get_set_other; auto. lia.
    + cbn [MemStorage.currentId]. lia.
  - unfold MemStorage.updateUserStatus.
    destruct (MemStorage.getUser s k) as [user|] eqn:Hget; simpl; auto.
    now apply gone_replace with (user := user).
  - unfold MemStorage.updateUser.
    destruct (MemStorage.getUser s k) as [user|] eqn:Hget; simpl; auto.
    apply gone_replace with (user := user); auto.
    simpl in Hkeeps. unfold PartialUser.apply. simpl. now rewrite Hkeeps.
  - unfold MemStorage.updateUserPublicKey.
    destruct (MemStorage.getUser s k) as [user|] eqn:Hget; simpl; auto.
    now apply gone_replace with (user := user).
  - repeat split; auto.
    + now apply users_keyed_banUser.
    + unfold MemStorage.getUser, MemStorage.banUser in *.
      cbn [MemStorage.users].
      destruct (Z.eq_dec id k) as [->|Hne].
      * apply get_delete_same.
      * now rewrite get_delete_other.
  - exact Hgone.
  - exact Hgone.
  - unfold MemStorage.addContact.
    destruct (JsMap.get _ a); exact Hgone.
Qed.

Lemma gone_perform_all (id : Z) (calls : list store_call) :
  forall s : MemStorage.t,
    gone id s -> Forall keeps_id calls ->
    gone id (fold_left perform calls s).
Proof.
  induction calls as [|c calls IH]; intros s Hgone Hall; simpl; auto.
  apply Forall_cons_iff in Hall as [Hc Hall].
  apply IH; auto. now apply gone_perform.
Qed.

(** ** Conversation history *)

Lemma StronglySorted_filter {A : Type} (R : A -> A -> Prop)
      (f : A -> bool) (l : list A) :
  StronglySorted R l -> StronglySorted R (filter f l).
Proof.
  induction 1 as [|a l Hs IH Hall]; simpl; [constructor|].
  destruct (f a); auto. constructor; auto.
  rewrite Forall_forall in *. intros x Hx.
  apply filter_In in Hx as [Hx _]. auto.
Qed.

Lemma StronglySorted_of_map {A B : Type} (g : A -> B)
      (R : B -> B -> Prop) (l : list A) :
  StronglySorted R (map g l) ->
  StronglySorted (fun x y => R (g x) (g y)) l.
Proof.
  induction l as [|a l IH]; simpl; intros Hs; [constructor|].
  apply StronglySorted_inv in Hs as [Hs Hall]. constructor; auto.
  rewrite Forall_forall in *. intros x Hx. apply Hall.
  now apply in_map.
Qed.

Lemma between_inserted (a b : Z) (m : Message.t) :
  MemStorage.between a b m = addressed a b (inserted m).
Proof. reflexivity. Qed.

Lemma filter_length_inserted (a b : Z) (created : list Message.t) :
  forall calls : list (InsertMessage.t * Z),
    map inserted created = map fst calls ->
    List.length (filter (MemStorage.between a b) created)
    = List.length (filter (fun c => addressed a b (fst c)) calls).
Proof.
  induction created as [|m r IH]; intros [|c calls] Hmap;
    simpl in *; try discriminate; auto.
  injection Hmap as Hm Hr. rewrite between_inserted, Hm.
  destruct (addressed a b (fst c)); simpl; auto.
Qed.

(** What a run of [createMessage] calls does to a store whose message
    keys came from the counter: the new messages are appended to the
    enumeration of the map in call order, each with the fields of its
    call and the clock reading of its call, under ascending ids. *)
Lemma createMessages_appends (calls : list (InsertMessage.t * Z)) :
  forall s : MemStorage.t,
    message_ids_below s ->
    JsMap.values (MemStorage.messages (fst (createMessages s calls)))
    = JsMap.values (MemStorage.messages s) ++ snd (createMessages s calls)
    /\ map inserted (snd (createMessages s calls)) = map fst calls
    /\ map Message.timestamp (snd (createMessages s calls))
       = map snd calls
    /\ Forall (fun m => MemStorage.currentMessageId s <= Message.id m)
              (snd (createMessages s calls))
    /\ StronglySorted Z.lt (map Message.id (snd (createMessages s calls))).
Proof.
  induction calls as [|[message now] rest IH]; intros s Hbelow.
  - simpl. rewrite app_nil_r. repeat split; constructor.
  - cbn [createMessages].
    destruct (MemStorage.createMessage s message now) as [s1 saved] eqn:E1.
    destruct (createMessages s1 rest) as [s2 more] eqn:E2.
    unfold MemStorage.createMessage in E1. injection E1 as Hs1 Hsaved.
    assert (Hfresh : ~ In (MemStorage.currentMessageId s)
                          (JsMap.keys (MemStorage.messages s))).
    { intros Hin. unfold message_ids_below in Hbelow.
      rewrite Forall_forall in Hbelow. specialize (Hbelow _ Hin). lia. }
    assert (Hmsgs : MemStorage.messages s1
                    = MemStorage.messages s
                        ++ [(MemStorage.currentMessageId s, saved)]).
    { subst s1 saved. cbn [MemStorage.messages]. now apply set_fresh. }
    assert (Hnext : MemStorage.currentMessageId s1
                    = MemStorage.currentMessageId s + 1)
      by (now subst s1).
    assert (Hbelow1 : message_ids_below s1).
    { unfold message_ids_below, JsMap.keys in *.
      rewrite Hmsgs, Hnext, map_app, Forall_app. split.
      - eapply Forall_impl; [|exact Hbelow]. simpl. intros; lia.
      - repeat constructor. simpl. lia. }
    specialize (IH s1 Hbelow1). rewrite E2 in IH.
    cbn [fst snd] in *.
    destruct IH as (Hvals & Hins & Htimes & Hlow & Hsorted).
    assert (Hid : Message.id saved = MemStorage.currentMessageId s)
      by (now subst saved).
    repeat split.
    + rewrite Hvals, Hmsgs. unfold JsMap.values.
      rewrite map_app, <- app_assoc. reflexivity.
    + cbn [map]. rewrite Hins. f_equal. subst saved. now destruct message.
    + cbn [map]. rewrite Htimes. f_equal. now subst saved.
    + constructor; [lia|].
      eapply Forall_impl; [|exact Hlow]. simpl. intros; lia.
    + cbn [map]. constructor; auto.
      rewrite Forall_map. eapply Forall_impl; [|exact Hlow].
      simpl. intros; lia.
Qed.

(** C5: from a store with no message between A and B, after any run of
    [createMessage] calls, [getMessages(A, B)] is exactly the messages
    returned by the calls between A and B (either direction), in call
    order: as many as there were such calls, each with the sender,
    receiver and content of its call, under ascending ids and, the
    clock never running backwards, ascending creation times. *)
Theorem getMessages_after_createMessages
        (s : MemStorage.t) (calls : list (InsertMessage.t * Z))
        (a b : Z) :
  message_ids_below s ->
  MemStorage.getMessages s a b = [] ->
  StronglySorted Z.le (map snd calls) ->
  let '(s', created) := createMessages s calls in
  let history := MemStorage.getMessages s' a b in
  map inserted created = map fst calls
  /\ map Message.timestamp created = map snd calls
  /\ history = filter (MemStorage.between a b) created
  /\ List.length history
     = List.length (filter (fun c => addressed a b (fst c)) calls)
  /\ StronglySorted (fun m1 m2 => Message.id m1 < Message.id m2) history
  /\ StronglySorted
       (fun m1 m2 => Message.timestamp m1 <= Message.timestamp m2)
       history.
Proof.
  intros Hbelow Hnone Hclock.
  destruct (createMessages_appends calls Hbelow)
    as (Hvals & Hins & Htimes & _ & Hids).
  destruct (createMessages s calls) as [s' created]. cbn [fst snd] in *.
  assert (Hhist : MemStorage.getMessages s' a b
                  = filter (MemStorage.between a b) created).
  { unfold MemStorage.getMessages in *.
    now rewrite Hvals, filter_app, Hnone. }
  cbv zeta. rewrite Hhist. repeat split; auto.
  - now apply filter_length_inserted.
  - apply StronglySorted_filter.
    now apply (@StronglySorted_of_map _ _ Message.id Z.lt).
  - apply StronglySorted_filter.
    apply (@StronglySorted_of_map _ _ Message.timestamp Z.le).
    now rewrite Htimes.
Qed.

(** ** What a connection is bound to *)

Lemma io_use_Ok (Number : string -> jsnum) (h : Handshake.t) (n : jsnum) :
  io_use Number h = Ok n ->
  Handshake.auth_token h = Some "session"
  /\ exists claimed,
      Handshake.query_userId h = Some claimed
      /\ claimed <> "" /\ n = Number claimed.
Proof.
  unfold io_use.
  destruct (Handshake.auth_token h) as [token|]; [|discriminate].
  destruct (String.eqb token "session") eqn:Et; [|discriminate].
  apply String.eqb_eq in Et. subst token.
  destruct (Handshake.query_userId h) as [claimed|]; [|discriminate].
  destruct (String.eqb claimed "") eqn:Ec; simpl; [discriminate|].
  apply String.eqb_neq in Ec. intros [= <-]. eauto.
Qed.

Lemma strict_neq_false (a b : jsnum) :
  strict_neq a b = false -> exists z, a = Num z /\ b = Num z.
Proof.
  destruct a as [|x], b as [|y]; simpl; try discriminate.
  intros E. apply negb_false_iff, Z.eqb_eq in E. subst. eauto.
Qed.

Lemma In_rooms_join (s : Socket.t) (room r : Z) :
  In r (Socket.rooms (Socket.join s room)) ->
  In r (Socket.rooms s) \/ r = room.
Proof.
  unfold Socket.join. simpl.
  destruct (existsb (Z.eqb room) (Socket.rooms s)); auto.
  intros Hin. apply in_app_or in Hin as [|[|[]]]; auto.
Qed.

Lemma find_socket_In {S : Type} (srv : Server.t S) (sid : nat)
      (socket : Socket.t) :
  find_socket srv sid = Some socket ->
  In socket (Server.sockets srv) /\ Socket.id socket = sid.
Proof.
  unfold find_socket. intros Hf. apply find_some in Hf as [Hin Heq].
  apply Nat.eqb_eq in Heq. auto.
Qed.

Lemma NoDup_ids_eq (l : list Socket.t) (a b : Socket.t) :
  NoDup (map Socket.id l) -> In a l -> In b l ->
  Socket.id a = Socket.id b -> a = b.
Proof.
  induction l as [|s0 l IH]; simpl; [tauto|].
  intros Hnd [->|Ha] [->|Hb] Hsame; auto.
  - apply NoDup_cons_iff in Hnd as [Hnot _]. exfalso. apply Hnot.
    rewrite Hsame. now apply in_map.
  - apply NoDup_cons_iff in Hnd as [Hnot _]. exfalso. apply Hnot.
    rewrite <- Hsame. now apply in_map.
  - apply NoDup_cons_iff in Hnd as [_ Hnd]. auto.
Qed.

Section Bindings.
Context {S : Type} `{IStorage S}.
Variable Number : string -> jsnum.

(** The handlers by cases, as far as the sockets are concerned. *)
Lemma sockets_on_join (srv : Server.t S) sid userId now :
  (Server.sockets (on_join srv sid userId now) = Server.sockets srv
   \/ exists socket,
       find_socket srv sid = Some socket
       /\ Socket.data_userId socket = Num userId
       /\ Server.sockets (on_join srv sid userId now)
          = update_socket (Socket.join socket userId)
                          (Server.sockets srv))
  /\ Server.next_socket (on_join srv sid userId now)
     = Server.next_socket srv.
Proof.
  unfold on_join.
  destruct (find_socket srv sid) as [socket|] eqn:Hf; auto.
  destruct (strict_neq _ _) eqn:Hneq; auto.
  apply strict_neq_false in Hneq as (z & [= <-] & Hb).
  cbn [with_sockets Server.storage].
  destruct (updateUserStatus _ _ _ _) as [[st u]|]; split; eauto.
Qed.

Lemma sockets_on_chat_message (srv : Server.t S) sid data now :
  Server.sockets (on_chat_message srv sid data now) = Server.sockets srv
  /\ Server.next_socket (on_chat_message srv sid data now)
     = Server.next_socket srv.
Proof.
  unfold on_chat_message.
  destruct (find_socket srv sid); auto.
  destruct (strict_neq _ _); auto.
  destruct (createMessage _ _ _) as [[st m]|]; auto.
Qed.

Lemma sockets_on_disconnect (srv : Server.t S) sid now :
  (Server.sockets (on_disconnect srv sid now) = Server.sockets srv
   \/ Server.sockets (on_disconnect srv sid now)
      = filter (fun s => negb (Nat.eqb (Socket.id s) sid))
               (Server.sockets srv))
  /\ Server.next_socket (on_disconnect srv sid now)
     = Server.next_socket srv.
Proof.
  unfold on_disconnect.
  destruct (find_socket srv sid) as [socket|]; auto.
  destruct (Socket.data_userId socket) as [|userId]; auto.
  destruct (truthy (Num userId)); auto.
  cbn [with_sockets Server.storage].
  destruct (updateUserStatus _ _ _ _) as [[st u]|]; auto.
Qed.

Lemma sockets_on_connection (srv : Server.t S) h :
  (Server.sockets (on_connection Number srv h) = Server.sockets srv
   /\ Server.next_socket (on_connection Number srv h)
      = Server.next_socket srv)
  \/ exists userId,
      io_use Number h = Ok userId
      /\ Server.sockets (on_connection Number srv h)
         = Server.sockets srv
             ++ [Socket.mk (Server.next_socket srv) h userId []]
      /\ Server.next_socket (on_connection Number srv h)
         = Datatypes.S (Server.next_socket srv).
Proof.
  unfold on_connection. destruct (io_use Number h) as [userId|]; eauto.
Qed.

(** Where a socket of the next state comes from: it is a socket of
    this state, with the same binding and at most its own room
    added, or it has just been admitted. *)
Lemma step_socket_origin (srv : Server.t S) (e : inbound * Z)
      (sock' : Socket.t) :
  In sock' (Server.sockets (step Number srv e)) ->
  (exists sock,
      In sock (Server.sockets srv)
      /\ binding sock' = binding sock
      /\ forall room, In room (Socket.rooms sock') ->
                      In room (Socket.rooms sock)
                      \/ Socket.data_userId sock = Num room)
  \/ (Socket.id sock' = Server.next_socket srv
      /\ Socket.rooms sock' = []
      /\ accepted_as_claimed Number sock').
Proof.
  destruct e as [[h|sid userId|sid data|sid] now]; simpl; intros Hin.
  - destruct (sockets_on_connection srv h)
      as [[Hs _]|(userId & Huse & Hs & _)]; rewrite Hs in Hin.
    + left. exists sock'. auto.
    + apply in_app_or in Hin as [Hin|[<-|[]]].
      * left. exists sock'. auto.
      * right. split; [reflexivity|]. split; [reflexivity|].
        unfold accepted_as_claimed. simpl. now apply io_use_Ok.
  - left.
    destruct (sockets_on_join srv sid userId now)
      as [[Hs|(socket & Hf & Hb & Hs)] _]; rewrite Hs in Hin.
    + exists sock'. auto.
    + unfold update_socket in Hin.
      apply in_map_iff in Hin as (s0 & Hs0 & Hin0).
      destruct (Nat.eqb (Socket.id s0) _); subst sock'.
      * exists socket. apply find_socket_In in Hf as [Hf _].
        repeat split; auto.
        intros room Hr. apply In_rooms_join in Hr as [Hr | ->]; auto.
      * exists s0. auto.
  - left. destruct (sockets_on_chat_message srv sid data now) as [Hs _].
    rewrite Hs in Hin. exists sock'. auto.
  - left.
    destruct (sockets_on_disconnect srv sid now) as [[Hs|Hs] _];
      rewrite Hs in Hin.
    + exists sock'. auto.
    + apply filter_In in Hin as [Hin _]. exists sock'. auto.
Qed.

Lemma step_next_socket (srv : Server.t S) (e : inbound * Z) :
  (Server.next_socket srv <= Server.next_socket (step Number srv e))%nat.
Proof.
  destruct e as [[h|sid userId|sid data|sid] now]; simpl.
  - destruct (sockets_on_connection srv h)
      as [[_ ->]|(userId & _ & _ & ->)]; lia.
  - destruct (sockets_on_join srv sid userId now) as [_ ->]. lia.
  - destruct (sockets_on_chat_message srv sid data now) as [_ ->]. lia.
  - destruct (sockets_on_disconnect srv sid now) as [_ ->]. lia.
Qed.

Lemma ids_update_socket (sock : Socket.t) (l : list Socket.t) :
  map Socket.id (update_socket sock l) = map Socket.id l.
Proof.
  unfold update_socket. rewrite map_map. apply map_ext_in.
  intros s0 _. destruct (Nat.eqb _ _) eqn:E; auto.
  now apply Nat.eqb_eq in E.
Qed.

Lemma ids_filter_out (sid : nat) (l : list Socket.t) :
  map Socket.id (filter (fun s => negb (Nat.eqb (Socket.id s) sid)) l)
  = filter (fun i => negb (Nat.eqb i sid)) (map Socket.id l).
Proof.
  induction l as [|s0 r IH]; simpl; auto.
  destruct (Nat.eqb _ _); simpl; now rewrite IH.
Qed.

Lemma step_sockets_wf (srv : Server.t S) (e : inbound * Z) :
  sockets_wf srv -> sockets_wf (step Number srv e).
Proof.
  unfold sockets_wf. intros [Hnd Hlt].
  destruct e as [[h|sid userId|sid data|sid] now]; simpl.
  - destruct (sockets_on_connection srv h)
      as [[-> ->]|(userId & _ & -> & ->)]; auto.
    rewrite map_app. simpl. split.
    + apply NoDup_app; auto.
      * repeat constructor. simpl. tauto.
      * intros i Hi [<-|[]]. rewrite Forall_forall in Hlt.
        specialize (Hlt _ Hi). lia.
    + apply Forall_app. split.
      * eapply Forall_impl; [|exact Hlt]. simpl. intros; lia.
      * repeat constructor.
  - destruct (sockets_on_join srv sid userId now)
      as [[->|(socket & _ & _ & ->)] ->]; auto.
    now rewrite ids_update_socket.
  - destruct (sockets_on_chat_message srv sid data now) as [-> ->].
    auto.
  - destruct (sockets_on_disconnect srv sid now) as [[->| ->] ->]; auto.
    rewrite ids_filter_out. split.
    + now apply NoDup_filter.
    + rewrite Forall_forall in *. intros i Hi.
      apply filter_In in Hi as [Hi _]. auto.
Qed.

Lemma step_bound_well (srv : Server.t S) (e : inbound * Z) :
  Forall (bound_well Number) (Server.sockets srv) ->
  Forall (bound_well Number) (Server.sockets (step Number srv e)).
Proof.
  rewrite !Forall_forall. intros Hall sock' Hin.
  apply step_socket_origin in Hin
    as [(sock & Hsock & Hbind & Hrooms)|(_ & Hrooms & Hadm)].
  - destruct (Hall _ Hsock) as [Hadm Hown].
    unfold binding in Hbind. injection Hbind as _ Hh Hd.
    split.
    + unfold accepted_as_claimed in *. now rewrite Hh, Hd.
    + intros room Hr. rewrite Hd.
      destruct (Hrooms _ Hr); auto.
  - split; auto. intros room Hr. rewrite Hrooms in Hr. destruct Hr.
Qed.

Lemma run_invariant (es : list (inbound * Z)) :
  forall srv : Server.t S,
    sockets_wf srv -> Forall (bound_well Number) (Server.sockets srv) ->
    sockets_wf (run Number srv es)
    /\ Forall (bound_well Number) (Server.sockets (run Number srv es)).
Proof.
  unfold run.
  induction es as [|e es IH]; intros srv Hwf Hall; simpl; auto.
  apply IH; [now apply step_sockets_wf | now apply step_bound_well].
Qed.

(** A socket of a later state whose identifier had already been
    handed out is a socket of the earlier state, bound as it was. *)
Lemma run_socket_origin (es : list (inbound * Z)) :
  forall (srv : Server.t S) (sock' : Socket.t),
    In sock' (Server.sockets (run Number srv es)) ->
    (Socket.id sock' < Server.next_socket srv)%nat ->
    exists sock,
      In sock (Server.sockets srv) /\ binding sock' = binding sock.
Proof.
  unfold run.
  induction es as [|e es IH]; intros srv sock' Hin Hlt; simpl in Hin.
  - eauto.
  - apply IH in Hin as (sock1 & Hin1 & Hb1).
    + apply step_socket_origin in Hin1
        as [(sock & Hsock & Hb & _)|(Hid & _)].
      * exists sock. split; auto. congruence.
      * unfold binding in Hb1. injection Hb1 as Hid1 _ _. lia.
    + pose proof (step_next_socket srv e). lia.
Qed.
End Bindings.

(** A handshake that claims user 2 from a client whose login session,
    if it has one at all, is that of user 1. *)
Lemma connection_bound_to_unauthenticated_userId :
  let h := Handshake.mk (Some 1) (Some "session") (Some "2") in
  let srv :=
    run Number_of_digits (Server.init sample_store)
        [(Connect h, 2000); (Join 0 2, 2001)] in
  Handshake.session_user h = Some 1
  /\ Server.sockets srv = [Socket.mk 0 h (Num 2) [2]]
  /\ Server.sent srv = [(0%nat, ev_user_status_changed 2 "online")]
  /\ MemStorage.getUser (Server.storage srv) 2
     = Some (User.mk 2 "Said158" "h2.s2" true "online" None 2001).
Proof. repeat split. Qed.

(** C1, as the code has it: a connection is admitted on the marker
    ["session"] and a non-empty [userId] parameter, and is bound to
    the number that parameter converts to, no login session being
    consulted; a join is honoured only for that bound userId, so the one
    room a connection ever joins is the room of the userId it is bound
    to; and no sequence of events changes the userId a connection is
    bound to. *)
Theorem connection_bound_to_claimed_userId
        {S : Type} `{IStorage S} (Number : string -> jsnum) (st : S)
        (es es' : list (inbound * Z)) (sock : Socket.t) :
  In sock (Server.sockets (run Number (Server.init st) es)) ->
  Handshake.auth_token (Socket.handshake sock) = Some "session"
  /\ (exists claimed,
         Handshake.query_userId (Socket.handshake sock) = Some claimed
         /\ claimed <> ""
         /\ Socket.data_userId sock = Number claimed)
  /\ (forall room, In room (Socket.rooms sock) ->
                   Socket.data_userId sock = Num room)
  /\ (forall sock',
         In sock'
            (Server.sockets
               (run Number (run Number (Server.init st) es) es')) ->
         Socket.id sock' = Socket.id sock ->
         Socket.data_userId sock' = Socket.data_userId sock
         /\ Socket.handshake sock' = Socket.handshake sock).
Proof.
  intros Hin.
  assert (Hinit : sockets_wf (Server.init st)
                  /\ Forall (bound_well Number)
                            (Server.sockets (Server.init st))).
  { repeat split; constructor. }
  destruct Hinit as [Hwf0 Hall0].
  destruct (@run_invariant _ _ Number es (Server.init st) Hwf0 Hall0)
    as [[Hnd Hlt] Hall].
  rewrite Forall_forall in Hall. destruct (Hall _ Hin) as [[Htok Hq] Hown].
  split; [exact Htok|]. split; [exact Hq|]. split; [exact Hown|].
  intros sock' Hin' Hid.
  apply run_socket_origin in Hin' as (sock0 & Hin0 & Hb).
  - unfold binding in Hb. injection Hb as Hid0 Hh Hd.
    assert (sock0 = sock) as ->; [|auto].
    eapply NoDup_ids_eq; eauto. congruence.
  - rewrite Hid. rewrite Forall_forall in Hlt. apply Hlt.
    now apply in_map.
Qed.

Lemma connection_bound_to_claimed_userId_witness :
  let h := Handshake.mk (Some 1) (Some "session") (Some "2") in
  let sock := Socket.mk 0 h (Num 2) [2] in
  In sock
     (Server.sockets
        (run Number_of_digits (Server.init sample_store)
             [(Connect h, 2000); (Join 0 2, 2001)]))
  /\ Handshake.auth_token h = Some "session"
  /\ (forall room, In room [2] -> Num 2 = Num room)
  /\ (forall sock',
         In sock'
            (Server.sockets
               (run Number_of_digits
                    (run Number_of_digits (Server.init sample_store)
                         [(Connect h, 2000); (Join 0 2, 2001)])
                    [(Join 0 1, 2002);
                     (ChatMessage 0 (ChatData.mk "chat" 2 1 "QUJD"), 2003)]))
         ->
         Socket.id sock' = 0%nat ->
         Socket.data_userId sock' = Num 2
         /\ Socket.handshake sock' = h).
Proof.
  intros h sock.
  assert (Hin : In sock
                   (Server.sockets
                      (run Number_of_digits (Server.init sample_store)
                           [(Connect h, 2000); (Join 0 2, 2001)])))
    by (left; reflexivity).
  destruct (connection_bound_to_claimed_userId
              Number_of_digits sample_store
              [(Connect h, 2000); (Join 0 2, 2001)]
              [(Join 0 1, 2002);
               (ChatMessage 0 (ChatData.mk "chat" 2 1 "QUJD"), 2003)]
              sock Hin)
    as (Htok & _ & Hrooms & Hkeep).
  repeat split; auto.
  - apply (Hkeep sock'); auto.
  - apply (Hkeep sock'); auto.
Defined.

(** ** Presence *)

(** The stored status of a user, if the user exists. *)
Lemma status_after_update (s s' : MemStorage.t) (id : Z) (status : string)
      (now : Z) (u : User.t) :
  MemStorage.updateUserStatus s id status now = Ok (s', u) ->
  forall other, other <> id ->
    MemStorage.getUser s' other = MemStorage.getUser s other.
Proof.
  unfold MemStorage.updateUserStatus.
  destruct (MemStorage.getUser s id) as [user|]; [|discriminate].
  intros [= <- _] other Hne. now apply get_set_other.
Qed.

(** Two connections of user 1 admitted and joined, then the first one
    closed: the second is still connected and in the room of user 1,
    and the stored status of user 1 is ["offline"]. *)
Lemma status_offline_while_connection_remains :
  let h := plain_handshake "1" in
  let joined :=
    run Number_of_digits (Server.init sample_store)
        [(Connect h, 2000); (Connect h, 2001); (Join 0 1, 2002);
         (Join 1 1, 2003)] in
  let srv := on_disconnect joined 0 2004 in
  Server.sockets joined
  = [Socket.mk 0 h (Num 1) [1]; Socket.mk 1 h (Num 1) [1]]
  /\ option_map User.status (MemStorage.getUser (Server.storage joined) 1)
     = Some "online"
  /\ Server.sockets srv = [Socket.mk 1 h (Num 1) [1]]
  /\ option_map User.status (MemStorage.getUser (Server.storage srv) 1)
     = Some "offline"
  /\ option_map User.status (MemStorage.getUser (Server.storage srv) 1)
     <> Some "online".
Proof. repeat split. discriminate. Qed.

(** C3, as the code has it: the stored status of an existing user is
    set to ["online"] by every join of a connection bound to that
    user, whether or not it is the first, and to ["offline"] by every
    termination of a connection bound to that user, whether or not
    others remain; and a realtime event changes the status of a user
    only if it is such a join or such a termination. *)
Theorem status_set_by_each_join_and_disconnect :
  (forall (srv : Server.t MemStorage.t) (sid : nat) (socket : Socket.t)
          (userId : Z) (user : User.t) (now : Z),
      find_socket srv sid = Some socket ->
      Socket.data_userId socket = Num userId ->
      MemStorage.getUser (Server.storage srv) userId = Some user ->
      MemStorage.getUser (Server.storage (on_join srv sid userId now))
                         userId
      = Some (User.with_status user "online" now)
      /\ (userId <> 0 ->
          MemStorage.getUser (Server.storage (on_disconnect srv sid now))
                             userId
          = Some (User.with_status user "offline" now)))
  /\ (forall (Number : string -> jsnum) (srv : Server.t MemStorage.t)
             (e : inbound * Z) (userId : Z),
         option_map User.status
           (MemStorage.getUser (Server.storage (step Number srv e)) userId)
         <> option_map User.status
              (MemStorage.getUser (Server.storage srv) userId) ->
         exists sid socket,
           find_socket srv sid = Some socket
           /\ Socket.data_userId socket = Num userId
           /\ (fst e = Join sid userId \/ fst e = Disconnect sid)).
Proof.
  split.
  - intros srv sid socket userId user now Hf Hb Hu. split.
    + unfold on_join. rewrite Hf, Hb. simpl. rewrite Z.eqb_refl. simpl.
      unfold MemStorage.updateUserStatus. rewrite Hu. simpl.
      apply get_set_same.
    + intros Hnz. unfold on_disconnect. rewrite Hf, Hb. simpl.
      apply Z.eqb_neq in Hnz. rewrite Hnz. simpl.
      unfold MemStorage.updateUserStatus. rewrite Hu. simpl.
      apply get_set_same.
  - intros Number srv [[h|sid uid|sid data|sid] now] userId Hchg;
      simpl in Hchg.
    + exfalso. apply Hchg. unfold on_connection.
      destruct (io_use Number h); reflexivity.
    + unfold on_join in Hchg.
      destruct (find_socket srv sid) as [socket|] eqn:Hf;
        [|exfalso; auto].
      destruct (strict_neq _ _) eqn:Hneq; [exfalso; auto|].
      apply strict_neq_false in Hneq as (z & [= <-] & Hb).
      cbn [with_sockets Server.storage updateUserStatus
           MemStorage_IStorage] in Hchg.
      destruct (MemStorage.updateUserStatus _ uid _ _) as [[st u]|] eqn:Hup;
        [|exfalso; auto].
      destruct (Z.eq_dec userId uid) as [->|Hne].
      * exists sid, socket. simpl. auto.
      * exfalso. apply Hchg. simpl.
        now rewrite (@status_after_update _ _ _ _ _ _ Hup _ Hne).
    + exfalso. apply Hchg. unfold on_chat_message.
      destruct (find_socket srv sid); auto.
      destruct (strict_neq _ _); auto.
    + unfold on_disconnect in Hchg.
      destruct (find_socket srv sid) as [socket|] eqn:Hf;
        [|exfalso; auto].
      destruct (Socket.data_userId socket) as [|uid] eqn:Hb;
        [exfalso; auto|].
      destruct (truthy (Num uid)); [|exfalso; auto].
      cbn [with_sockets Server.storage updateUserStatus
           MemStorage_IStorage] in Hchg.
      destruct (MemStorage.updateUserStatus _ uid _ _) as [[st u]|] eqn:Hup;
        [|exfalso; auto].
      destruct (Z.eq_dec userId uid) as [->|Hne].
      * exists sid, socket. simpl. auto.
      * exfalso. apply Hchg. simpl.
        now rewrite (@status_after_update _ _ _ _ _ _ Hup _ Hne).
Qed.

Lemma status_set_by_each_join_and_disconnect_witness :
  MemStorage.getUser
    (Server.storage (on_join joined_server 1 1 2004)) 1
  = Some (User.mk 1 "admin" "h1.s1" true "online" None 2004)
  /\ MemStorage.getUser
       (Server.storage (on_disconnect joined_server 1 2004)) 1
     = Some (User.mk 1 "admin" "h1.s1" true "offline" None 2004)
  /\ exists sid socket,
      find_socket joined_server sid = Some socket
      /\ Socket.data_userId socket = Num 1
      /\ (Disconnect 0 = Join sid 1 \/ Disconnect 0 = Disconnect sid).
Proof.
  destruct status_set_by_each_join_and_disconnect as [Hset Honly].
  destruct (Hset joined_server 1%nat
                 (Socket.mk 1 (plain_handshake "1") (Num 1) [1]) 1
                 (User.mk 1 "admin" "h1.s1" true "online" None 2003) 2004
                 eq_refl eq_refl eq_refl) as [Hon Hoff].
  split; [exact Hon|]. split; [apply Hoff; discriminate|].
  apply (Honly Number_of_digits joined_server (Disconnect 0, 2004) 1).
  discriminate.
Defined.

Lemma getMessages_after_createMessages_witness :
  message_ids_below (MemStorage.boot "h1.s1" "h2.s2" 1000 1001)
  /\ MemStorage.getMessages (MemStorage.boot "h1.s1" "h2.s2" 1000 1001) 1 2
     = []
  /\ StronglySorted Z.le (map snd sample_calls)
  /\ (let '(s', created) :=
        createMessages (MemStorage.boot "h1.s1" "h2.s2" 1000 1001)
                       sample_calls in
      let history := MemStorage.getMessages s' 1 2 in
      map inserted created = map fst sample_calls
      /\ map Message.timestamp created = map snd sample_calls
      /\ history = filter (MemStorage.between 1 2) created
      /\ List.length history
         = List.length
             (filter (fun c => addressed 1 2 (fst c)) sample_calls)
      /\ StronglySorted (fun m1 m2 => Message.id m1 < Message.id m2)
                        history
      /\ StronglySorted
           (fun m1 m2 => Message.timestamp m1 <= Message.timestamp m2)
           history).
Proof.
  assert (H1 : message_ids_below
                 (MemStorage.boot "h1.s1" "h2.s2" 1000 1001))
    by constructor.
  assert (H2 : MemStorage.getMessages
                 (MemStorage.boot "h1.s1" "h2.s2" 1000 1001) 1 2 = [])
    by reflexivity.
  assert (H3 : StronglySorted Z.le (map snd sample_calls))
    by (repeat (constructor; try (simpl; lia))).
  split; [exact H1|]. split; [exact H2|]. split; [exact H3|].
  exact (@getMessages_after_createMessages
           (MemStorage.boot "h1.s1" "h2.s2" 1000 1001) sample_calls 1 2
           H1 H2 H3).
Defined.

Example getMessages_sample_calls :
  MemStorage.getMessages
    (fst (createMessages (MemStorage.boot "h1.s1" "h2.s2" 1000 1001)
                         sample_calls)) 2 1
  = [Message.mk 1 1 2 "QQ==" 2000; Message.mk 3 2 1 "Qg==" 2001;
     Message.mk 5 1 2 "Qw==" 2005].
Proof. reflexivity. Qed.

(** * Further properties of the store *)

Section JsMapMoreFacts.
Context {V : Type}.
Implicit Types (m : JsMap.t V) (k : Z) (v : V).

Lemma set_same m k v : JsMap.get m k = Some v -> JsMap.set m k v = m.
Proof.
  induction m as [|[k' v'] r IH]; simpl; [discriminate|].
  destruct (k =? k') eqn:E.
  - apply Z.eqb_eq in E. intros [= ->]. now subst.
  - intros Hget. now rewrite IH.
Qed.

Lemma set_set m k v v' :
  JsMap.set (JsMap.set m k v) k v' = JsMap.set m k v'.
Proof.
  induction m as [|[k' w] r IH]; simpl.
  - now rewrite Z.eqb_refl.
  - destruct (k =? k') eqn:E; simpl.
    + now rewrite Z.eqb_refl.
    + now rewrite E, IH.
Qed.

Lemma keys_set_absent m k v :
  ~ In k (JsMap.keys m) -> JsMap.keys (JsMap.set m k v) = JsMap.keys m ++ [k].
Proof.
  intros Hn. rewrite set_fresh by exact Hn.
  unfold JsMap.keys. now rewrite map_app.
Qed.

Lemma keys_set_cases m k v :
  JsMap.keys (JsMap.set m k v) = JsMap.keys m
  \/ (~ In k (JsMap.keys m)
      /\ JsMap.keys (JsMap.set m k v) = JsMap.keys m ++ [k]).
Proof.
  destruct (in_dec Z.eq_dec k (JsMap.keys m)) as [Hin|Hn].
  - left. now apply keys_set_present.
  - right. split; auto. now apply keys_set_absent.
Qed.

Lemma NoDup_keys_set m k v :
  NoDup (JsMap.keys m) -> NoDup (JsMap.keys (JsMap.set m k v)).
Proof.
  intros Hnd. destruct (keys_set_cases m k v) as [->|[Hn ->]]; auto.
  apply NoDup_app; auto.
  - repeat constructor. simpl. tauto.
  - intros x Hx [<-|[]]. contradiction.
Qed.

Lemma Forall_keys_set (P : Z -> Prop) m k v :
  Forall P (JsMap.keys m) -> P k -> Forall P (JsMap.keys (JsMap.set m k v)).
Proof.
  intros Hall Hk. destruct (keys_set_cases m k v) as [->|[_ ->]]; auto.
  apply Forall_app. split; auto.
Qed.

Lemma keys_delete m k :
  JsMap.keys (JsMap.delete m k)
  = filter (fun k' => negb (k =? k')) (JsMap.keys m).
Proof.
  unfold JsMap.delete, JsMap.keys.
  induction m as [|[k' v'] r IH]; simpl; auto.
  destruct (k =? k'); simpl; now rewrite IH.
Qed.

Lemma delete_absent m k : JsMap.get m k = None -> JsMap.delete m k = m.
Proof.
  unfold JsMap.delete. induction m as [|[k' v'] r IH]; simpl; auto.
  destruct (k =? k') eqn:E; [discriminate|].
  intros Hget. simpl. now rewrite IH.
Qed.

Lemma Forall_delete (P : Z * V -> Prop) m k :
  Forall P m -> Forall P (JsMap.delete m k).
Proof.
  unfold JsMap.delete. rewrite !Forall_forall. intros Hall e He.
  apply filter_In in He as [He _]. auto.
Qed.

(** With one entry per key, an entry is what [get] finds under its
    key. *)
Lemma In_get m k v :
  NoDup (JsMap.keys m) -> In (k, v) m -> JsMap.get m k = Some v.
Proof.
  induction m as [|[k' v'] r IH]; simpl; [tauto|].
  intros Hnd [Heq|Hin].
  - injection Heq as -> ->. now rewrite Z.eqb_refl.
  - apply NoDup_cons_iff in Hnd as [Hnot Hnd].
    destruct (k =? k') eqn:E.
    + apply Z.eqb_eq in E. subst k'. exfalso. apply Hnot.
      change k with (fst (k, v)). now apply in_map.
    + auto.
Qed.
End JsMapMoreFacts.

Lemma JsSet_has_In (c : JsSet.t) (x : Z) :
  JsSet.has c x = true <-> In x c.
Proof.
  unfold JsSet.has. rewrite existsb_exists. split.
  - intros (y & Hy & E). apply Z.eqb_eq in E. now subst.
  - intros Hin. exists x. split; auto. apply Z.eqb_refl.
Qed.

Lemma JsSet_In_add (c : JsSet.t) (x y : Z) :
  In y (JsSet.add c x) <-> y = x \/ In y c.
Proof.
  unfold JsSet.add. destruct (JsSet.has c x) eqn:E.
  - apply JsSet_has_In in E. split; [auto|]. intros [->|]; auto.
  - rewrite in_app_iff. simpl. intuition.
Qed.

Lemma JsSet_NoDup_add (c : JsSet.t) (x : Z) :
  NoDup c -> NoDup (JsSet.add c x).
Proof.
  intros Hnd. unfold JsSet.add. destruct (JsSet.has c x) eqn:E; auto.
  apply NoDup_app; auto.
  - repeat constructor. simpl. tauto.
  - intros y Hy [<-|[]].
    apply JsSet_has_In in Hy. congruence.
Qed.

Lemma JsSet_add_idem (c : JsSet.t) (x : Z) :
  JsSet.add (JsSet.add c x) x = JsSet.add c x.
Proof.
  unfold JsSet.add at 1.
  assert (JsSet.has (JsSet.add c x) x = true) as ->; auto.
  apply JsSet_has_In, JsSet_In_add. auto.
Qed.

Lemma contacts_addContact (s : MemStorage.t) (userId contactId : Z) :
  MemStorage.contacts (MemStorage.addContact s userId contactId)
  = JsMap.set (MemStorage.contacts s) userId
              (JsSet.add (contacts_of s userId) contactId).
Proof.
  unfold MemStorage.addContact, contacts_of, JsMap.has.
  destruct (JsMap.get (MemStorage.contacts s) userId) as [c|] eqn:Hget.
  - now rewrite Hget.
  - rewrite get_set_same. cbn [MemStorage.contacts]. apply set_set.
Qed.

Lemma addContact_frame (s : MemStorage.t) (userId contactId : Z) :
  MemStorage.users (MemStorage.addContact s userId contactId)
  = MemStorage.users s
  /\ MemStorage.messages (MemStorage.addContact s userId contactId)
     = MemStorage.messages s
  /\ MemStorage.currentId (MemStorage.addContact s userId contactId)
     = MemStorage.currentId s
  /\ MemStorage.currentMessageId (MemStorage.addContact s userId contactId)
     = MemStorage.currentMessageId s.
Proof.
  unfold MemStorage.addContact.
  destruct (JsMap.get _ userId); repeat split.
Qed.

(** [createUser] hands out the next id, which no user had: the new
    record is stored under it with an empty contact set, it is the
    last of [getAllUsers], and every other user is as before. *)
Theorem createUser_fresh (s : MemStorage.t) (insertUser : InsertUser.t)
        (hashedPassword : string) (now : Z) :
  user_ids_below s ->
  let '(s', user) :=
    MemStorage.createUser s insertUser hashedPassword now in
  User.id user = MemStorage.currentId s
  /\ MemStorage.getUser s (User.id user) = None
  /\ MemStorage.getUser s' (User.id user) = Some user
  /\ (forall other, other <> User.id user ->
        MemStorage.getUser s' other = MemStorage.getUser s other)
  /\ MemStorage.getAllUsers s' = MemStorage.getAllUsers s ++ [user]
  /\ JsMap.get (MemStorage.contacts s') (User.id user) = Some []
  /\ MemStorage.currentId s' = MemStorage.currentId s + 1
  /\ user_ids_below s'.
Proof.
  intros Hbelow. unfold MemStorage.createUser.
  assert (Hfresh : ~ In (MemStorage.currentId s)
                        (JsMap.keys (MemStorage.users s))).
  { intros Hin. unfold user_ids_below in Hbelow.
    rewrite Forall_forall in Hbelow. specialize (Hbelow _ Hin). lia. }
  cbn [User.id]. split; [reflexivity|]. split.
  { now apply get_None_keys. }
  split. { apply get_set_same. }
  split. { intros other Hne. now apply get_set_other. }
  split.
  { unfold MemStorage.getAllUsers, JsMap.values. cbn [MemStorage.users].
    rewrite set_fresh by exact Hfresh. now rewrite map_app. }
  split. { apply get_set_same. }
  split; [reflexivity|].
  unfold user_ids_below in *. cbn [MemStorage.users MemStorage.currentId].
  apply Forall_keys_set; [|lia].
  eapply Forall_impl; [|exact Hbelow]. simpl. intros; lia.
Qed.

Lemma createUser_fresh_witness :
  user_ids_below sample_store
  /\ (let '(s', user) :=
        MemStorage.createUser sample_store (InsertUser.mk "carol" "pw")
                              "h3.s3" 3000 in
      User.id user = 3
      /\ MemStorage.getUser sample_store (User.id user) = None
      /\ MemStorage.getUser s' (User.id user) = Some user
      /\ (forall other, other <> User.id user ->
            MemStorage.getUser s' other
            = MemStorage.getUser sample_store other)
      /\ MemStorage.getAllUsers s'
         = MemStorage.getAllUsers sample_store ++ [user]
      /\ JsMap.get (MemStorage.contacts s') (User.id user) = Some []
      /\ MemStorage.currentId s' = 3 + 1
      /\ user_ids_below s').
Proof.
  assert (H : user_ids_below sample_store)
    by (repeat constructor; simpl; lia).
  split; [exact H|].
  exact (@createUser_fresh sample_store (InsertUser.mk "carol" "pw")
                           "h3.s3" 3000 H).
Defined.

(** [addContact] puts [contactId] in the contact set of [userId] and
    nowhere else: the set of [userId] gains exactly that member, the
    sets of the other users, the users and the messages are as before,
    and adding the same contact again changes nothing. *)
Theorem addContact_adds_once (s : MemStorage.t) (userId contactId : Z) :
  let s' := MemStorage.addContact s userId contactId in
  (forall x, In x (contacts_of s' userId)
             <-> x = contactId \/ In x (contacts_of s userId))
  /\ (forall other, other <> userId ->
        JsMap.get (MemStorage.contacts s') other
        = JsMap.get (MemStorage.contacts s) other)
  /\ MemStorage.users s' = MemStorage.users s
  /\ MemStorage.messages s' = MemStorage.messages s
  /\ MemStorage.addContact s' userId contactId = s'.
Proof.
  intros s'.
  assert (Hc : contacts_of s' userId
               = JsSet.add (contacts_of s userId) contactId).
  { unfold contacts_of at 1. subst s'.
    now rewrite contacts_addContact, get_set_same. }
  destruct (addContact_frame s userId contactId) as (Hu & Hm & Hi & Hj).
  split; [|split; [|split; [|split]]]; auto.
  - intros x. rewrite Hc. apply JsSet_In_add.
  - intros other Hne. subst s'. rewrite contacts_addContact.
    now apply get_set_other.
  - destruct (addContact_frame s' userId contactId) as (Hu' & Hm' & Hi' & Hj').
    pose proof (contacts_addContact s' userId contactId) as Hcs.
    rewrite Hc, JsSet_add_idem, <- Hc in Hcs.
    assert (Hsame : JsMap.set (MemStorage.contacts s') userId
                              (contacts_of s' userId)
                    = MemStorage.contacts s').
    { apply set_same. rewrite Hc. subst s'.
      now rewrite contacts_addContact, get_set_same. }
    rewrite Hsame in Hcs.
    destruct (MemStorage.addContact s' userId contactId) as [u m c i j].
    destruct s' as [u0 m0 c0 i0 j0]. simpl in *. congruence.
Qed.

(** [getContacts] of a user who has no contact set is empty, and in a
    store whose records sit under their own ids it returns exactly
    the users that are members of the set and still have a record. *)
Theorem getContacts_members (s : MemStorage.t) (userId : Z) :
  users_keyed s ->
  (JsMap.get (MemStorage.contacts s) userId = None ->
   MemStorage.getContacts s userId = [])
  /\ (forall user,
         In user (MemStorage.getContacts s userId)
         <-> In (User.id user) (contacts_of s userId)
             /\ MemStorage.getUser s (User.id user) = Some user).
Proof.
  intros Hkeyed. unfold MemStorage.getContacts, contacts_of. split.
  - now intros ->.
  - intros user. rewrite In_defined, in_map_iff. split.
    + intros (k & Hget & Hin).
      assert (User.id user = k) as ->; auto.
      apply get_In in Hget. unfold users_keyed in Hkeyed.
      rewrite Forall_forall in Hkeyed. apply (Hkeyed _ Hget).
    + intros [Hin Hget]. exists (User.id user). auto.
Qed.

Lemma getContacts_members_witness :
  users_keyed sample_store
  /\ (JsMap.get (MemStorage.contacts sample_store) 7 = None ->
      MemStorage.getContacts sample_store 7 = [])
  /\ (forall user,
         In user (MemStorage.getContacts sample_store 1)
         <-> In (User.id user) (contacts_of sample_store 1)
             /\ MemStorage.getUser sample_store (User.id user)
                = Some user).
Proof.
  assert (H : users_keyed sample_store) by (repeat constructor).
  split; [exact H|].
  destruct (@getContacts_members sample_store 7 H) as [H7 _].
  destruct (@getContacts_members sample_store 1 H) as [_ H1].
  split; [exact H7 | exact H1].
Defined.

(** [deleteMessage] removes the message stored under [id] and no
    other: in a store whose messages sit under their own ids, every
    conversation is what it was without that message, and deleting an
    id that has no message changes nothing. *)
Theorem deleteMessage_removes_one (s : MemStorage.t) (id : Z) :
  Forall (fun e => Message.id (snd e) = fst e) (MemStorage.messages s) ->
  let s' := MemStorage.deleteMessage s id in
  JsMap.get (MemStorage.messages s') id = None
  /\ (forall other, other <> id ->
        JsMap.get (MemStorage.messages s') other
        = JsMap.get (MemStorage.messages s) other)
  /\ (forall a b,
        MemStorage.getMessages s' a b
        = filter (fun m => negb (id =? Message.id m))
                 (MemStorage.getMessages s a b))
  /\ (JsMap.get (MemStorage.messages s) id = None -> s' = s)
  /\ MemStorage.users s' = MemStorage.users s
  /\ MemStorage.contacts s' = MemStorage.contacts s.
Proof.
  intros Hkeyed s'. subst s'. unfold MemStorage.deleteMessage.
  cbn [MemStorage.messages MemStorage.users MemStorage.contacts].
  split; [apply get_delete_same|].
  split; [intros other Hne; now apply get_delete_other|].
  split; [|split; [|split; reflexivity]].
  - intros a b. unfold MemStorage.getMessages, JsMap.values, JsMap.delete.
    cbn [MemStorage.messages].
    induction Hkeyed as [|[k m] r Hk Hr IH]; simpl; auto.
    simpl in Hk. subst k.
    destruct (id =? Message.id m) eqn:E; simpl;
      destruct (MemStorage.between a b m); simpl; rewrite ?E; simpl;
      rewrite ?IH; auto.
  - intros Habsent. rewrite (delete_absent _ _ Habsent).
    now destruct s.
Qed.

Lemma deleteMessage_removes_one_witness :
  Forall (fun e => Message.id (snd e) = fst e)
         (MemStorage.messages sample_store)
  /\ MemStorage.getMessages sample_store 1 2
     = [Message.mk 1 1 2 "QUJDRA==" 1002]
  /\ MemStorage.getMessages (MemStorage.deleteMessage sample_store 1) 1 2
     = []
  /\ MemStorage.deleteMessage sample_store 5 = sample_store.
Proof.
  assert (H : Forall (fun e => Message.id (snd e) = fst e)
                     (MemStorage.messages sample_store))
    by (repeat constructor).
  destruct (@deleteMessage_removes_one sample_store 1 H)
    as (_ & _ & Hconv & _).
  destruct (@deleteMessage_removes_one sample_store 5 H)
    as (_ & _ & _ & Hnoop & _).
  split; [exact H|]. split; [reflexivity|]. split.
  - rewrite Hconv. reflexivity.
  - apply Hnoop. reflexivity.
Defined.

(** [getUserByUsername] answers with a stored user of exactly that
    name, the first in insertion order, and answers nothing only when
    no stored user has the name. *)
Theorem getUserByUsername_finds (s : MemStorage.t) (username : string) :
  (forall user,
      MemStorage.getUserByUsername s username = Some user ->
      User.username user = username
      /\ exists before after,
          MemStorage.getAllUsers s = before ++ user :: after
          /\ forall u, In u before -> User.username u <> username)
  /\ (MemStorage.getUserByUsername s username = None
      <-> forall u, In u (MemStorage.getAllUsers s) ->
                    User.username u <> username).
Proof.
  unfold MemStorage.getUserByUsername, MemStorage.getAllUsers.
  generalize (JsMap.values (MemStorage.users s)). intros l. split.
  - induction l as [|u0 l IH]; simpl; [discriminate|].
    intros user. destruct (String.eqb (User.username u0) username) eqn:E.
    + intros [= <-]. apply String.eqb_eq in E. split; auto.
      exists [], l. split; [reflexivity | intros u []].
    + intros Hfind. destruct (IH _ Hfind) as (Hname & b & a & -> & Hb).
      split; auto. exists (u0 :: b), a. split; auto.
      intros u [<-|Hin]; auto. now apply String.eqb_neq.
  - split.
    + intros Hnone u Hin Hname.
      apply (find_none _ _ Hnone) in Hin.
      apply String.eqb_neq in Hin. contradiction.
    + intros Hall. induction l as [|u0 l IH]; simpl; auto.
      destruct (String.eqb (User.username u0) username) eqn:E.
      * apply String.eqb_eq in E. exfalso. apply (Hall u0); simpl; auto.
      * apply IH. intros u Hin. apply Hall. simpl. auto.
Qed.

(** [updateUser] given no field returns the record it found and
    leaves the store exactly as it was; [updateUser], like
    [updateUserStatus] and [updateUserPublicKey], throws on an id that
    has no record. *)
Theorem updateUser_nothing (s : MemStorage.t) (id : Z) :
  (forall user,
      MemStorage.getUser s id = Some user ->
      MemStorage.updateUser s id
        (PartialUser.mk None None None None None None None)
      = Ok (s, user))
  /\ (MemStorage.getUser s id = None ->
      forall updates status now publicKey,
        MemStorage.updateUser s id updates = Throw "User not found"
        /\ MemStorage.updateUserStatus s id status now
           = Throw "User not found"
        /\ MemStorage.updateUserPublicKey s id publicKey
           = Throw "User not found").
Proof.
  split.
  - intros user Hget. unfold MemStorage.updateUser. rewrite Hget.
    assert (PartialUser.apply user
              (PartialUser.mk None None None None None None None) = user)
      as -> by (now destruct user).
    unfold MemStorage.set_users. unfold MemStorage.getUser in Hget.
    rewrite (set_same _ _ Hget). now destruct s.
  - intros Hnone updates status now publicKey.
    unfold MemStorage.updateUser, MemStorage.updateUserStatus,
      MemStorage.updateUserPublicKey.
    now rewrite Hnone.
Qed.

Lemma updateUser_nothing_witness :
  MemStorage.updateUser sample_store 2
    (PartialUser.mk None None None None None None None)
  = Ok (sample_store,
        User.mk 2 "Said158" "h2.s2" true "offline" None 1001)
  /\ MemStorage.updateUser sample_store 9
       (PartialUser.mk None None None (Some true) None None None)
     = Throw "User not found".
Proof.
  destruct (updateUser_nothing sample_store 2) as [Hsome _].
  destruct (updateUser_nothing sample_store 9) as [_ Hnone].
  split.
  - apply Hsome. reflexivity.
  - apply Hnone; [reflexivity| exact "" | exact 0 | exact ""].
Defined.



(** ** What every call on the store keeps *)

Lemma keys_map_values {V W : Type} (f : V -> W) (m : JsMap.t V) :
  JsMap.keys (map (fun e => (fst e, f (snd e))) m) = JsMap.keys m.
Proof. unfold JsMap.keys. rewrite map_map. now apply map_ext. Qed.

Lemma get_Some_key {V : Type} (m : JsMap.t V) (k : Z) (v : V) :
  JsMap.get m k = Some v -> In k (JsMap.keys m).
Proof.
  intros Hget. apply get_In in Hget.
  change k with (fst (k, v)). now apply in_map.
Qed.

Lemma NoDup_keys_delete {V : Type} (m : JsMap.t V) (k : Z) :
  NoDup (JsMap.keys m) -> NoDup (JsMap.keys (JsMap.delete m k)).
Proof. intros Hnd. rewrite keys_delete. now apply NoDup_filter. Qed.

Lemma Forall_keys_delete {V : Type} (P : Z -> Prop) (m : JsMap.t V)
      (k : Z) :
  Forall P (JsMap.keys m) -> Forall P (JsMap.keys (JsMap.delete m k)).
Proof.
  intros Hall. rewrite keys_delete. rewrite Forall_forall in *.
  intros x Hx. apply filter_In in Hx as [Hx _]. auto.
Qed.

Lemma store_wf_replace (s : MemStorage.t) (k : Z) (user updated : User.t) :
  store_wf s ->
  MemStorage.getUser s k = Some user ->
  User.id updated = User.id user ->
  store_wf (MemStorage.set_users s
              (JsMap.set (MemStorage.users s) k updated)).
Proof.
  intros (Hu & Hm & Hc & Hsets & Hkeyed & Hmk & Hub & Hmb) Hget Hid.
  unfold store_wf, users_keyed, user_ids_below, message_ids_below in *.
  unfold MemStorage.getUser in Hget.
  cbn [MemStorage.set_users MemStorage.users MemStorage.messages
       MemStorage.contacts MemStorage.currentId
       MemStorage.currentMessageId].
  repeat split; auto.
  - now apply NoDup_keys_set.
  - apply Forall_set; auto. simpl. rewrite Hid.
    apply get_In in Hget. rewrite Forall_forall in Hkeyed.
    apply (Hkeyed _ Hget).
  - apply Forall_keys_set; auto.
    apply get_Some_key in Hget. rewrite Forall_forall in Hub. auto.
Qed.

Lemma store_wf_perform (s : MemStorage.t) (c : store_call) :
  store_wf s -> keeps_id c -> store_wf (perform s c).
Proof.
  intros Hwf Hkeeps.
  pose proof Hwf as (Hu & Hm & Hc & Hsets & Hkeyed & Hmk & Hub & Hmb).
  destruct c as [iu h now|k st now|k updates|k pk|k|m now|k|a b];
    cbn [perform].
  - unfold store_wf, users_keyed, user_ids_below, message_ids_below in *.
    unfold MemStorage.createUser.
    cbn [fst MemStorage.users MemStorage.messages MemStorage.contacts
         MemStorage.currentId MemStorage.currentMessageId].
    repeat split; auto.
    + now apply NoDup_keys_set.
    + now apply NoDup_keys_set.
    + apply Forall_set; auto. simpl. constructor.
    + apply Forall_set; auto.
    + apply Forall_keys_set; [|lia].
      eapply Forall_impl; [|exact Hub]. simpl. intros; lia.
  - unfold MemStorage.updateUserStatus.
    destruct (MemStorage.getUser s k) as [user|] eqn:Hget; simpl; auto.
    now apply store_wf_replace with (user := user).
  - unfold MemStorage.updateUser.
    destruct (MemStorage.getUser s k) as [user|] eqn:Hget; simpl; auto.
    apply store_wf_replace with (user := user); auto.
    simpl in Hkeeps. unfold PartialUser.apply. simpl. now rewrite Hkeeps.
  - unfold MemStorage.updateUserPublicKey.
    destruct (MemStorage.getUser s k) as [user|] eqn:Hget; simpl; auto.
    now apply store_wf_replace with (user := user).
  - unfold store_wf, user_ids_below, message_ids_below in *.
    split; [|split; [|split; [|split; [|split; [|split; [|split]]]]]];
      auto.
    + now apply NoDup_keys_delete.
    + unfold MemStorage.banUser. cbn [MemStorage.contacts].
      rewrite (keys_map_values (fun c => JsSet.delete c k)).
      now apply NoDup_keys_delete.
    + unfold MemStorage.banUser. cbn [MemStorage.contacts].
      rewrite Forall_map. cbn [snd].
      apply Forall_delete with (k := k) in Hsets.
      eapply Forall_impl; [|exact Hsets]. intros e He.
      unfold JsSet.delete. now apply NoDup_filter.
    + now apply users_keyed_banUser.
    + now apply Forall_keys_delete.
  - unfold store_wf, users_keyed, user_ids_below, message_ids_below in *.
    unfold MemStorage.createMessage.
    cbn [fst MemStorage.users MemStorage.messages MemStorage.contacts
         MemStorage.currentId MemStorage.currentMessageId].
    repeat split; auto.
    + now apply NoDup_keys_set.
    + apply Forall_set; auto.
    + apply Forall_keys_set; [|lia].
      eapply Forall_impl; [|exact Hmb]. simpl. intros; lia.
  - unfold store_wf, users_keyed, user_ids_below, message_ids_below in *.
    unfold MemStorage.deleteMessage.
    cbn [MemStorage.users MemStorage.messages MemStorage.contacts
         MemStorage.currentId MemStorage.currentMessageId].
    repeat split; auto.
    + now apply NoDup_keys_delete.
    + now apply Forall_delete.
    + now apply Forall_keys_delete.
  - destruct (addContact_frame s a b) as (Eu & Em & Ei & Ej).
    unfold store_wf, users_keyed, user_ids_below, message_ids_below in *.
    rewrite Eu, Em, Ei, Ej, contacts_addContact.
    repeat split; auto.
    + now apply NoDup_keys_set.
    + apply Forall_set; auto. simpl. apply JsSet_NoDup_add.
      unfold contacts_of.
      destruct (JsMap.get (MemStorage.contacts s) a) as [c0|] eqn:Hget.
      * apply get_In in Hget. rewrite Forall_forall in Hsets.
        apply (Hsets _ Hget).
      * constructor.
Qed.

(** Every store reached from the constructor's empty store by calls
    on the store (an [updateUser] not being given an [id] field) has
    one entry per key in each map and one per member in each contact
    set, holds every user and message under its own id, and has never
    handed out an id at or above its counters. *)
Theorem store_wf_reachable (calls : list store_call) :
  Forall keeps_id calls ->
  store_wf (fold_left perform calls MemStorage.empty).
Proof.
  assert (Hempty : store_wf MemStorage.empty)
    by (repeat split; constructor).
  revert Hempty. generalize MemStorage.empty.
  induction calls as [|c calls IH]; intros s Hwf Hall; simpl; auto.
  apply Forall_cons_iff in Hall as [Hc Hall].
  apply IH; auto. now apply store_wf_perform.
Qed.

Lemma store_wf_reachable_witness :
  store_wf
    (fold_left perform
       [call_createUser (InsertUser.mk "admin" "S1582834") "h1.s1" 1000;
        call_createUser (InsertUser.mk "Said158" "S@@d261008") "h2.s2" 1001;
        call_addContact 1 2;
        call_createMessage (InsertMessage.mk 1 2 "QUJDRA==") 1002;
        call_updateUser 1
          (PartialUser.mk None None None (Some true) None None None);
        call_banUser 2]
       MemStorage.empty).
Proof.
  apply store_wf_reachable. repeat constructor.
Defined.

(** * Password hashes and login *)

Lemma fromHex_byte (b : Byte.byte) (r : string) :
  fromHex (String (hex_digit (Byte.to_nat b / 16))
                  (String (hex_digit (Byte.to_nat b mod 16)) r))
  = b :: fromHex r.
Proof. destruct b; reflexivity. Qed.

(** Decoding the hexadecimal text of a buffer gives the buffer back. *)
Lemma fromHex_toHex (buf : list Byte.byte) : fromHex (toHex buf) = buf.
Proof.
  induction buf as [|b r IH]; [reflexivity|].
  cbn [toHex]. now rewrite fromHex_byte, IH.
Qed.

Lemma hex_digit_not_dot (n : nat) : Ascii.eqb (hex_digit n) "." = false.
Proof.
  unfold hex_digit.
  do 16 (destruct n as [|n]; [reflexivity|]).
  simpl. now destruct n.
Qed.

Lemma split_cons_other (sep c : ascii) (s : string) :
  Ascii.eqb c sep = false ->
  exists part parts,
    split sep s = part :: parts
    /\ split sep (String c s) = String c part :: parts.
Proof.
  intros Hc. simpl. rewrite Hc.
  destruct (split sep s) as [|part parts] eqn:E.
  - destruct s; simpl in E; [discriminate|].
    destruct (Ascii.eqb a sep); [discriminate|].
    destruct (split sep s); discriminate.
  - eauto.
Qed.

Lemma split_toHex_dot (buf : list Byte.byte) (rest : string) :
  split "." (toHex buf ++ String "." rest)%string
  = toHex buf :: split "." rest.
Proof.
  induction buf as [|b r IH]; [reflexivity|].
  cbn [toHex String.append].
  destruct (@split_cons_other "."%char (hex_digit (Byte.to_nat b mod 16))
              (toHex r ++ String "." rest)%string
              (hex_digit_not_dot (Byte.to_nat b mod 16)))
    as (p1 & ps1 & E1 & E2).
  rewrite IH in E1. injection E1 as <- <-.
  destruct (@split_cons_other "."%char (hex_digit (Byte.to_nat b / 16))
              (String (hex_digit (Byte.to_nat b mod 16))
                      (toHex r ++ String "." rest)%string)
              (hex_digit_not_dot (Byte.to_nat b / 16)))
    as (p2 & ps2 & E3 & E4).
  rewrite E2 in E3. injection E3 as <- <-. exact E4.
Qed.

Lemma split_toHex (buf : list Byte.byte) :
  exists parts, split "." (toHex buf) = toHex buf :: parts.
Proof.
  induction buf as [|b r [parts IH]]; [simpl; eauto|].
  cbn [toHex].
  destruct (@split_cons_other "."%char (hex_digit (Byte.to_nat b mod 16)) (toHex r)
              (hex_digit_not_dot (Byte.to_nat b mod 16)))
    as (p1 & ps1 & E1 & E2).
  rewrite IH in E1. injection E1 as <- <-.
  destruct (@split_cons_other "."%char (hex_digit (Byte.to_nat b / 16))
              (String (hex_digit (Byte.to_nat b mod 16)) (toHex r))
              (hex_digit_not_dot (Byte.to_nat b / 16)))
    as (p2 & ps2 & E3 & E4).
  rewrite E2 in E3. injection E3 as <- <-. eauto.
Qed.

Lemma bytes_eqb_refl (a : list Byte.byte) : bytes_eqb a a = true.
Proof.
  induction a as [|x r IH]; simpl; auto.
  unfold byte_eqb. now rewrite Nat.eqb_refl.
Qed.

Lemma split_without (sep : ascii) (s : string) :
  (forall c, In c (list_ascii_of_string s) -> c <> sep) ->
  split sep s = [s].
Proof.
  induction s as [|c r IH]; simpl; auto.
  intros Hno. destruct (Ascii.eqb c sep) eqn:E.
  - apply Ascii.eqb_eq in E. exfalso. apply (Hno c); auto.
  - rewrite IH; auto.
Qed.

Lemma find_values_set {V : Type} (f : V -> bool) (m : JsMap.t V) (k : Z)
      (v : V) :
  find f (JsMap.values m) = None -> f v = true ->
  find f (JsMap.values (JsMap.set m k v)) = Some v.
Proof.
  unfold JsMap.values. intros Hnone Hv.
  induction m as [|[k' v'] r IH]; simpl in *.
  - now rewrite Hv.
  - destruct (f v') eqn:E; [discriminate|].
    destruct (k =? k'); simpl.
    + now rewrite Hv.
    + rewrite E. auto.
Qed.

Section PasswordFacts.
Variable scrypt : string -> string -> nat -> list Byte.byte.

(** Checking a password against a hash made by [hashPassword] is
    comparing the key derived from it, under the salt of the hash,
    with the key the hash was made from; the password the hash was
    made from is accepted. *)
Theorem comparePasswords_hashPassword
        (password supplied : string) (random : list Byte.byte) :
  comparePasswords scrypt supplied (hashPassword scrypt password random)
  = timingSafeEqual (scrypt password (toHex random) 64)
                    (scrypt supplied (toHex random) 64)
  /\ comparePasswords scrypt password
                      (hashPassword scrypt password random)
     = Ok true.
Proof.
  assert (Hgen : forall sup,
             comparePasswords scrypt sup
                              (hashPassword scrypt password random)
             = timingSafeEqual (scrypt password (toHex random) 64)
                               (scrypt sup (toHex random) 64)).
  { intros sup. unfold comparePasswords, hashPassword.
    cbn [String.append]. rewrite split_toHex_dot.
    destruct (split_toHex random) as [parts ->].
    now rewrite fromHex_toHex. }
  split; [apply Hgen|]. rewrite Hgen. unfold timingSafeEqual.
  now rewrite Nat.eqb_refl, bytes_eqb_refl.
Qed.

(** A stored password without a ["."] has no salt part: checking any
    password against it throws, and the login attempt ends in an
    error rather than in a refusal. *)
Theorem comparePasswords_no_salt (s : MemStorage.t)
        (username supplied : string) (user : User.t) :
  MemStorage.getUserByUsername s username = Some user ->
  (forall c, In c (list_ascii_of_string (User.password user)) ->
             c <> "."%char) ->
  comparePasswords scrypt supplied (User.password user)
  = Throw "The salt argument must be a string or a buffer"
  /\ verify scrypt s username supplied
     = done_error "The salt argument must be a string or a buffer".
Proof.
  intros Hfound Hno.
  assert (Hthrow : comparePasswords scrypt supplied (User.password user)
                   = Throw "The salt argument must be a string or a buffer").
  { unfold comparePasswords. now rewrite (@split_without _ _ Hno). }
  split; auto. unfold verify. now rewrite Hfound, Hthrow.
Qed.

(** A user created under a name no stored user has, with the hash of
    a password, is the one a login with that name and password
    yields; a login under a name no stored user has is refused. *)
Theorem verify_after_createUser (s : MemStorage.t)
        (insertUser : InsertUser.t) (random : list Byte.byte) (now : Z) :
  MemStorage.getUserByUsername s (InsertUser.username insertUser) = None ->
  let '(s', user) :=
    MemStorage.createUser s insertUser
      (hashPassword scrypt (InsertUser.password insertUser) random) now in
  verify scrypt s (InsertUser.username insertUser)
         (InsertUser.password insertUser)
  = done_false "Invalid username or password"
  /\ verify scrypt s' (InsertUser.username insertUser)
            (InsertUser.password insertUser)
     = done_user user.
Proof.
  intros Hnone. unfold MemStorage.createUser. split.
  - unfold verify. now rewrite Hnone.
  - unfold verify, MemStorage.getUserByUsername in *.
    cbn [MemStorage.users].
    rewrite (@find_values_set _ _ _ _ _ Hnone).
    + cbn [User.password].
      destruct (comparePasswords_hashPassword
                  (InsertUser.password insertUser)
                  (InsertUser.password insertUser) random) as [_ ->].
      reflexivity.
    + simpl. apply String.eqb_refl.
Qed.
End PasswordFacts.

Lemma comparePasswords_no_salt_witness :
  let s :=
    perform sample_store
      (call_updateUser 1
         (PartialUser.mk None None (Some "plain") None None None None)) in
  MemStorage.getUserByUsername s "admin"
  = Some (User.mk 1 "admin" "plain" true "offline" None 1000)
  /\ verify sample_kdf s "admin" "plain"
     = done_error "The salt argument must be a string or a buffer".
Proof.
  intros s. split; [reflexivity|].
  apply (@comparePasswords_no_salt sample_kdf s "admin" "plain"
           (User.mk 1 "admin" "plain" true "offline" None 1000) eq_refl).
  simpl. intros c H.
  repeat (destruct H as [<-|H]; [discriminate|]). destruct H.
Defined.

Lemma verify_after_createUser_witness :
  MemStorage.getUserByUsername sample_store "carol" = None
  /\ (let '(s', user) :=
        MemStorage.createUser sample_store (InsertUser.mk "carol" "pw")
          (hashPassword sample_kdf "pw" [Byte.x01; Byte.xff]) 3000 in
      verify sample_kdf sample_store "carol" "pw"
      = done_false "Invalid username or password"
      /\ verify sample_kdf s' "carol" "pw" = done_user user).
Proof.
  split; [reflexivity|].
  exact (@verify_after_createUser sample_kdf sample_store
           (InsertUser.mk "carol" "pw") [Byte.x01; Byte.xff] 3000 eq_refl).
Defined.

Example hashPassword_sample :
  hashPassword sample_kdf "pw" [Byte.x01; Byte.xff]
  = ("7077303166660000000000000000000000000000000000000000000000000000"
     ++ "0000000000000000000000000000000000000000000000000000000000000000"
     ++ ".01ff")%string.
Proof. reflexivity. Qed.

(** * The request routes *)

Lemma keyed_getUser (s : MemStorage.t) (k : Z) (user : User.t) :
  users_keyed s -> MemStorage.getUser s k = Some user -> User.id user = k.
Proof.
  intros Hkeyed Hget. apply get_In in Hget.
  unfold users_keyed in Hkeyed. rewrite Forall_forall in Hkeyed.
  apply (Hkeyed _ Hget).
Qed.

(** The admin routes answer 403 and leave the store as it was to a
    request whose session resolves to no user or to a user who is not
    an administrator. *)
Theorem admin_routes_need_admin (s : MemStorage.t) (session : option Z)
        (id : jsnum) (body : PartialUser.t) :
  (forall user, req_user s session = Some user ->
                User.isAdmin user = false) ->
  admin_get_users s session = reply_message 403 "Forbidden"
  /\ admin_patch_user s session id body
     = (s, reply_message 403 "Forbidden")
  /\ admin_delete_user s session id = (s, reply_message 403 "Forbidden").
Proof.
  intros Hno.
  unfold admin_get_users, admin_patch_user, admin_delete_user,
    requireAdmin.
  destruct (req_user s session) as [user|]; auto.
  now rewrite (Hno user eq_refl).
Qed.

Lemma admin_routes_need_admin_witness :
  let s :=
    fst (MemStorage.createUser sample_store (InsertUser.mk "carol" "pw")
                               "h3.s3" 3000) in
  admin_get_users s (Some 3) = reply_message 403 "Forbidden"
  /\ admin_patch_user s (Some 3) (Num 1)
       (PartialUser.mk None None None (Some false) None None None)
     = (s, reply_message 403 "Forbidden")
  /\ admin_delete_user s (Some 3) (Num 1)
     = (s, reply_message 403 "Forbidden").
Proof.
  intros s.
  apply (@admin_routes_need_admin s (Some 3) (Num 1)
           (PartialUser.mk None None None (Some false) None None None)).
  intros user [= <-]. reflexivity.
Defined.

(** In a store whose records sit under their own ids,
    [DELETE /api/admin/users/:id] never removes the record of the
    user who asks; when it answers 200 the record of the target is
    gone, and any other answer leaves the store as it was. *)
Theorem admin_delete_user_spares_requester
        (s : MemStorage.t) (me : Z) (id : jsnum) :
  users_keyed s ->
  let '(s', r) := admin_delete_user s (Some me) id in
  MemStorage.getUser s' me = MemStorage.getUser s me
  /\ (r = reply_status 200 ->
      exists userId,
        id = Num userId /\ userId <> me
        /\ s' = MemStorage.banUser s userId
        /\ MemStorage.getUser s' userId = None)
  /\ (r <> reply_status 200 -> s' = s).
Proof.
  intros Hkeyed. unfold admin_delete_user, requireAdmin, req_user,
    deserializeUser.
  destruct (MemStorage.getUser s me) as [admin|] eqn:Hme;
    [|repeat split; auto; discriminate].
  destruct (User.isAdmin admin); simpl;
    [|repeat split; auto; discriminate].
  destruct id as [|userId]; [repeat split; auto; discriminate|].
  rewrite (keyed_getUser _ Hkeyed Hme).
  destruct (userId =? me) eqn:E; [repeat split; auto; discriminate|].
  apply Z.eqb_neq in E. split; [|split].
  - rewrite <- Hme. unfold MemStorage.getUser, MemStorage.banUser.
    cbn [MemStorage.users]. apply get_delete_other. congruence.
  - intros _. exists userId. repeat split; auto. apply get_delete_same.
  - intros Hne. now contradiction Hne.
Qed.

Lemma admin_delete_user_spares_requester_witness :
  users_keyed sample_store
  /\ admin_delete_user sample_store (Some 1) (Num 1)
     = (sample_store, reply_message 403 "Cannot delete your own account")
  /\ (let '(s', r) := admin_delete_user sample_store (Some 1) (Num 2) in
      MemStorage.getUser s' 1 = MemStorage.getUser sample_store 1
      /\ (r = reply_status 200 ->
          exists userId,
            Num 2 = Num userId /\ userId <> 1
            /\ s' = MemStorage.banUser sample_store userId
            /\ MemStorage.getUser s' userId = None)
      /\ (r <> reply_status 200 -> s' = sample_store)).
Proof.
  assert (H : users_keyed sample_store) by (repeat constructor).
  split; [exact H|]. split; [reflexivity|].
  exact (@admin_delete_user_spares_requester sample_store 1 (Num 2) H).
Defined.

(** In a store whose records sit under their own ids,
    [PATCH /api/admin/users/:id] never changes the administrator flag
    of the user who asks, whatever the target and the body. *)
Theorem admin_patch_user_keeps_own_flag
        (s : MemStorage.t) (me : Z) (id : jsnum) (body : PartialUser.t) :
  users_keyed s ->
  option_map User.isAdmin
    (MemStorage.getUser (fst (admin_patch_user s (Some me) id body)) me)
  = option_map User.isAdmin (MemStorage.getUser s me).
Proof.
  intros Hkeyed. unfold admin_patch_user, requireAdmin, req_user,
    deserializeUser.
  destruct (MemStorage.getUser s me) as [admin|] eqn:Hme;
    [|simpl; now rewrite Hme].
  destruct (User.isAdmin admin) eqn:Hadmin; simpl;
    [|now rewrite Hme].
  destruct id as [|userId]; [simpl; now rewrite Hme|].
  destruct (MemStorage.getUser s userId) as [user|] eqn:Huser;
    [|simpl; now rewrite Hme].
  rewrite (keyed_getUser _ Hkeyed Hme).
  destruct (userId =? me) eqn:E; simpl.
  - apply Z.eqb_eq in E. subst userId.
    destruct (PartialUser.isAdmin body) as [flag|] eqn:Eflag; simpl;
      [now rewrite Hme|].
    unfold MemStorage.updateUser. rewrite Huser. simpl.
    unfold MemStorage.getUser. cbn [MemStorage.set_users MemStorage.users].
    rewrite get_set_same. simpl. rewrite Eflag. simpl. congruence.
  - apply Z.eqb_neq in E.
    unfold MemStorage.updateUser. rewrite Huser. simpl.
    unfold MemStorage.getUser in *.
    cbn [MemStorage.set_users MemStorage.users].
    rewrite get_set_other by congruence. now rewrite Hme.
Qed.

Lemma admin_patch_user_keeps_own_flag_witness :
  users_keyed sample_store
  /\ admin_patch_user sample_store (Some 1) (Num 1)
       (PartialUser.mk None None None (Some false) None None None)
     = (sample_store,
        reply_message 403 "Cannot modify your own admin status")
  /\ option_map User.isAdmin
       (MemStorage.getUser
          (fst (admin_patch_user sample_store (Some 1) (Num 1)
                  (PartialUser.mk None (Some "root") None None None None
                                  None)))
          1)
     = option_map User.isAdmin (MemStorage.getUser sample_store 1).
Proof.
  assert (H : users_keyed sample_store) by (repeat constructor).
  split; [exact H|]. split; [reflexivity|].
  exact (@admin_patch_user_keeps_own_flag sample_store 1 (Num 1)
           (PartialUser.mk None (Some "root") None None None None None) H).
Defined.

(** The precondition is needed: the route lets an administrator
    overwrite the [id] field of the own record, after which the own
    record is no longer recognised as own and can be deleted. *)
Example admin_delete_after_id_patch :
  let s1 :=
    fst (admin_patch_user sample_store (Some 1) (Num 1)
           (PartialUser.mk (Some 99) None None None None None None)) in
  MemStorage.getUser s1 1
  = Some (User.mk 99 "admin" "h1.s1" true "offline" None 1000)
  /\ snd (admin_delete_user s1 (Some 1) (Num 1)) = reply_status 200
  /\ MemStorage.getUser (fst (admin_delete_user s1 (Some 1) (Num 1))) 1
     = None.
Proof. repeat split. Qed.

(** [GET /api/messages/:userId] answers a request without a login
    session with 401 and one whose parameter is not a number with 400;
    every other request is answered with exactly
    [getMessages(requester, userId)], each message of which the user
    who asks has sent to [userId] or received from [userId]. *)
Theorem get_messages_only_own (s : MemStorage.t) (session : option Z)
        (userId : jsnum) :
  (req_user s session = None ->
   get_messages s session userId = reply_message 401 "Unauthorized")
  /\ (forall me,
         req_user s session = Some me -> userId = NaN ->
         get_messages s session userId
         = reply_message 400 "Invalid user ID")
  /\ (forall me other,
         req_user s session = Some me -> userId = Num other ->
         get_messages s session userId
         = reply_messages (MemStorage.getMessages s (User.id me) other)
         /\ forall m,
             In m (MemStorage.getMessages s (User.id me) other) ->
             (Message.senderId m = User.id me
              /\ Message.receiverId m = other)
             \/ (Message.senderId m = other
                 /\ Message.receiverId m = User.id me))
  /\ (forall messages,
         get_messages s session userId = reply_messages messages ->
         exists me other,
           req_user s session = Some me /\ userId = Num other
           /\ messages = MemStorage.getMessages s (User.id me) other
           /\ forall m, In m messages ->
                (Message.senderId m = User.id me
                 /\ Message.receiverId m = other)
                \/ (Message.senderId m = other
                    /\ Message.receiverId m = User.id me)).
Proof.
  assert (Hbetween : forall a b m,
             In m (MemStorage.getMessages s a b) ->
             (Message.senderId m = a /\ Message.receiverId m = b)
             \/ (Message.senderId m = b /\ Message.receiverId m = a)).
  { intros a b m Hin. unfold MemStorage.getMessages in Hin.
    apply filter_In in Hin as [_ Hb]. unfold MemStorage.between in Hb.
    apply orb_true_iff in Hb as [Hb|Hb];
      apply andb_true_iff in Hb as [H1 H2];
      apply Z.eqb_eq in H1, H2; auto. }
  unfold get_messages, requireAuth.
  split; [now intros ->|]. split; [now intros me -> ->|]. split.
  - intros me other -> ->. split; [reflexivity|]. apply Hbetween.
  - intros messages.
    destruct (req_user s session) as [me|]; [|discriminate].
    destruct userId as [|other]; [discriminate|].
    intros [= <-]. exists me, other. repeat split; auto.
Qed.

Lemma get_messages_only_own_witness :
  get_messages sample_store None (Num 2)
  = reply_message 401 "Unauthorized"
  /\ get_messages sample_store (Some 2) NaN
     = reply_message 400 "Invalid user ID"
  /\ get_messages sample_store (Some 2) (Num 1)
     = reply_messages (MemStorage.getMessages sample_store 2 1)
  /\ MemStorage.getMessages sample_store 2 1
     = [Message.mk 1 1 2 "QUJDRA==" 1002]
  /\ forall m,
      In m (MemStorage.getMessages sample_store 2 1) ->
      (Message.senderId m = 2 /\ Message.receiverId m = 1)
      \/ (Message.senderId m = 1 /\ Message.receiverId m = 2).
Proof.
  destruct (get_messages_only_own sample_store None (Num 2)) as [H401 _].
  destruct (get_messages_only_own sample_store (Some 2) NaN)
    as (_ & H400 & _).
  destruct (get_messages_only_own sample_store (Some 2) (Num 1))
    as (_ & _ & Hown & _).
  destruct (Hown (User.mk 2 "Said158" "h2.s2" true "offline" None 1001) 1
                 eq_refl eq_refl) as [Hreply Hall].
  split; [apply H401; reflexivity|].
  split; [apply (H400 (User.mk 2 "Said158" "h2.s2" true "offline" None 1001));
          reflexivity|].
  split; [exact Hreply|]. split; [reflexivity|exact Hall].
Defined.

Lemma req_user_same_users (s s' : MemStorage.t) (session : option Z) :
  MemStorage.users s' = MemStorage.users s ->
  req_user s' session = req_user s session.
Proof.
  intros Hu. unfold req_user, deserializeUser, MemStorage.getUser.
  now rewrite Hu.
Qed.

Lemma getUserByUsername_getUser (s : MemStorage.t) (name : string)
      (user : User.t) :
  store_wf s ->
  MemStorage.getUserByUsername s name = Some user ->
  MemStorage.getUser s (User.id user) = Some user.
Proof.
  intros (Hnd & _ & _ & _ & Hkeyed & _) Hfind.
  unfold MemStorage.getUserByUsername in Hfind.
  apply find_some in Hfind as [Hin _].
  unfold JsMap.values in Hin. apply in_map_iff in Hin as ([k u] & Hu & Hin).
  simpl in Hu. subst u.
  unfold users_keyed in Hkeyed. rewrite Forall_forall in Hkeyed.
  pose proof (Hkeyed _ Hin) as Hk. simpl in Hk. subst k.
  unfold MemStorage.getUser. now apply In_get.
Qed.

(** [POST /api/contacts] with the name of another stored user answers
    with that user and makes it a contact of the user who asks: it is
    then among the contacts [GET /api/contacts] lists for that user,
    while the contact set of the user added is as before (the edge is
    directed). *)
Theorem post_contacts_adds (s : MemStorage.t) (session : option Z)
        (name : string) (me contact : User.t) :
  store_wf s ->
  req_user s session = Some me ->
  name <> "" ->
  MemStorage.getUserByUsername s name = Some contact ->
  User.id contact <> User.id me ->
  let '(s', r) := post_contacts s session (Some name) in
  r = reply_user contact
  /\ (exists listed,
         get_contacts s' session = reply_users listed /\ In contact listed)
  /\ contacts_of s' (User.id contact) = contacts_of s (User.id contact).
Proof.
  intros Hwf Hme Hname Hfind Hne.
  unfold post_contacts, requireAuth. rewrite Hme.
  apply String.eqb_neq in Hname. rewrite Hname, Hfind.
  apply Z.eqb_neq in Hne. rewrite Hne. apply Z.eqb_neq in Hne.
  set (s' := MemStorage.addContact s (User.id me) (User.id contact)).
  destruct (addContact_adds_once s (User.id me) (User.id contact))
    as (Hmem & Hother & Hu & _).
  fold s' in Hmem, Hother, Hu.
  split; [reflexivity|]. split.
  - exists (MemStorage.getContacts s' (User.id me)). split.
    + unfold get_contacts, requireAuth.
      now rewrite (req_user_same_users s s' session Hu), Hme.
    + assert (Hkeyed' : users_keyed s').
      { unfold users_keyed. rewrite Hu. apply Hwf. }
      apply (proj2 (getContacts_members (User.id me) Hkeyed')). split.
      * apply Hmem. auto.
      * unfold MemStorage.getUser. rewrite Hu.
        now apply (getUserByUsername_getUser name Hwf).
  - unfold contacts_of. now rewrite Hother.
Qed.

Lemma sample_store_wf : store_wf sample_store.
Proof.
  repeat split; repeat constructor; simpl; try lia; intuition lia.
Qed.

Lemma post_contacts_adds_witness :
  store_wf sample_store
  /\ req_user sample_store (Some 2)
     = Some (User.mk 2 "Said158" "h2.s2" true "offline" None 1001)
  /\ MemStorage.getUserByUsername sample_store "admin"
     = Some (User.mk 1 "admin" "h1.s1" true "offline" None 1000)
  /\ (let '(s', r) := post_contacts sample_store (Some 2) (Some "admin") in
      r = reply_user (User.mk 1 "admin" "h1.s1" true "offline" None 1000)
      /\ (exists listed,
             get_contacts s' (Some 2) = reply_users listed
             /\ In (User.mk 1 "admin" "h1.s1" true "offline" None 1000)
                   listed)
      /\ contacts_of s' 1 = contacts_of sample_store 1).
Proof.
  split; [exact sample_store_wf|]. split; [reflexivity|].
  split; [reflexivity|].
  apply (@post_contacts_adds sample_store (Some 2) "admin"
           (User.mk 2 "Said158" "h2.s2" true "offline" None 1001)
           (User.mk 1 "admin" "h1.s1" true "offline" None 1000)
           sample_store_wf eq_refl);
    [discriminate | reflexivity | discriminate].
Defined.

(** Closes the cases in which a route answers without writing. *)
Ltac unchanged :=
  solve [repeat split; auto; try discriminate; try (intros; congruence)].

(** [POST /api/contacts] touches nothing but the contact set of the
    user who asks: users, messages and the contact sets of all other
    users are as before, the user who asks is never added to the own
    contact set, and a request without a session, without a name or
    with an unknown name leaves the store as it was. *)
Theorem post_contacts_frame (s : MemStorage.t) (session : option Z)
        (username : option string) :
  let '(s', r) := post_contacts s session username in
  MemStorage.users s' = MemStorage.users s
  /\ MemStorage.messages s' = MemStorage.messages s
  /\ (forall me, req_user s session = Some me ->
        (forall owner, owner <> User.id me ->
           JsMap.get (MemStorage.contacts s') owner
           = JsMap.get (MemStorage.contacts s) owner)
        /\ (In (User.id me) (contacts_of s' (User.id me)) ->
            In (User.id me) (contacts_of s (User.id me))))
  /\ (req_user s session = None -> s' = s /\ r = reply_message 401 "Unauthorized")
  /\ (username = None \/ username = Some "" -> s' = s)
  /\ (forall name, username = Some name ->
        MemStorage.getUserByUsername s name = None -> s' = s).
Proof.
  unfold post_contacts, requireAuth.
  destruct (req_user s session) as [me|]; [|unchanged].
  destruct username as [name|]; [|unchanged].
  destruct (String.eqb name "") eqn:En; [unchanged|].
  apply String.eqb_neq in En.
  destruct (MemStorage.getUserByUsername s name) as [contact|] eqn:Hfind;
    [|unchanged].
  destruct (User.id contact =? User.id me) eqn:E; [unchanged|].
  apply Z.eqb_neq in E.
  destruct (addContact_adds_once s (User.id me) (User.id contact))
    as (Hmem & Hother & Hu & Hm & _).
  split; [exact Hu|]. split; [exact Hm|]. split; [|split; [|split]].
  - intros me' [= <-]. split; auto.
    intros Hin. apply Hmem in Hin as [Hin|Hin]; auto. congruence.
  - discriminate.
  - intros [H|H]; [discriminate|]. injection H as ->. contradiction.
  - intros n [= <-]. congruence.
Qed.

(** Once a user is banned, a session of that user is refused by every
    route: 401 by the routes of logged-in users, 403 by the admin
    routes, and the store is left as it was. *)
Theorem banned_session_refused (s : MemStorage.t) (id : Z)
        (username : option string) (param : jsnum)
        (body : PartialUser.t) :
  let s' := MemStorage.banUser s id in
  req_user s' (Some id) = None
  /\ get_contacts s' (Some id) = reply_message 401 "Unauthorized"
  /\ post_contacts s' (Some id) username
     = (s', reply_message 401 "Unauthorized")
  /\ get_messages s' (Some id) param = reply_message 401 "Unauthorized"
  /\ get_user s' (Some id) param = reply_message 401 "Unauthorized"
  /\ admin_get_users s' (Some id) = reply_message 403 "Forbidden"
  /\ admin_patch_user s' (Some id) param body
     = (s', reply_message 403 "Forbidden")
  /\ admin_delete_user s' (Some id) param
     = (s', reply_message 403 "Forbidden").
Proof.
  intros s'.
  assert (Hnone : req_user s' (Some id) = None).
  { unfold req_user, deserializeUser, MemStorage.getUser. subst s'.
    unfold MemStorage.banUser. cbn [MemStorage.users].
    apply get_delete_same. }
  unfold get_contacts, post_contacts, get_messages, get_user,
    admin_get_users, admin_patch_user, admin_delete_user.
  rewrite Hnone. repeat split.
Qed.

(** * Further properties of the realtime layer *)

(** A connection attempt without the marker ["session"], or without a
    [userId] parameter, or with an empty one, is refused and leaves
    the server as it was; any other attempt adds one connection, under
    an identifier not in use, bound to the number the parameter
    converts to and in no room, and sends nothing. *)
Theorem connection_attempt {S : Type} `{IStorage S}
        (Number : string -> jsnum) (srv : Server.t S) (h : Handshake.t) :
  (Handshake.auth_token h <> Some "session"
   \/ Handshake.query_userId h = None
   \/ Handshake.query_userId h = Some "" ->
   io_use Number h = Throw "Authentication error"
   /\ on_connection Number srv h = srv)
  /\ (forall claimed,
         Handshake.auth_token h = Some "session" ->
         Handshake.query_userId h = Some claimed ->
         claimed <> "" ->
         on_connection Number srv h
         = Server.mk (Server.storage srv)
                     (Server.sockets srv
                        ++ [Socket.mk (Server.next_socket srv) h
                                      (Number claimed) []])
                     (Datatypes.S (Server.next_socket srv))
                     (Server.sent srv)
         /\ (sockets_wf srv ->
             find_socket srv (Server.next_socket srv) = None
             /\ sockets_wf (on_connection Number srv h))).
Proof.
  split.
  - intros Hbad.
    assert (Hthrow : io_use Number h = Throw "Authentication error").
    { unfold io_use.
      destruct (Handshake.auth_token h) as [token|]; auto.
      destruct (String.eqb token "session") eqn:Et; auto.
      apply String.eqb_eq in Et. subst token.
      destruct Hbad as [Hbad|[->| ->]]; auto. congruence. }
    split; auto. unfold on_connection. now rewrite Hthrow.
  - intros claimed Htok Hq Hne.
    assert (Hok : io_use Number h = Ok (Number claimed)).
    { unfold io_use. rewrite Htok, Hq. simpl.
      apply String.eqb_neq in Hne. now rewrite Hne. }
    split.
    + unfold on_connection. now rewrite Hok.
    + intros Hwf. split.
      * unfold find_socket.
        destruct (find _ _) as [sock|] eqn:Hf; auto.
        apply find_some in Hf as [Hin Heq]. apply Nat.eqb_eq in Heq.
        destruct Hwf as [_ Hlt]. rewrite Forall_forall in Hlt.
        specialize (Hlt _ (in_map Socket.id _ _ Hin)). lia.
      * apply (step_sockets_wf Number (Connect h, 0) Hwf).
Qed.

Lemma connection_attempt_witness :
  on_connection Number_of_digits sample_server
                (Handshake.mk (Some 1) (Some "token") (Some "1"))
  = sample_server
  /\ on_connection Number_of_digits sample_server (plain_handshake "2")
     = Server.mk sample_store
                 (sample_sockets
                    ++ [Socket.mk 3 (plain_handshake "2") (Num 2) []])
                 4%nat [].
Proof.
  destruct (connection_attempt Number_of_digits sample_server
              (Handshake.mk (Some 1) (Some "token") (Some "1")))
    as [Hbad _].
  destruct (connection_attempt Number_of_digits sample_server
              (plain_handshake "2")) as [_ Hgood].
  split.
  - apply Hbad. left. discriminate.
  - apply (Hgood "2"); [reflexivity | reflexivity | discriminate].
Defined.

(** A [join] for a userId other than the one the connection is bound
    to is answered with one error sent to that connection; the
    connection joins no room, and the store is as it was, whatever
    the store implementation. *)
Theorem join_other_userId_rejected
        {S : Type} `{IStorage S} (srv : Server.t S) (sid : nat)
        (socket : Socket.t) (userId : Z) (now : Z) :
  find_socket srv sid = Some socket ->
  Num userId <> Socket.data_userId socket ->
  let srv' := on_join srv sid userId now in
  Server.sent srv' = Server.sent srv ++ [(sid, ev_error "Invalid user ID")]
  /\ Server.sockets srv' = Server.sockets srv
  /\ Server.storage srv' = Server.storage srv.
Proof.
  intros Hfind Hne. unfold on_join. rewrite Hfind.
  assert (strict_neq (Num userId) (Socket.data_userId socket) = true)
    as ->.
  { destruct (Socket.data_userId socket) as [|z]; simpl; auto.
    apply negb_true_iff, Z.eqb_neq. congruence. }
  simpl. auto.
Qed.

Lemma join_other_userId_rejected_witness :
  let srv' := on_join sample_server 2 1 3000 in
  Server.sent srv' = [(2%nat, ev_error "Invalid user ID")]
  /\ Server.sockets srv' = sample_sockets
  /\ Server.storage srv' = sample_store.
Proof.
  apply (@join_other_userId_rejected _ _ sample_server 2%nat
           (Socket.mk 2 (plain_handshake "3") (Num 3) []) 1 3000).
  - reflexivity.
  - discriminate.
Defined.

Lemma step_process_ended {S : Type} `{IStorage S}
      (Number : string -> jsnum) (es : list (inbound * Z)) :
  fold_left (step_process Number) es None = None.
Proof. induction es as [|e es IH]; simpl; auto. Qed.

(** While the process lives, its run is the run of the handlers. *)
Lemma run_process_run {S : Type} `{IStorage S}
      (Number : string -> jsnum) (es : list (inbound * Z)) :
  forall srv srv' : Server.t S,
    run_process Number srv es = Some srv' -> run Number srv es = srv'.
Proof.
  unfold run_process, run.
  induction es as [|e es IH]; intros srv srv'; simpl.
  - now intros [= ->].
  - destruct (rejects_unhandled srv e).
    + now rewrite step_process_ended.
    + apply IH.
Qed.

(** A connection bound to a userId that has no record (a user banned
    meanwhile, or an id never handed out) ends the process: its
    [join] puts it in the room and then rejects unhandled, before any
    status is stored or announced, and so does its termination when
    the userId is not [0]; no later event is handled.  These are the
    only events that end the process. *)
Theorem presence_of_missing_user
        (Number : string -> jsnum) (srv : Server.t MemStorage.t) :
  (forall (sid : nat) (socket : Socket.t) (userId : Z) (now : Z)
          (es : list (inbound * Z)),
      find_socket srv sid = Some socket ->
      Socket.data_userId socket = Num userId ->
      MemStorage.getUser (Server.storage srv) userId = None ->
      (rejects_unhandled srv (Join sid userId, now) = true
       /\ run_process Number srv ((Join sid userId, now) :: es) = None
       /\ Server.storage (on_join srv sid userId now) = Server.storage srv
       /\ Server.sent (on_join srv sid userId now) = Server.sent srv
       /\ Server.sockets (on_join srv sid userId now)
          = update_socket (Socket.join socket userId) (Server.sockets srv))
      /\ (userId <> 0 ->
          rejects_unhandled srv (Disconnect sid, now) = true
          /\ run_process Number srv ((Disconnect sid, now) :: es) = None
          /\ Server.storage (on_disconnect srv sid now)
             = Server.storage srv
          /\ Server.sent (on_disconnect srv sid now) = Server.sent srv))
  /\ (forall e : inbound * Z,
         rejects_unhandled srv e = true ->
         exists sid socket userId,
           find_socket srv sid = Some socket
           /\ Socket.data_userId socket = Num userId
           /\ MemStorage.getUser (Server.storage srv) userId = None
           /\ (fst e = Join sid userId
               \/ (fst e = Disconnect sid /\ userId <> 0))).
Proof.
  split.
  - intros sid socket userId now es Hf Hb Hnone.
    assert (Hthrow : forall status,
               MemStorage.updateUserStatus (Server.storage srv) userId
                                           status now
               = Throw "User not found").
    { intros status. unfold MemStorage.updateUserStatus.
      now rewrite Hnone. }
    assert (Hj : rejects_unhandled srv (Join sid userId, now) = true).
    { cbn [rejects_unhandled]. rewrite Hf, Hb. cbn [strict_neq].
      rewrite Z.eqb_refl. cbn [negb updateUserStatus MemStorage_IStorage].
      now rewrite Hthrow. }
    split.
    + split; [exact Hj|]. split.
      { unfold run_process. cbn [fold_left step_process]. rewrite Hj.
        apply step_process_ended. }
      unfold on_join. rewrite Hf, Hb. cbn [strict_neq].
      rewrite Z.eqb_refl.
      cbn [negb with_sockets Server.storage updateUserStatus
           MemStorage_IStorage].
      rewrite Hthrow. repeat split.
    + intros Hnz. apply Z.eqb_neq in Hnz.
      assert (Hd : rejects_unhandled srv (Disconnect sid, now) = true).
      { cbn [rejects_unhandled]. rewrite Hf, Hb. cbn [truthy].
        rewrite Hnz. cbn [negb updateUserStatus MemStorage_IStorage].
        now rewrite Hthrow. }
      split; [exact Hd|]. split.
      { unfold run_process. cbn [fold_left step_process]. rewrite Hd.
        apply step_process_ended. }
      unfold on_disconnect. rewrite Hf, Hb. cbn [truthy]. rewrite Hnz.
      cbn [negb with_sockets Server.storage updateUserStatus
           MemStorage_IStorage].
      rewrite Hthrow. repeat split.
  - intros [[h|sid userId|sid data|sid] now]; cbn [rejects_unhandled fst];
      try discriminate.
    + destruct (find_socket srv sid) as [socket|] eqn:Hf; [|discriminate].
      destruct (strict_neq _ _) eqn:Hneq; [discriminate|].
      apply strict_neq_false in Hneq as (z & [= <-] & Hb).
      cbn [updateUserStatus MemStorage_IStorage].
      unfold MemStorage.updateUserStatus.
      destruct (MemStorage.getUser (Server.storage srv) userId) eqn:Hu;
        [discriminate|].
      intros _. exists sid, socket, userId. repeat split; auto.
    + destruct (find_socket srv sid) as [socket|] eqn:Hf; [|discriminate].
      destruct (Socket.data_userId socket) as [|userId] eqn:Hb;
        [discriminate|].
      cbn [truthy]. destruct (userId =? 0) eqn:Hz; [discriminate|].
      apply Z.eqb_neq in Hz.
      cbn [negb updateUserStatus MemStorage_IStorage].
      unfold MemStorage.updateUserStatus.
      destruct (MemStorage.getUser (Server.storage srv) userId) eqn:Hu;
        [discriminate|].
      intros _. exists sid, socket, userId. repeat split; auto.
Qed.

Lemma presence_of_missing_user_witness :
  rejects_unhandled sample_server (Join 2 3, 3000) = true
  /\ run_process Number_of_digits sample_server
       [(Join 2 3, 3000); (Join 0 1, 3001)] = None
  /\ Server.sockets (on_join sample_server 2 3 3000)
     = [ Socket.mk 0 (plain_handshake "1") (Num 1) [1];
         Socket.mk 1 (plain_handshake "1") (Num 1) [1];
         Socket.mk 2 (plain_handshake "3") (Num 3) [3] ]
  /\ Server.sent (on_join sample_server 2 3 3000) = []
  /\ run_process Number_of_digits sample_server
       [(Disconnect 2, 3000); (Join 0 1, 3001)] = None
  /\ run_process Number_of_digits (Server.init sample_store)
       [(Connect (plain_handshake "999"), 3000); (Disconnect 0, 3001)]
     = None.
Proof.
  destruct (presence_of_missing_user Number_of_digits sample_server)
    as [Hends _].
  destruct (Hends 2%nat (Socket.mk 2 (plain_handshake "3") (Num 3) []) 3
                  3000 [(Join 0 1, 3001)] eq_refl eq_refl eq_refl)
    as [(Hj & Hrun & _ & Hsent & Hsock) Hd].
  destruct Hd as (_ & Hrun' & _); [discriminate|].
  split; [exact Hj|]. split; [exact Hrun|]. split; [exact Hsock|].
  split; [exact Hsent|]. split; [exact Hrun'|]. reflexivity.
Defined.

(** The termination of a connection bound to [0] or to [NaN] removes
    the connection and does nothing else: no status is written and
    nothing is sent, whatever the store implementation. *)
Theorem disconnect_falsy_userId
        {S : Type} `{IStorage S} (srv : Server.t S) (sid : nat)
        (socket : Socket.t) (now : Z) :
  find_socket srv sid = Some socket ->
  truthy (Socket.data_userId socket) = false ->
  on_disconnect srv sid now
  = with_sockets srv
      (filter (fun s => negb (Nat.eqb (Socket.id s) sid))
              (Server.sockets srv)).
Proof.
  intros Hf Hfalsy. unfold on_disconnect. rewrite Hf.
  destruct (Socket.data_userId socket) as [|userId]; auto.
  now rewrite Hfalsy.
Qed.

Lemma disconnect_falsy_userId_witness :
  let srv :=
    run Number_of_digits (Server.init sample_store)
        [(Connect (plain_handshake "0"), 2000);
         (Connect (plain_handshake "x"), 2001)] in
  Server.sockets srv
  = [Socket.mk 0 (plain_handshake "0") (Num 0) [];
     Socket.mk 1 (plain_handshake "x") NaN []]
  /\ on_disconnect srv 0 2002
     = Server.mk sample_store [Socket.mk 1 (plain_handshake "x") NaN []]
                 2%nat []
  /\ on_disconnect srv 1 2002
     = Server.mk sample_store [Socket.mk 0 (plain_handshake "0") (Num 0) []]
                 2%nat [].
Proof.
  intros srv. split; [reflexivity|]. split.
  - rewrite (@disconnect_falsy_userId _ _ srv 0%nat
               (Socket.mk 0 (plain_handshake "0") (Num 0) []) 2002
               eq_refl eq_refl).
    reflexivity.
  - rewrite (@disconnect_falsy_userId _ _ srv 1%nat
               (Socket.mk 1 (plain_handshake "x") NaN []) 2002
               eq_refl eq_refl).
    reflexivity.
Defined.

Lemma in_room_In (room : Z) (s : Socket.t) :
  in_room room s = true <-> In room (Socket.rooms s).
Proof.
  unfold in_room. rewrite existsb_exists. split.
  - intros (r & Hr & E). apply Z.eqb_eq in E. now subst.
  - intros Hin. exists room. split; auto. apply Z.eqb_refl.
Qed.

Lemma NoDup_ids_filter (keep : Socket.t -> bool) (sockets : list Socket.t) :
  NoDup (map Socket.id sockets) ->
  NoDup (map Socket.id (filter keep sockets)).
Proof.
  induction sockets as [|s0 r IH]; simpl; auto.
  intros Hnd. apply NoDup_cons_iff in Hnd as [Hnot Hnd].
  destruct (keep s0); simpl; auto. constructor; auto.
  intros Hin. apply Hnot. apply in_map_iff in Hin as (x & Hx & Hin).
  apply filter_In in Hin as [Hin _]. rewrite <- Hx. now apply in_map.
Qed.

Lemma on_chat_message_authorised
      (srv : Server.t MemStorage.t) (sid : nat) (socket : Socket.t)
      (data : ChatData.t) (now : Z) :
  find_socket srv sid = Some socket ->
  Socket.data_userId socket = Num (ChatData.senderId data) ->
  on_chat_message srv sid data now
  = let created :=
      MemStorage.createMessage (Server.storage srv)
        (InsertMessage.mk (ChatData.senderId data)
                          (ChatData.receiverId data)
                          (ChatData.content data)) now in
    io_to_emit (with_storage srv (fst created)) (ChatData.senderId data)
               (ChatData.receiverId data) (ev_new_message (snd created)).
Proof.
  intros Hf Hb. unfold on_chat_message. rewrite Hf, Hb.
  cbn [strict_neq]. rewrite Z.eqb_refl. reflexivity.
Qed.

(** An authorised [chat_message], sent on a server that started with
    no connection: the message is stored under the next message id
    and [new_message] goes, once each, to exactly the connections
    that are in the room of the sender or of the receiver, all of
    which are bound to the sender or to the receiver. *)
Theorem new_message_delivery
        (Number : string -> jsnum) (st : MemStorage.t)
        (es : list (inbound * Z)) (sid : nat) (socket : Socket.t)
        (data : ChatData.t) (now : Z) :
  let srv := run Number (Server.init st) es in
  let sender := ChatData.senderId data in
  let receiver := ChatData.receiverId data in
  find_socket srv sid = Some socket ->
  Socket.data_userId socket = Num sender ->
  let srv' := on_chat_message srv sid data now in
  let saved :=
    Message.mk (MemStorage.currentMessageId (Server.storage srv))
               sender receiver (ChatData.content data) now in
  Server.sent srv'
  = Server.sent srv
      ++ map (fun s => (Socket.id s, ev_new_message saved))
             (recipients srv sender receiver)
  /\ NoDup (map Socket.id (recipients srv sender receiver))
  /\ (forall sock,
         In sock (recipients srv sender receiver)
         <-> In sock (Server.sockets srv)
             /\ (In sender (Socket.rooms sock)
                 \/ In receiver (Socket.rooms sock)))
  /\ (forall sock,
         In sock (recipients srv sender receiver) ->
         Socket.data_userId sock = Num sender
         \/ Socket.data_userId sock = Num receiver)
  /\ Server.storage srv'
     = fst (MemStorage.createMessage (Server.storage srv)
              (InsertMessage.mk sender receiver (ChatData.content data))
              now)
  /\ In saved (MemStorage.getMessages (Server.storage srv') sender receiver).
Proof.
  intros srv sender receiver Hf Hb srv' saved.
  assert (Hinit : sockets_wf (Server.init st)
                  /\ Forall (bound_well Number)
                            (Server.sockets (Server.init st))).
  { repeat split; constructor. }
  destruct Hinit as [Hwf0 Hall0].
  destruct (@run_invariant _ _ Number es (Server.init st) Hwf0 Hall0)
    as [[Hnd _] Hall].
  fold srv in Hnd, Hall. rewrite Forall_forall in Hall.
  clearbody srv.
  assert (Hrec : forall sock,
             In sock (recipients srv sender receiver)
             <-> In sock (Server.sockets srv)
                 /\ (In sender (Socket.rooms sock)
                     \/ In receiver (Socket.rooms sock))).
  { intros sock. unfold recipients.
    rewrite filter_In, orb_true_iff, !in_room_In. tauto. }
  subst srv' saved sender receiver.
  rewrite (@on_chat_message_authorised srv sid socket data now Hf Hb).
  unfold io_to_emit, deliver, with_storage, MemStorage.createMessage.
  cbn [Server.sent Server.storage Server.sockets fst snd].
  split; [reflexivity|]. split.
  { unfold recipients. now apply NoDup_ids_filter. }
  split; [exact Hrec|]. split.
  { intros sock Hin. apply Hrec in Hin as [Hin Hroom].
    destruct (Hall _ Hin) as [_ Hown]. destruct Hroom; auto. }
  split; [reflexivity|].
  unfold MemStorage.getMessages. cbn [MemStorage.messages].
  apply filter_In. split.
  - apply in_map_iff. eexists (_, _). split; [reflexivity|].
    apply get_In. apply get_set_same.
  - unfold MemStorage.between. cbn [Message.senderId Message.receiverId].
    now rewrite !Z.eqb_refl.
Qed.

Lemma new_message_delivery_witness :
  let es :=
    [(Connect (plain_handshake "1"), 2000);
     (Connect (plain_handshake "2"), 2001);
     (Connect (plain_handshake "1"), 2002);
     (Connect (plain_handshake "2"), 2003);
     (Join 0 1, 2004); (Join 1 2, 2005); (Join 2 1, 2006)] in
  let srv := run Number_of_digits (Server.init sample_store) es in
  let data := ChatData.mk "chat" 1 2 "QQ==" in
  find_socket srv 0 = Some (Socket.mk 0 (plain_handshake "1") (Num 1) [1])
  /\ map Socket.id (recipients srv 1 2) = [0%nat; 1%nat; 2%nat]
  /\ NoDup (map Socket.id (recipients srv 1 2))
  /\ In (Message.mk 2 1 2 "QQ==" 2007)
        (MemStorage.getMessages
           (Server.storage (on_chat_message srv 0 data 2007)) 1 2).
Proof.
  intros es srv data.
  destruct (@new_message_delivery Number_of_digits sample_store es 0%nat
              (Socket.mk 0 (plain_handshake "1") (Num 1) [1]) data 2007
              eq_refl eq_refl)
    as (_ & Hnd & _ & _ & _ & Hin).
  split; [reflexivity|]. split; [reflexivity|]. split; assumption.
Defined.

(** Where the store of the next state comes from. *)
Lemma storage_step (Number : string -> jsnum)
      (srv : Server.t MemStorage.t) (e : inbound * Z) :
  Server.storage (step Number srv e) = Server.storage srv
  \/ (exists userId status now,
         Server.storage (step Number srv e)
         = after (Server.storage srv)
                 (MemStorage.updateUserStatus (Server.storage srv) userId
                                              status now))
  \/ (exists message now,
         Server.storage (step Number srv e)
         = fst (MemStorage.createMessage (Server.storage srv) message now)).
Proof.
  destruct e as [[h|sid userId|sid data|sid] now]; simpl.
  - left. unfold on_connection. now destruct (io_use Number h).
  - unfold on_join. destruct (find_socket srv sid); auto.
    destruct (strict_neq _ _); auto.
    cbn [with_sockets Server.storage updateUserStatus MemStorage_IStorage].
    right. left. exists userId, "online", now.
    now destruct (MemStorage.updateUserStatus _ _ _ _) as [[s1 u]|].
  - unfold on_chat_message. destruct (find_socket srv sid); auto.
    destruct (strict_neq _ _); auto.
    right. right.
    exists (InsertMessage.mk (ChatData.senderId data)
                             (ChatData.receiverId data)
                             (ChatData.content data)), now.
    reflexivity.
  - unfold on_disconnect. destruct (find_socket srv sid) as [socket|]; auto.
    destruct (Socket.data_userId socket) as [|userId]; auto.
    destruct (truthy _); auto.
    cbn [with_sockets Server.storage updateUserStatus MemStorage_IStorage].
    right. left. exists userId, "offline", now.
    now destruct (MemStorage.updateUserStatus _ _ _ _) as [[s1 u]|].
Qed.

Lemma after_updateUserStatus (s : MemStorage.t) (id : Z) (status : string)
      (now : Z) :
  let s' := after s (MemStorage.updateUserStatus s id status now) in
  MemStorage.contacts s' = MemStorage.contacts s
  /\ MemStorage.messages s' = MemStorage.messages s
  /\ MemStorage.currentId s' = MemStorage.currentId s
  /\ MemStorage.currentMessageId s' = MemStorage.currentMessageId s
  /\ JsMap.keys (MemStorage.users s') = JsMap.keys (MemStorage.users s)
  /\ forall k, option_map identity_of (MemStorage.getUser s' k)
               = option_map identity_of (MemStorage.getUser s k).
Proof.
  unfold MemStorage.updateUserStatus.
  destruct (MemStorage.getUser s id) as [user|] eqn:Hget;
    cbn [after]; [|repeat split].
  unfold MemStorage.set_users, MemStorage.getUser in *.
  cbn [MemStorage.users MemStorage.contacts MemStorage.messages
       MemStorage.currentId MemStorage.currentMessageId].
  split; [reflexivity|]. split; [reflexivity|]. split; [reflexivity|].
  split; [reflexivity|]. split.
  - apply keys_set_present. now apply get_Some_key in Hget.
  - intros k. destruct (Z.eq_dec k id) as [->|Hne].
    + now rewrite get_set_same, Hget.
    + now rewrite get_set_other.
Qed.

Lemma step_store_frame
      (Number : string -> jsnum) (srv : Server.t MemStorage.t)
      (e : inbound * Z) :
  let s := Server.storage srv in
  let s' := Server.storage (step Number srv e) in
  MemStorage.contacts s' = MemStorage.contacts s
  /\ MemStorage.currentId s' = MemStorage.currentId s
  /\ JsMap.keys (MemStorage.users s') = JsMap.keys (MemStorage.users s)
  /\ (forall k, option_map identity_of (MemStorage.getUser s' k)
                = option_map identity_of (MemStorage.getUser s k))
  /\ (message_ids_below s ->
      message_ids_below s'
      /\ exists new, MemStorage.messages s' = MemStorage.messages s ++ new).
Proof.
  intros s s'. subst s s'.
  destruct (storage_step Number srv e)
    as [-> | [(userId & status & now & ->) | (message & now & ->)]].
  - do 4 (split; [reflexivity|]).
    intros Hb. split; auto. exists []. now rewrite app_nil_r.
  - destruct (after_updateUserStatus (Server.storage srv) userId status now)
      as (Hc & Hm & Hi & Hj & Hk & Hid).
    split; [exact Hc|]. split; [exact Hi|]. split; [exact Hk|].
    split; [exact Hid|].
    intros Hb. split.
    + unfold message_ids_below in *. now rewrite Hm, Hj.
    + exists []. now rewrite app_nil_r, Hm.
  - unfold MemStorage.createMessage. cbn [fst].
    do 4 (split; [reflexivity|]).
    intros Hbelow.
    assert (Hfresh : ~ In (MemStorage.currentMessageId (Server.storage srv))
                          (JsMap.keys
                             (MemStorage.messages (Server.storage srv)))).
    { intros Hin. unfold message_ids_below in Hbelow.
      rewrite Forall_forall in Hbelow. specialize (Hbelow _ Hin). lia. }
    split.
    + unfold message_ids_below in *.
      cbn [MemStorage.messages MemStorage.currentMessageId].
      apply Forall_keys_set; [|lia].
      eapply Forall_impl; [|exact Hbelow]. simpl. intros; lia.
    + eexists. cbn [MemStorage.messages]. now apply set_fresh.
Qed.

(** No sequence of realtime events touches the contact sets, adds or
    removes a user, or changes the id, name, password, administrator
    flag or public key of a user; and it removes or replaces no
    message: with the message keys below the counter, the messages
    after the events are the messages before them, followed by the
    new ones. *)
Theorem realtime_store_frame
        (Number : string -> jsnum) (es : list (inbound * Z))
        (srv : Server.t MemStorage.t) :
  let s := Server.storage srv in
  let s' := Server.storage (run Number srv es) in
  MemStorage.contacts s' = MemStorage.contacts s
  /\ MemStorage.currentId s' = MemStorage.currentId s
  /\ JsMap.keys (MemStorage.users s') = JsMap.keys (MemStorage.users s)
  /\ (forall k, option_map identity_of (MemStorage.getUser s' k)
                = option_map identity_of (MemStorage.getUser s k))
  /\ (message_ids_below s ->
      exists new, MemStorage.messages s' = MemStorage.messages s ++ new).
Proof.
  cbv zeta. unfold run. revert srv.
  induction es as [|e es IH]; intros srv; simpl.
  - do 4 (split; [reflexivity|]). intros _. exists [].
    now rewrite app_nil_r.
  - destruct (IH (step Number srv e)) as (Hc & Hi & Hk & Hid & Hm).
    destruct (step_store_frame Number srv e)
      as (Hc1 & Hi1 & Hk1 & Hid1 & Hm1).
    cbv zeta in *.
    split; [congruence|]. split; [congruence|]. split; [congruence|].
    split; [intros k; now rewrite Hid, Hid1|].
    intros Hb. destruct (Hm1 Hb) as [Hb1 [new1 E1]].
    destruct (Hm Hb1) as [new E]. exists (new1 ++ new).
    now rewrite E, E1, app_assoc.
Qed.

Lemma realtime_store_frame_witness :
  let es :=
    [(Connect (plain_handshake "1"), 2000); (Join 0 1, 2001);
     (ChatMessage 0 (ChatData.mk "chat" 1 2 "QQ=="), 2002);
     (Disconnect 0, 2003)] in
  let s' :=
    Server.storage (run Number_of_digits (Server.init sample_store) es) in
  message_ids_below sample_store
  /\ MemStorage.contacts s' = MemStorage.contacts sample_store
  /\ (forall k, option_map identity_of (MemStorage.getUser s' k)
                = option_map identity_of (MemStorage.getUser sample_store k))
  /\ exists new,
      MemStorage.messages s' = MemStorage.messages sample_store ++ new.
Proof.
  intros es s'.
  assert (Hb : message_ids_below sample_store)
    by (repeat constructor; simpl; lia).
  destruct (realtime_store_frame Number_of_digits es
              (Server.init sample_store)) as (Hc & _ & _ & Hid & Hm).
  split; [exact Hb|]. split; [exact Hc|]. split; [exact Hid|].
  exact (Hm Hb).
Defined.

(** A connection bound to [NaN] (its [userId] parameter was not a
    number) can do nothing: each of its [join] and [chat_message]
    events is answered with an error and changes neither the store
    nor the rooms. *)
Theorem nan_connection_inert
        {S : Type} `{IStorage S} (srv : Server.t S) (sid : nat)
        (socket : Socket.t) (userId : Z) (data : ChatData.t) (now : Z) :
  find_socket srv sid = Some socket ->
  Socket.data_userId socket = NaN ->
  on_join srv sid userId now
  = socket_emit srv sid (ev_error "Invalid user ID")
  /\ on_chat_message srv sid data now
     = socket_emit srv sid (ev_error "Unauthorized message sender").
Proof.
  intros Hf Hb. unfold on_join, on_chat_message. now rewrite Hf, Hb.
Qed.

Lemma nan_connection_inert_witness :
  let srv :=
    run Number_of_digits (Server.init sample_store)
        [(Connect (plain_handshake "me"), 2000)] in
  Server.sockets srv = [Socket.mk 0 (plain_handshake "me") NaN []]
  /\ on_join srv 0 1 2001
     = socket_emit srv 0 (ev_error "Invalid user ID")
  /\ on_chat_message srv 0 (ChatData.mk "chat" 1 2 "QQ==") 2001
     = socket_emit srv 0 (ev_error "Unauthorized message sender").
Proof.
  intros srv. split; [reflexivity|].
  exact (@nan_connection_inert _ _ srv 0%nat
           (Socket.mk 0 (plain_handshake "me") NaN []) 1
           (ChatData.mk "chat" 1 2 "QQ==") 2001 eq_refl eq_refl).
Defined.

(** * The websocket handler *)

(** [handleWebSocketMessage] stores a message exactly when the text
    parses to an object of type ["chat"] whose sender and receiver
    both have a record and whose content is encoded: it then
    broadcasts the stored message once and reports no error.  In
    every other case the store is as it was and nothing is broadcast;
    an object of another type is ignored without an answer, and text
    that does not parse is answered with "Invalid message format". *)
Theorem handleWebSocketMessage_cases
        (st : MemStorage.t) (data : ChatData.t) (now : Z) :
  let accepted :=
    String.eqb (ChatData.type data) "chat"
    && JsMap.has (MemStorage.users st) (ChatData.senderId data)
    && JsMap.has (MemStorage.users st) (ChatData.receiverId data)
    && looks_encrypted (ChatData.content data) in
  let created :=
    MemStorage.createMessage st
      (InsertMessage.mk (ChatData.senderId data) (ChatData.receiverId data)
                        (ChatData.content data)) now in
  (accepted = true ->
   handleWebSocketMessage st (Ok data) now
   = (fst created, [ws_broadcast_new_message (snd created)]))
  /\ (accepted = false ->
      fst (handleWebSocketMessage st (Ok data) now) = st
      /\ forall m,
          ~ In (ws_broadcast_new_message m)
               (snd (handleWebSocketMessage st (Ok data) now)))
  /\ (ChatData.type data <> "chat" ->
      handleWebSocketMessage st (Ok data) now = (st, []))
  /\ (forall err,
        handleWebSocketMessage st (Throw err) now
        = (st, [ws_send_error "Invalid message format"])).
Proof.
  cbv zeta. unfold handleWebSocketMessage, JsMap.has.
  cbn [getUser createMessage MemStorage_IStorage].
  unfold MemStorage.getUser.
  destruct (String.eqb (ChatData.type data) "chat") eqn:Et.
  - apply String.eqb_eq in Et.
    destruct (JsMap.get (MemStorage.users st) (ChatData.senderId data));
      destruct (JsMap.get (MemStorage.users st) (ChatData.receiverId data));
      destruct (looks_encrypted (ChatData.content data));
      cbn [andb negb fst snd];
      (split; [try discriminate; auto|]);
      (split; [try discriminate;
               intros _; split; auto; intros m [Hm|[]]; discriminate|]);
      (split; [congruence|reflexivity]).
  - split; [discriminate|]. split; [|split; auto].
    intros _. split; auto.
Qed.

Lemma handleWebSocketMessage_cases_witness :
  handleWebSocketMessage sample_store
    (Ok (ChatData.mk "chat" 2 1 "QQ==")) 3000
  = (fst (MemStorage.createMessage sample_store
            (InsertMessage.mk 2 1 "QQ==") 3000),
     [ws_broadcast_new_message (Message.mk 2 2 1 "QQ==" 3000)])
  /\ fst (handleWebSocketMessage sample_store
            (Ok (ChatData.mk "chat" 2 7 "QQ==")) 3000)
     = sample_store
  /\ handleWebSocketMessage sample_store
       (Ok (ChatData.mk "typing" 2 1 "QQ==")) 3000
     = (sample_store, []).
Proof.
  destruct (handleWebSocketMessage_cases sample_store
              (ChatData.mk "chat" 2 1 "QQ==") 3000) as (Hyes & _).
  destruct (handleWebSocketMessage_cases sample_store
              (ChatData.mk "chat" 2 7 "QQ==") 3000) as (_ & Hno & _).
  destruct (handleWebSocketMessage_cases sample_store
              (ChatData.mk "typing" 2 1 "QQ==") 3000)
    as (_ & _ & Hother & _).
  split; [apply Hyes; reflexivity|]. split.
  - apply Hno. reflexivity.
  - apply Hother. discriminate.
Defined.

(** * The encoded-content check *)

Lemma encoded_char_alphabet (c : ascii) :
  encoded_char c = existsb (Ascii.eqb c) encoded_alphabet.
Proof.
  destruct c as [[] [] [] [] [] [] [] []]; reflexivity.
Qed.

(** The content check accepts exactly the non-empty strings all of
    whose characters are among the 65 characters
    [A]-[Z], [a]-[z], [0]-[9], [+], [/] and [=]. *)
Theorem looks_encrypted_alphabet (s : string) :
  looks_encrypted s = true
  <-> s <> ""
      /\ forall c, In c (list_ascii_of_string s) -> In c encoded_alphabet.
Proof.
  assert (Hall : forall t,
             all_encoded t = true
             <-> forall c, In c (list_ascii_of_string t) ->
                           In c encoded_alphabet).
  { induction t as [|c r IH]; simpl.
    - split; [intros _ c []|auto].
    - rewrite andb_true_iff, IH, encoded_char_alphabet, existsb_exists.
      split.
      + intros [(x & Hx & E) Hr] c' [<-|Hin].
        * apply Ascii.eqb_eq in E. now subst.
        * now apply Hr.
      + intros Hc. split.
        * exists c. split; [apply Hc; auto | apply Ascii.eqb_refl].
        * intros c' Hin. apply Hc. auto. }
  destruct s as [|c r].
  - simpl. split; [discriminate|]. intros [Hne _]. now contradiction Hne.
  - unfold looks_encrypted. rewrite Hall. split.
    + intros H. split; [discriminate|exact H].
    + intros [_ H]. exact H.
Qed.

(** * Registration and repeated joins *)



Lemma Socket_join_idem (s : Socket.t) (room : Z) :
  Socket.join (Socket.join s room) room = Socket.join s room.
Proof.
  unfold Socket.join. cbn [Socket.id Socket.handshake Socket.data_userId
                           Socket.rooms].
  destruct (existsb (Z.eqb room) (Socket.rooms s)) eqn:E.
  - now rewrite E.
  - assert (existsb (Z.eqb room) (Socket.rooms s ++ [room]) = true) as ->;
      auto.
    rewrite existsb_app. simpl. now rewrite Z.eqb_refl, !orb_true_r.
Qed.

Lemma find_update_socket (l : list Socket.t) (sid : nat)
      (socket sock' : Socket.t) :
  find (fun s => Nat.eqb (Socket.id s) sid) l = Some socket ->
  Socket.id sock' = Socket.id socket ->
  find (fun s => Nat.eqb (Socket.id s) sid) (update_socket sock' l)
  = Some sock'.
Proof.
  intros Hf Hid. pose proof (find_some _ _ Hf) as [_ Hsid].
  apply Nat.eqb_eq in Hsid.
  induction l as [|s0 l IH]; simpl in *; [discriminate|].
  destruct (Nat.eqb (Socket.id s0) sid) eqn:E.
  - apply Nat.eqb_eq in E.
    assert (Nat.eqb (Socket.id s0) (Socket.id sock') = true) as ->
      by (apply Nat.eqb_eq; congruence).
    assert (Nat.eqb (Socket.id sock') sid = true) as ->
      by (apply Nat.eqb_eq; congruence).
    reflexivity.
  - assert (Nat.eqb (Socket.id s0) (Socket.id sock') = false) as ->.
    { apply Nat.eqb_neq. apply Nat.eqb_neq in E. congruence. }
    rewrite E. auto.
Qed.

Lemma update_socket_twice (l : list Socket.t) (a b : Socket.t) :
  Socket.id a = Socket.id b ->
  update_socket a (update_socket b l) = update_socket a l.
Proof.
  intros Hid. unfold update_socket. rewrite map_map. apply map_ext.
  intros s0. rewrite Hid.
  destruct (Nat.eqb (Socket.id s0) (Socket.id b)) eqn:E.
  - now rewrite Nat.eqb_refl.
  - now rewrite E.
Qed.

(** A validated [join] of an existing user announces the status
    ["online"] once to every connected socket, and may be repeated:
    a second [join] of the same connection leaves the rooms of all
    connections as the first left them and makes the announcement
    again. *)
Theorem join_repeated (srv : Server.t MemStorage.t) (sid : nat)
        (socket : Socket.t) (userId : Z) (user : User.t) (now now' : Z) :
  find_socket srv sid = Some socket ->
  Socket.data_userId socket = Num userId ->
  MemStorage.getUser (Server.storage srv) userId = Some user ->
  let srv1 := on_join srv sid userId now in
  let srv2 := on_join srv1 sid userId now' in
  Server.sent srv1
  = Server.sent srv
      ++ map (fun s => (Socket.id s, ev_user_status_changed userId "online"))
             (Server.sockets srv1)
  /\ map Socket.id (Server.sockets srv1) = map Socket.id (Server.sockets srv)
  /\ Server.sockets srv2 = Server.sockets srv1
  /\ Server.sent srv2
     = Server.sent srv1
         ++ map (fun s => (Socket.id s, ev_user_status_changed userId "online"))
                (Server.sockets srv1).
Proof.
  intros Hf Hb Hu.
  assert (H1 : on_join srv sid userId now
               = io_emit
                   (with_storage
                      (with_sockets srv
                         (update_socket (Socket.join socket userId)
                                        (Server.sockets srv)))
                      (MemStorage.set_users (Server.storage srv)
                         (JsMap.set (MemStorage.users (Server.storage srv))
                            userId (User.with_status user "online" now))))
                   (ev_user_status_changed userId "online")).
  { unfold on_join. rewrite Hf, Hb. cbn [strict_neq].
    rewrite Z.eqb_refl. cbn [negb].
    cbn [with_sockets Server.storage updateUserStatus MemStorage_IStorage].
    unfold MemStorage.updateUserStatus. now rewrite Hu. }
  cbv zeta. rewrite H1.
  set (srv1 := io_emit _ _).
  assert (Hs1 : Server.sockets srv1
                = update_socket (Socket.join socket userId)
                                (Server.sockets srv)) by reflexivity.
  assert (Hf1 : find_socket srv1 sid = Some (Socket.join socket userId)).
  { unfold find_socket. rewrite Hs1.
    apply find_update_socket with (socket := socket); auto. }
  assert (Hu1 : MemStorage.getUser (Server.storage srv1) userId
                = Some (User.with_status user "online" now)).
  { subst srv1. unfold MemStorage.getUser.
    cbn [io_emit deliver with_storage Server.storage MemStorage.set_users
         MemStorage.users].
    apply get_set_same. }
  split; [reflexivity|]. split.
  { rewrite Hs1. apply ids_update_socket. }
  assert (H2 : on_join srv1 sid userId now'
               = io_emit
                   (with_storage
                      (with_sockets srv1
                         (update_socket
                            (Socket.join (Socket.join socket userId) userId)
                            (Server.sockets srv1)))
                      (MemStorage.set_users (Server.storage srv1)
                         (JsMap.set (MemStorage.users (Server.storage srv1))
                            userId
                            (User.with_status
                               (User.with_status user "online" now)
                               "online" now'))))
                   (ev_user_status_changed userId "online")).
  { unfold on_join. rewrite Hf1.
    cbn [Socket.join Socket.data_userId]. rewrite Hb. cbn [strict_neq].
    rewrite Z.eqb_refl. cbn [negb].
    cbn [with_sockets Server.storage updateUserStatus MemStorage_IStorage].
    unfold MemStorage.updateUserStatus. now rewrite Hu1. }
  rewrite H2.
  assert (Hs2 : update_socket
                  (Socket.join (Socket.join socket userId) userId)
                  (Server.sockets srv1)
                = Server.sockets srv1).
  { rewrite Socket_join_idem, Hs1. now apply update_socket_twice. }
  split.
  - cbn [io_emit deliver with_storage with_sockets Server.sockets].
    exact Hs2.
  - cbn [io_emit deliver with_storage with_sockets Server.sockets
         Server.sent].
    now rewrite Hs2.
Qed.

Lemma join_repeated_witness :
  let srv1 := on_join sample_server 0 1 3000 in
  let srv2 := on_join srv1 0 1 3001 in
  Server.sent srv1
  = [(0%nat, ev_user_status_changed 1 "online");
     (1%nat, ev_user_status_changed 1 "online");
     (2%nat, ev_user_status_changed 1 "online")]
  /\ Server.sockets srv2 = Server.sockets srv1
  /\ Server.sent srv2 = Server.sent srv1 ++ Server.sent srv1.
Proof.
  destruct (@join_repeated sample_server 0%nat
              (Socket.mk 0 (plain_handshake "1") (Num 1) [1]) 1
              (User.mk 1 "admin" "h1.s1" true "offline" None 1000)
              3000 3001 eq_refl eq_refl eq_refl)
    as (H1 & _ & H2 & H3).
  split; [exact H1|]. split; [exact H2|]. exact H3.
Defined.

Lemma getUserByUsername_finds_witness :
  MemStorage.getUserByUsername sample_store "Said158"
  = Some (User.mk 2 "Said158" "h2.s2" true "offline" None 1001)
  /\ (exists before after,
         MemStorage.getAllUsers sample_store
         = before ++ User.mk 2 "Said158" "h2.s2" true "offline" None 1001
                  :: after
         /\ forall u, In u before -> User.username u <> "Said158")
  /\ forall u, In u (MemStorage.getAllUsers sample_store) ->
               User.username u <> "carol".
Proof.
  destruct (getUserByUsername_finds sample_store "Said158") as [Hsome _].
  destruct (getUserByUsername_finds sample_store "carol") as [_ Hnone].
  split; [reflexivity|]. split.
  - apply (Hsome _ eq_refl).
  - apply Hnone. reflexivity.
Defined.

Lemma post_contacts_frame_witness :
  post_contacts sample_store None (Some "admin")
  = (sample_store, reply_message 401 "Unauthorized")
  /\ post_contacts sample_store (Some 1) (Some "admin")
     = (sample_store, reply_message 400 "Cannot add yourself as a contact")
  /\ fst (post_contacts sample_store (Some 1) (Some "nobody"))
     = sample_store.
Proof.
  pose proof (post_contacts_frame sample_store None (Some "admin")) as H0.
  pose proof (post_contacts_frame sample_store (Some 1) (Some "nobody"))
    as H1.
  destruct (post_contacts sample_store None (Some "admin")) as [s0 r0].
  destruct (post_contacts sample_store (Some 1) (Some "nobody"))
    as [s1 r1].
  destruct H0 as (_ & _ & _ & Hno & _).
  destruct H1 as (_ & _ & _ & _ & _ & Hunknown).
  destruct (Hno eq_refl) as [-> ->].
  split; [reflexivity|]. split; [reflexivity|].
  apply (Hunknown "nobody"); reflexivity.
Defined.

(** * What [banUser] removes and what it leaves *)

(** Every user [getContacts] returns is the record found under one of
    the contact ids. *)
Lemma getContacts_keys (s : MemStorage.t) (owner : Z) (user : User.t) :
  In user (MemStorage.getContacts s owner) ->
  exists k, In k (contacts_of s owner) /\ MemStorage.getUser s k = Some user.
Proof.
  unfold MemStorage.getContacts, contacts_of, MemStorage.getUser.
  intros Hin. apply In_defined, in_map_iff in Hin as (k & Hget & Hin).
  eauto.
Qed.

Lemma contacts_banUser (s : MemStorage.t) (id owner : Z) :
  owner <> id ->
  JsMap.get (MemStorage.contacts (MemStorage.banUser s id)) owner
  = option_map (fun set => JsSet.delete set id)
               (JsMap.get (MemStorage.contacts s) owner).
Proof.
  intros Hne. unfold MemStorage.banUser. cbn [MemStorage.contacts].
  rewrite (get_map_values (fun set => JsSet.delete set id)).
  now rewrite get_delete_other.
Qed.

Lemma contacts_of_banUser (s : MemStorage.t) (id owner : Z) :
  owner <> id ->
  contacts_of (MemStorage.banUser s id) owner
  = JsSet.delete (contacts_of s owner) id.
Proof.
  intros Hne. unfold contacts_of. rewrite contacts_banUser by exact Hne.
  now destruct (JsMap.get (MemStorage.contacts s) owner).
Qed.

Lemma contacts_of_banUser_self (s : MemStorage.t) (id : Z) :
  contacts_of (MemStorage.banUser s id) id = [].
Proof.
  unfold contacts_of, MemStorage.banUser. cbn [MemStorage.contacts].
  rewrite (get_map_values (fun set => JsSet.delete set id)).
  now rewrite get_delete_same.
Qed.

(** No call stores a record under an id that has been handed out and
    has no record. *)
Lemma absent_perform (id : Z) (s : MemStorage.t) (c : store_call) :
  MemStorage.getUser s id = None -> id < MemStorage.currentId s ->
  MemStorage.getUser (perform s c) id = None
  /\ id < MemStorage.currentId (perform s c).
Proof.
  intros Habsent Hlt.
  assert (Hreplace : forall k user updated,
             MemStorage.getUser s k = Some user ->
             MemStorage.getUser
               (MemStorage.set_users s
                  (JsMap.set (MemStorage.users s) k updated)) id = None).
  { intros k user updated Hget. unfold MemStorage.getUser in *.
    cbn [MemStorage.set_users MemStorage.users].
    rewrite get_set_other; auto. intros ->. congruence. }
  destruct c as [iu h now|k st now|k updates|k pk|k|m now|k|a b];
    cbn [perform].
  - unfold MemStorage.createUser, MemStorage.getUser in *.
    cbn [fst MemStorage.users MemStorage.currentId]. split; [|lia].
    rewrite get_set_other; auto. lia.
  - unfold MemStorage.updateUserStatus.
    destruct (MemStorage.getUser s k) as [user|] eqn:Hget; cbn [after];
      [|auto].
    split; [now apply Hreplace with (user := user)|exact Hlt].
  - unfold MemStorage.updateUser.
    destruct (MemStorage.getUser s k) as [user|] eqn:Hget; cbn [after];
      [|auto].
    split; [now apply Hreplace with (user := user)|exact Hlt].
  - unfold MemStorage.updateUserPublicKey.
    destruct (MemStorage.getUser s k) as [user|] eqn:Hget; cbn [after];
      [|auto].
    split; [now apply Hreplace with (user := user)|exact Hlt].
  - split; [|exact Hlt].
    unfold MemStorage.getUser, MemStorage.banUser in *.
    cbn [MemStorage.users].
    destruct (Z.eq_dec id k) as [->|Hne].
    + apply get_delete_same.
    + now rewrite get_delete_other.
  - auto.
  - auto.
  - destruct (addContact_frame s a b) as (Hu & _ & Hi & _).
    unfold MemStorage.getUser in *. rewrite Hu, Hi. auto.
Qed.

Lemma absent_perform_all (id : Z) (calls : list store_call) :
  forall s : MemStorage.t,
    MemStorage.getUser s id = None -> id < MemStorage.currentId s ->
    MemStorage.getUser (fold_left perform calls s) id = None.
Proof.
  induction calls as [|c calls IH]; intros s Habsent Hlt; simpl; auto.
  destruct (@absent_perform id s c Habsent Hlt) as [Ha Hl]. now apply IH.
Qed.

(** Two stores the methods build on which [getContacts] returns a user
    with the banned id after [banUser].  In the first, [updateUser]
    was given an [id] field, as [PATCH /api/admin/users/:id] lets it
    be: the record of user 3 carries the id 2, user 3 is a contact of
    user 1, and after [banUser(2)] the contacts of user 1 hold a user
    with id 2.  In the second, the id banned had not been handed out
    yet: the user created next gets it and is returned as a contact. *)
Lemma banUser_contact_with_banned_id :
  let s0 :=
    fold_left perform
      [call_createUser (InsertUser.mk "admin" "S1582834") "h1.s1" 1000;
       call_createUser (InsertUser.mk "Said158" "S@@d261008") "h2.s2" 1001;
       call_createUser (InsertUser.mk "carol" "pw") "h3.s3" 1002;
       call_addContact 1 3]
      MemStorage.empty in
  let patched :=
    perform s0
      (call_updateUser 3
         (PartialUser.mk (Some 2) None None None None None None)) in
  let later :=
    fold_left perform
      [call_createUser (InsertUser.mk "dave" "pw") "h4.s4" 1003;
       call_addContact 1 4]
      (MemStorage.banUser s0 4) in
  MemStorage.getContacts (MemStorage.banUser patched 2) 1
  = [User.mk 2 "carol" "h3.s3" false "offline" None 1002]
  /\ MemStorage.getContacts later 1
     = [User.mk 3 "carol" "h3.s3" false "offline" None 1002;
        User.mk 4 "dave" "h4.s4" false "offline" None 1003].
Proof. split; reflexivity. Qed.

(** C7, as the code has it: [banUser(id)] deletes the record stored
    under [id] and the contact set of [id], takes [id] out of every
    other contact set, and leaves everything else as it was: the
    other records and their order, the other members of every contact
    set, the messages and the counters.  [getContacts] of another user
    then returns the records found under the remaining contact ids,
    each stored under an id other than [id]; contacts being resolved
    by the key a record is stored under, the [id] field of a returned
    record differs from [id] when every record is stored under its
    own id.  When [id] had been handed out by the counter this stays
    so after any later calls on the store: no record is stored under
    [id] again, and, no [updateUser] being given an [id] field, no
    returned record carries it.  Banning the same id a second time
    changes nothing. *)
Theorem banUser_purges (s : MemStorage.t) (id : Z) :
  let s' := MemStorage.banUser s id in
  (MemStorage.getUser s' id = None
   /\ JsMap.get (MemStorage.contacts s') id = None
   /\ (forall owner set,
          JsMap.get (MemStorage.contacts s') owner = Some set ->
          ~ In id set))
  /\ ((forall other, other <> id ->
          MemStorage.getUser s' other = MemStorage.getUser s other)
      /\ JsMap.keys (MemStorage.users s')
         = filter (fun k => negb (id =? k)) (JsMap.keys (MemStorage.users s))
      /\ (forall owner, owner <> id ->
            JsMap.get (MemStorage.contacts s') owner
            = option_map (fun set => JsSet.delete set id)
                         (JsMap.get (MemStorage.contacts s) owner))
      /\ JsMap.keys (MemStorage.contacts s')
         = filter (fun k => negb (id =? k))
                  (JsMap.keys (MemStorage.contacts s))
      /\ MemStorage.messages s' = MemStorage.messages s
      /\ MemStorage.currentId s' = MemStorage.currentId s
      /\ MemStorage.currentMessageId s' = MemStorage.currentMessageId s)
  /\ ((forall owner, owner <> id ->
          MemStorage.getContacts s' owner
          = defined (map (MemStorage.getUser s)
                         (JsSet.delete (contacts_of s owner) id)))
      /\ MemStorage.getContacts s' id = []
      /\ (forall owner user,
            In user (MemStorage.getContacts s' owner) ->
            exists k,
              k <> id /\ In k (contacts_of s owner)
              /\ MemStorage.getUser s k = Some user)
      /\ (users_keyed s ->
          forall owner user,
            In user (MemStorage.getContacts s' owner) ->
            User.id user <> id))
  /\ (id < MemStorage.currentId s ->
      forall calls : list store_call,
        let later := fold_left perform calls s' in
        MemStorage.getUser later id = None
        /\ (forall owner user,
              In user (MemStorage.getContacts later owner) ->
              exists k,
                k <> id /\ In k (contacts_of later owner)
                /\ MemStorage.getUser later k = Some user)
        /\ (users_keyed s -> Forall keeps_id calls ->
            forall owner user,
              In user (MemStorage.getContacts later owner) ->
              User.id user <> id))
  /\ MemStorage.banUser s' id = s'.
Proof.
  intros s'.
  assert (Habsent : MemStorage.getUser s' id = None)
    by apply get_delete_same.
  assert (Hother : forall other, other <> id ->
             MemStorage.getUser s' other = MemStorage.getUser s other).
  { intros other Hne. subst s'. unfold MemStorage.getUser, MemStorage.banUser.
    cbn [MemStorage.users]. now apply get_delete_other. }
  assert (Hfrom : forall t owner user,
             MemStorage.getUser t id = None ->
             In user (MemStorage.getContacts t owner) ->
             exists k,
               k <> id /\ In k (contacts_of t owner)
               /\ MemStorage.getUser t k = Some user).
  { intros t owner user Ht Hin.
    apply getContacts_keys in Hin as (k & Hk & Hget).
    exists k. repeat split; auto. intros ->. congruence. }
  split; [|split; [|split; [|split]]].
  - split; [exact Habsent|]. split.
    + subst s'. unfold MemStorage.banUser. cbn [MemStorage.contacts].
      rewrite (get_map_values (fun c => JsSet.delete c id)),
        get_delete_same.
      reflexivity.
    + intros owner set Hget. subst s'. unfold MemStorage.banUser in Hget.
      cbn [MemStorage.contacts] in Hget.
      rewrite (get_map_values (fun c => JsSet.delete c id)) in Hget.
      destruct (JsMap.get (JsMap.delete (MemStorage.contacts s) id) owner);
        simpl in Hget; [|discriminate].
      injection Hget as <-. apply JsSet_delete_not_In.
  - split; [exact Hother|]. split.
    { subst s'. unfold MemStorage.banUser. cbn [MemStorage.users].
      apply keys_delete. }
    split.
    { intros owner Hne. now apply contacts_banUser. }
    split.
    { subst s'. unfold MemStorage.banUser. cbn [MemStorage.contacts].
      rewrite (keys_map_values (fun c => JsSet.delete c id)).
      apply keys_delete. }
    repeat split.
  - split.
    { intros owner Hne.
      assert (Hc := @contacts_of_banUser s id owner Hne). fold s' in Hc.
      change (MemStorage.getContacts s' owner)
        with (defined (map (fun k => JsMap.get (MemStorage.users s') k)
                           (contacts_of s' owner))).
      rewrite Hc. f_equal. apply map_ext_in. intros k Hk.
      apply (Hother k). intros ->.
      now apply JsSet_delete_not_In in Hk. }
    split.
    { change (MemStorage.getContacts s' id)
        with (defined (map (fun k => JsMap.get (MemStorage.users s') k)
                           (contacts_of s' id))).
      subst s'. now rewrite contacts_of_banUser_self. }
    split.
    { intros owner user Hin.
      destruct (Hfrom s' owner user Habsent Hin) as (k & Hne & Hk & Hget).
      exists k. split; [exact Hne|]. split.
      - destruct (Z.eq_dec owner id) as [->|Hown].
        + subst s'. rewrite contacts_of_banUser_self in Hk. destruct Hk.
        + subst s'. rewrite (@contacts_of_banUser s id owner Hown) in Hk.
          unfold JsSet.delete in Hk. now apply filter_In in Hk as [Hk _].
      - now rewrite <- (Hother k Hne). }
    intros Hkeyed. apply getContacts_absent; auto.
    now apply users_keyed_banUser.
  - intros Hlt calls later.
    assert (Hlater : MemStorage.getUser later id = None).
    { apply absent_perform_all; auto. }
    split; [exact Hlater|]. split.
    + intros owner user. now apply Hfrom.
    + intros Hkeyed Hcalls.
      assert (Hgone : gone id s').
      { repeat split; auto. now apply users_keyed_banUser. }
      destruct (@gone_perform_all id calls s' Hgone Hcalls) as (Hk & Ha & _).
      now apply getContacts_absent.
  - subst s'. unfold MemStorage.banUser.
    cbn [MemStorage.users MemStorage.contacts MemStorage.messages
         MemStorage.currentId MemStorage.currentMessageId].
    f_equal.
    + apply delete_idem.
    + rewrite (delete_map_values (fun c => JsSet.delete c id)),
        delete_idem, map_map.
      apply map_ext. intros [k c]. cbn [fst snd].
      now rewrite JsSet_delete_idem.
Qed.

Lemma banUser_purges_witness :
  users_keyed sample_store
  /\ 2 < MemStorage.currentId sample_store
  /\ MemStorage.getContacts sample_store 1
     = [User.mk 2 "Said158" "h2.s2" true "offline" None 1001]
  /\ MemStorage.getContacts (MemStorage.banUser sample_store 2) 1 = []
  /\ MemStorage.getUser (MemStorage.banUser sample_store 2) 1
     = MemStorage.getUser sample_store 1
  /\ (forall owner user,
        In user
           (MemStorage.getContacts
              (fold_left perform
                 [call_addContact 1 2;
                  call_createUser (InsertUser.mk "Said158" "again") "h3.s3"
                                  3000;
                  call_addContact 1 3]
                 (MemStorage.banUser sample_store 2))
              owner) ->
        User.id user <> 2)
  /\ MemStorage.banUser (MemStorage.banUser sample_store 2) 2
     = MemStorage.banUser sample_store 2.
Proof.
  assert (Hk : users_keyed sample_store) by (repeat constructor).
  assert (Hlt : 2 < MemStorage.currentId sample_store) by reflexivity.
  destruct (banUser_purges sample_store 2)
    as (_ & (Hother & _) & (Hexact & _) & Hlater & Hagain).
  destruct (Hlater Hlt
              [call_addContact 1 2;
               call_createUser (InsertUser.mk "Said158" "again") "h3.s3"
                               3000;
               call_addContact 1 3]) as (_ & _ & Hids).
  split; [exact Hk|]. split; [exact Hlt|]. split; [reflexivity|].
  split; [rewrite Hexact by discriminate; reflexivity|].
  split; [apply Hother; discriminate|].
  split; [apply Hids; [exact Hk | repeat constructor]|].
  exact Hagain.
Defined.
